(** * CodexMonitor: the session reducer, the event decoder and the TL;DR
      summarizer, embedded from [src/hooks/useSessions.ts] and
      [src/hooks/useHandoffTldr.ts].

    Conventions of the embedding.
    - A JavaScript string is the sequence of its UTF-16 code units
      ([jsstring], a [list N]), so that [length] and [slice] agree with
      the source; ASCII literals are written [lit "..."].
    - A [Record<string, T>] is a [gmap jsstring T]; reading a missing key
      gives [None] (the source's [undefined]).  Inherited properties of
      [Object.prototype] are not part of the model.
    - An array is a [list]; [arr[i] = x] on an index in range is stdpp's
      list insert.
    - [Date.now()], [Math.random()], [JSON.stringify] and [JSON.parse]
      belong to the host: they are fields of an explicit environment.
    - Integers of the source (counters, timestamps) are [Z]; the model
      covers the range in which JavaScript prints them in plain decimal. *)

From Stdlib Require Import ZArith NArith List String Ascii Decimal DecimalString Lia.
From stdpp Require Import base option list gmap.

Open Scope Z_scope.
Set Warnings "-register-all".

(** ** JavaScript strings *)

Abbreviation jsstring := (list N).

Definition lit (s : string) : jsstring :=
  map N_of_ascii (list_ascii_of_string s).

Arguments lit : simpl never.

(** U+2026, the one non-ASCII character of the source's literals. *)
Definition ellipsis : jsstring := [8230%N].

(** ["\n"] *)
Definition nl : jsstring := [10%N].

(** [`${n}`] for an integer [n]. *)
Definition String_int (n : Z) : jsstring :=
  lit (NilZero.string_of_int (Z.to_int n)).

Arguments String_int : simpl never.

(** [a.slice(start)] on arrays and strings alike: a negative [start]
    counts from the end. *)
Definition slice_from {A} (start : Z) (l : list A) : list A :=
  let len := Z.of_nat (length l) in
  let k := if start <? 0 then Z.max (len + start) 0 else Z.min start len in
  drop (Z.to_nat k) l.

(** [s.slice(0, n)] for [n >= 0]. *)
Definition slice_to {A} (n : nat) (l : list A) : list A := take n l.

(** [xs.join(sep)] on an array of strings. *)
Fixpoint join (sep : jsstring) (xs : list jsstring) : jsstring :=
  match xs with
  | [] => []
  | [x] => x
  | x :: rest => x ++ sep ++ join sep rest
  end.

(** Truthiness of a string: [""] is the only falsy one. *)
Definition nonempty (s : jsstring) : bool :=
  match s with [] => false | _ => true end.

(** [x || d] on an optional string. *)
Definition or_default (x : option jsstring) (d : jsstring) : jsstring :=
  match x with
  | Some s => if nonempty s then s else d
  | None => d
  end.


(** ** The data model ([src/types.ts]) *)

(** The string enumerations of the source, one constructor per literal. *)
Inductive ItemKind := Kmessage | Kreasoning | Kdiff | Kreview | Ktool.
Inductive Role := RoleUser | RoleAssistant.
Inductive ReviewState := ReviewStarted | ReviewCompleted.
Inductive TurnPlanStepStatus := StepPending | StepInProgress | StepCompleted.

#[global] Instance ItemKind_eq_dec : EqDecision ItemKind.
Proof. solve_decision. Defined.
#[global] Instance Role_eq_dec : EqDecision Role.
Proof. solve_decision. Defined.
#[global] Instance TurnPlanStepStatus_eq_dec : EqDecision TurnPlanStepStatus.
Proof. solve_decision. Defined.

(** One entry of a tool item's [changes]. *)
Module Change.
Record t := mk {
  path : jsstring;
  kind : option jsstring;
  diff : option jsstring }.
End Change.

(** [ConversationItem].  The source's union type is a JavaScript object:
    [id] and [kind] are always there, every other property is there or
    not.  The reducer merges two items with an object spread, which keeps
    the properties of the older item that the newer one lacks, whatever
    their kinds, so the embedding keeps the object view: one record, each
    property optional. *)
Module Item.
Record t := mk {
  id : jsstring;
  kind : ItemKind;
  role : option Role;
  text : option jsstring;
  summary : option jsstring;
  content : option jsstring;
  title : option jsstring;
  diff : option jsstring;
  status : option jsstring;
  state : option ReviewState;
  toolType : option jsstring;
  detail : option jsstring;
  output : option jsstring;
  changes : option (list Change.t) }.

(** [{ id, kind: "message", role, text }] *)
Definition message_item (i : jsstring) (r : Role) (txt : jsstring) : t :=
  mk i Kmessage (Some r) (Some txt) None None None None None None None None None None.

(** [{ id, kind: "reasoning", summary, content }] *)
Definition reasoning_item (i sm ct : jsstring) : t :=
  mk i Kreasoning None None (Some sm) (Some ct) None None None None None None None None.

(** [{ id, kind: "tool", toolType, title, detail, status, output?, changes? }] *)
Definition tool_item (i ty ti de st : jsstring) (out : option jsstring)
    (chs : option (list Change.t)) : t :=
  mk i Ktool None None None None (Some ti) None (Some st) None (Some ty) (Some de) out chs.

(** [{ id, kind: "diff", title, diff, status }] *)
Definition diff_item (i ti di st : jsstring) : t :=
  mk i Kdiff None None None None (Some ti) (Some di) (Some st) None None None None None.

(** [{ ...a, ...b }]: the properties of [b] win, those only [a] has stay. *)
Definition spread (a b : t) : t :=
  let pick {A} (x y : option A) : option A :=
    match y with Some _ => y | None => x end in
  mk (id b) (kind b)
     (pick (role a) (role b)) (pick (text a) (text b))
     (pick (summary a) (summary b)) (pick (content a) (content b))
     (pick (title a) (title b)) (pick (diff a) (diff b))
     (pick (status a) (status b)) (pick (state a) (state b))
     (pick (toolType a) (toolType b)) (pick (detail a) (detail b))
     (pick (output a) (output b)) (pick (changes a) (changes b)).

(** [{ ...a, text: v }] and its siblings. *)
Definition with_text (a : t) (v : jsstring) : t :=
  mk (id a) (kind a) (role a) (Some v) (summary a) (content a) (title a) (diff a)
     (status a) (state a) (toolType a) (detail a) (output a) (changes a).
Definition with_content (a : t) (v : jsstring) : t :=
  mk (id a) (kind a) (role a) (text a) (summary a) (Some v) (title a) (diff a)
     (status a) (state a) (toolType a) (detail a) (output a) (changes a).
Definition with_output (a : t) (v : jsstring) : t :=
  mk (id a) (kind a) (role a) (text a) (summary a) (content a) (title a) (diff a)
     (status a) (state a) (toolType a) (detail a) (Some v) (changes a).
Definition with_status (a : t) (v : jsstring) : t :=
  mk (id a) (kind a) (role a) (text a) (summary a) (content a) (title a) (diff a)
     (Some v) (state a) (toolType a) (detail a) (output a) (changes a).
Definition with_changes (a : t) (v : list Change.t) : t :=
  mk (id a) (kind a) (role a) (text a) (summary a) (content a) (title a) (diff a)
     (status a) (state a) (toolType a) (detail a) (output a) (Some v).
End Item.

Abbreviation ConversationItem := Item.t.

Module SessionSummary.
Record t := mk { id : jsstring; title : jsstring }.
End SessionSummary.

Module TurnPlanStep.
Record t := mk { step : jsstring; status : TurnPlanStepStatus }.
End TurnPlanStep.

Module TurnPlan.
Record t := mk {
  turnId : jsstring;
  explanation : option jsstring;
  steps : list TurnPlanStep.t }.
End TurnPlan.

(** The value of [sessionStatusById[id]]: built by spreading a possibly
    missing older entry, so either flag may be absent. *)
Module Status.
Record t := mk { isProcessing : option bool; hasUnread : option bool }.
Definition empty : t := mk None None.
End Status.

(** ** The reducer ([src/hooks/useSessions.ts]) *)

Definition MAX_ITEMS_PER_SESSION : Z := 400.

Module State.
Record t := mk {
  activeSessionIdByWorkspace : gmap jsstring (option jsstring);
  itemsBySession : gmap jsstring (list ConversationItem);
  sessionsByWorkspace : gmap jsstring (list SessionSummary.t);
  sessionStatusById : gmap jsstring Status.t;
  sessionListLoadingByWorkspace : gmap jsstring bool;
  planBySession : gmap jsstring (option TurnPlan.t) }.

(** [{ ...state, itemsBySession: v }] and its siblings. *)
Definition with_active (s : t) v : t :=
  mk v (itemsBySession s) (sessionsByWorkspace s) (sessionStatusById s)
     (sessionListLoadingByWorkspace s) (planBySession s).
Definition with_items (s : t) v : t :=
  mk (activeSessionIdByWorkspace s) v (sessionsByWorkspace s) (sessionStatusById s)
     (sessionListLoadingByWorkspace s) (planBySession s).
Definition with_sessions (s : t) v : t :=
  mk (activeSessionIdByWorkspace s) (itemsBySession s) v (sessionStatusById s)
     (sessionListLoadingByWorkspace s) (planBySession s).
Definition with_status (s : t) v : t :=
  mk (activeSessionIdByWorkspace s) (itemsBySession s) (sessionsByWorkspace s) v
     (sessionListLoadingByWorkspace s) (planBySession s).
Definition with_loading (s : t) v : t :=
  mk (activeSessionIdByWorkspace s) (itemsBySession s) (sessionsByWorkspace s)
     (sessionStatusById s) v (planBySession s).
Definition with_plan (s : t) v : t :=
  mk (activeSessionIdByWorkspace s) (itemsBySession s) (sessionsByWorkspace s)
     (sessionStatusById s) (sessionListLoadingByWorkspace s) v.
End State.

Abbreviation SessionState := State.t.

Inductive SessionAction :=
  | setActiveSessionId (workspaceId : jsstring) (sessionId : option jsstring)
  | ensureSession (workspaceId sessionId : jsstring) (title : option jsstring)
  | removeSession (workspaceId sessionId : jsstring)
  | clearWorkspaceSessions (workspaceId : jsstring)
  | markProcessing (sessionId : jsstring) (isProcessing : bool)
  | markUnread (sessionId : jsstring) (hasUnread : bool)
  | addUserMessage (workspaceId sessionId text : jsstring)
  | appendAssistantDelta (sessionId itemId delta : jsstring)
  | appendReasoningDelta (sessionId itemId delta : jsstring)
  | appendToolOutput (sessionId itemId delta : jsstring)
  | setToolStatus (sessionId itemId status : jsstring)
  | appendToolChanges (sessionId itemId : jsstring) (changes : list Change.t)
  | upsertItem (sessionId : jsstring) (item : ConversationItem)
  | setSessionItems (sessionId : jsstring) (items : list ConversationItem)
  | setSessions (workspaceId : jsstring) (sessions : list SessionSummary.t)
  | setSessionListLoading (workspaceId : jsstring) (isLoading : bool)
  | setSessionPlan (sessionId : jsstring) (plan : option TurnPlan.t)
  | setSessionTitle (workspaceId sessionId title : jsstring).

Definition initialState : SessionState :=
  State.mk ∅ ∅ ∅ ∅ ∅ ∅.

(** [arr.findIndex(p)]; [None] is the source's [-1]. *)
Fixpoint findIndex {A} (p : A → bool) (l : list A) : option nat :=
  match l with
  | [] => None
  | x :: rest => if p x then Some 0%nat else S <$> findIndex p rest
  end.

(** [i.id === itemId] *)
Definition has_id (itemId : jsstring) (i : ConversationItem) : bool :=
  bool_decide (Item.id i = itemId).

(** [state.itemsBySession[sessionId] || []] *)
Definition items_of (state : SessionState) (sessionId : jsstring) : list ConversationItem :=
  default [] (State.itemsBySession state !! sessionId).

(** [state.sessionsByWorkspace[workspaceId] || []] *)
Definition sessions_of (state : SessionState) (workspaceId : jsstring) : list SessionSummary.t :=
  default [] (State.sessionsByWorkspace state !! workspaceId).

(** [{ ...state, itemsBySession: { ...state.itemsBySession, [sessionId]: v } }] *)
Definition put_items (state : SessionState) (sessionId : jsstring)
    (v : list ConversationItem) : SessionState :=
  State.with_items state (<[sessionId := v]> (State.itemsBySession state)).

(** [[...items.slice(-MAX_ITEMS_PER_SESSION + 1), newItem]] *)
Definition push_capped (items : list ConversationItem) (newItem : ConversationItem)
    : list ConversationItem :=
  slice_from (- MAX_ITEMS_PER_SESSION + 1) items ++ [newItem].

(** [s + delta] where [s] may be [undefined]. *)
Definition plus_str (s : option jsstring) (delta : jsstring) : jsstring :=
  match s with
  | Some t => t ++ delta
  | None => lit "undefined" ++ delta
  end.

(** The shape shared by the five "append to item X" cases: look the id
    up, push a synthesized item when it is missing, leave the state alone
    when the item found has another kind, rewrite it in place otherwise. *)
Definition upsert_by_id (state : SessionState) (sessionId itemId : jsstring)
    (k : ItemKind) (newItem : ConversationItem)
    (update : ConversationItem → ConversationItem) : SessionState :=
  let items := items_of state sessionId in
  match findIndex (has_id itemId) items with
  | None => put_items state sessionId (push_capped items newItem)
  | Some idx =>
      match items !! idx with
      | None => state
      | Some existingItem =>
          if decide (Item.kind existingItem = k)
          then put_items state sessionId (<[idx := update existingItem]> items)
          else state
      end
  end.

(** [for (const session of oldSessions) delete m[session.id]] *)
Definition delete_sessions {V} (oldSessions : list SessionSummary.t)
    (m : gmap jsstring V) : gmap jsstring V :=
  foldl (λ acc session, delete (SessionSummary.id session) acc) m oldSessions.

(** [sessionReducer(state, action)]; [now] is what [Date.now()] returns
    while the reducer runs. *)
Definition sessionReducer (now : Z) (state : SessionState) (action : SessionAction)
    : SessionState :=
  match action with
  | setActiveSessionId workspaceId sessionId =>
      State.with_active state
        (<[workspaceId := sessionId]> (State.activeSessionIdByWorkspace state))
  | ensureSession workspaceId sessionId title =>
      let existing := sessions_of state workspaceId in
      if existsb (λ s, bool_decide (SessionSummary.id s = sessionId)) existing
      then state
      else State.with_sessions state
             (<[workspaceId :=
                  existing ++ [SessionSummary.mk sessionId (or_default title (lit "New Session"))]]>
                (State.sessionsByWorkspace state))
  | removeSession workspaceId sessionId =>
      let sessions := sessions_of state workspaceId in
      State.with_sessions state
        (<[workspaceId :=
             List.filter (λ s, negb (bool_decide (SessionSummary.id s = sessionId))) sessions]>
           (State.sessionsByWorkspace state))
  | clearWorkspaceSessions workspaceId =>
      let oldSessions := sessions_of state workspaceId in
      State.mk
        (<[workspaceId := None]> (State.activeSessionIdByWorkspace state))
        (delete_sessions oldSessions (State.itemsBySession state))
        (<[workspaceId := []]> (State.sessionsByWorkspace state))
        (delete_sessions oldSessions (State.sessionStatusById state))
        (State.sessionListLoadingByWorkspace state)
        (delete_sessions oldSessions (State.planBySession state))
  | markProcessing sessionId isProcessing =>
      let old := default Status.empty (State.sessionStatusById state !! sessionId) in
      State.with_status state
        (<[sessionId := Status.mk (Some isProcessing) (Status.hasUnread old)]>
           (State.sessionStatusById state))
  | markUnread sessionId hasUnread =>
      let old := default Status.empty (State.sessionStatusById state !! sessionId) in
      State.with_status state
        (<[sessionId := Status.mk (Status.isProcessing old) (Some hasUnread)]>
           (State.sessionStatusById state))
  | addUserMessage workspaceId sessionId text =>
      let items := items_of state sessionId in
      let newItem := Item.message_item (lit "user-" ++ String_int now) RoleUser text in
      put_items state sessionId (push_capped items newItem)
  | appendAssistantDelta sessionId itemId delta =>
      upsert_by_id state sessionId itemId Kmessage
        (Item.message_item itemId RoleAssistant delta)
        (λ existingItem,
           Item.with_text existingItem (plus_str (Item.text existingItem) delta))
  | appendReasoningDelta sessionId itemId delta =>
      upsert_by_id state sessionId itemId Kreasoning
        (Item.reasoning_item itemId (lit "Thinking") delta)
        (λ existingItem,
           Item.with_content existingItem (default [] (Item.content existingItem) ++ delta))
  | appendToolOutput sessionId itemId delta =>
      upsert_by_id state sessionId itemId Ktool
        (Item.tool_item itemId (lit "acpToolCall") (lit "Tool") [] (lit "in_progress")
           (Some delta) None)
        (λ existingItem,
           Item.with_output existingItem (default [] (Item.output existingItem) ++ delta))
  | setToolStatus sessionId itemId status =>
      upsert_by_id state sessionId itemId Ktool
        (Item.tool_item itemId (lit "acpToolCall") (lit "Tool") [] status None None)
        (λ existingItem, Item.with_status existingItem status)
  | appendToolChanges sessionId itemId changes =>
      upsert_by_id state sessionId itemId Ktool
        (Item.tool_item itemId (lit "acpToolCall") (lit "Tool") [] (lit "in_progress")
           None (Some changes))
        (λ existingItem,
           let existingChanges := default [] (Item.changes existingItem) in
           Item.with_changes existingItem (existingChanges ++ changes))
  | upsertItem sessionId item =>
      let items := items_of state sessionId in
      match findIndex (has_id (Item.id item)) items with
      | None => put_items state sessionId (push_capped items item)
      | Some idx =>
          match items !! idx with
          | None => state
          | Some old => put_items state sessionId (<[idx := Item.spread old item]> items)
          end
      end
  | setSessionItems sessionId items =>
      put_items state sessionId (slice_from (- MAX_ITEMS_PER_SESSION) items)
  | setSessions workspaceId sessions =>
      State.with_sessions state
        (<[workspaceId := sessions]> (State.sessionsByWorkspace state))
  | setSessionListLoading workspaceId isLoading =>
      State.with_loading state
        (<[workspaceId := isLoading]> (State.sessionListLoadingByWorkspace state))
  | setSessionPlan sessionId plan =>
      State.with_plan state (<[sessionId := plan]> (State.planBySession state))
  | setSessionTitle workspaceId sessionId title =>
      let sessions := sessions_of state workspaceId in
      match findIndex (λ s, bool_decide (SessionSummary.id s = sessionId)) sessions with
      | None => state
      | Some idx =>
          match sessions !! idx with
          | None => state
          | Some old =>
              State.with_sessions state
                (<[workspaceId :=
                     <[idx := SessionSummary.mk (SessionSummary.id old) title]> sessions]>
                   (State.sessionsByWorkspace state))
          end
      end
  end.

(** The fold React performs: the actions are applied in dispatch order,
    each with the clock value of the moment its transition runs. *)
Definition run (state : SessionState) (steps : list (Z * SessionAction)) : SessionState :=
  foldl (λ st step, sessionReducer step.1 st step.2) state steps.

(** [messagePartsToItems(messageId, role, parts)].  [stringify] stands
    for [JSON.stringify(_, null, 2)] on the opaque [input] of a part. *)
Inductive MessagePart {Input : Type} :=
  | part_text (text : jsstring)
  | part_reasoning (text : jsstring)
  | part_tool_use (id name : jsstring) (input : Input)
  | part_tool_result (tool_use_id content : jsstring)
  | part_patch (hash : jsstring) (files : list jsstring)
  | part_file (url mime : jsstring).
Arguments MessagePart : clear implicits.

Definition messagePartsToItems {Input} (stringify : Input → jsstring)
    (messageId : jsstring) (role : Role) (parts : list (MessagePart Input))
    : list ConversationItem :=
  foldl (λ items part,
    match part with
    | part_text text =>
        items ++ [Item.message_item (messageId ++ lit "-text") role text]
    | part_reasoning text =>
        items ++ [Item.reasoning_item (messageId ++ lit "-reasoning")
                    (slice_to 100 text) text]
    | part_tool_use id name input =>
        items ++ [Item.tool_item id name name (stringify input) (lit "running") None None]
    | part_tool_result tool_use_id content =>
        items ++ [Item.tool_item tool_use_id (lit "result") (lit "Tool Result") []
                    (lit "completed") (Some content) None]
    | part_patch _ files =>
        items ++ [Item.diff_item (messageId ++ lit "-patch")
                    (lit "Changes to " ++ String_int (Z.of_nat (length files)) ++ lit " file(s)")
                    (join nl files) (lit "completed")]
    | part_file _ _ => items
    end) [] parts.

(** ** The TL;DR summarizer ([src/hooks/useHandoffTldr.ts]) *)

Module ActivitySnapshot.
Record t := mk {
  messageCount : Z;
  toolCallCount : Z;
  diffCount : Z;
  planCompleted : Z }.
End ActivitySnapshot.

Module HandoffBaseline.
Record t := mk { openedAt : Z; activity : ActivitySnapshot.t }.
End HandoffBaseline.

Definition snapshotActivity (items : list ConversationItem) (plan : option TurnPlan.t)
    : ActivitySnapshot.t :=
  let counts :=
    foldl (λ '(messageCount, toolCallCount, diffCount) item,
      if bool_decide (Item.kind item = Kmessage ∧ Item.role item = Some RoleAssistant)
      then (messageCount + 1, toolCallCount, diffCount)
      else if bool_decide (Item.kind item = Ktool)
      then (messageCount, toolCallCount + 1, diffCount)
      else if bool_decide (Item.kind item = Kdiff)
      then (messageCount, toolCallCount, diffCount + 1)
      else (messageCount, toolCallCount, diffCount)) (0, 0, 0) items in
  let planCompleted :=
    match plan with
    | Some p =>
        Z.of_nat (length (List.filter
          (λ s, bool_decide (TurnPlanStep.status s = StepCompleted)) (TurnPlan.steps p)))
    | None => 0
    end in
  ActivitySnapshot.mk counts.1.1 counts.1.2 counts.2 planCompleted.

(** [`${n} ${noun}${n === 1 ? "" : "s"}${rest}`] *)
Definition clause (n : Z) (noun rest : jsstring) : jsstring :=
  String_int n ++ lit " " ++ noun ++ (if n =? 1 then [] else lit "s") ++ rest.

(** [if (cond) parts.push(x)] *)
Definition push_if (cond : bool) (x : jsstring) (parts : list jsstring) : list jsstring :=
  if cond then parts ++ [x] else parts.

(** [parts.length === 0] *)
Definition is_empty {A} (l : list A) : bool :=
  match l with [] => true | _ => false end.

Definition buildCurrentSummary (current : ActivitySnapshot.t) : jsstring :=
  let planCompleted := ActivitySnapshot.planCompleted current in
  let diffCount := ActivitySnapshot.diffCount current in
  let messageCount := ActivitySnapshot.messageCount current in
  let parts := [] in
  let parts := push_if (planCompleted >? 0) (clause planCompleted (lit "task") (lit " done")) parts in
  let parts := push_if (diffCount >? 0) (clause diffCount (lit "file") (lit " changed")) parts in
  let parts := push_if ((messageCount >? 0) && is_empty parts)
                 (clause messageCount (lit "response") []) parts in
  if negb (is_empty parts) then join (lit ", ") parts else lit "Session active".

Definition Working : jsstring := lit "Working" ++ ellipsis.

(** [buildSummary({ baseline, current, isProcessing, hasPendingApproval,
    hasItems })]; [None] is the source's [null]. *)
Definition buildSummary (baseline : option HandoffBaseline.t)
    (current : ActivitySnapshot.t) (isProcessing hasPendingApproval hasItems : bool)
    : option jsstring :=
  if negb hasItems then None else
  match baseline with
  | None => Some (buildCurrentSummary current)
  | Some baseline =>
      let base := HandoffBaseline.activity baseline in
      let msgDelta := ActivitySnapshot.messageCount current - ActivitySnapshot.messageCount base in
      let toolDelta := ActivitySnapshot.toolCallCount current - ActivitySnapshot.toolCallCount base in
      let diffDelta := ActivitySnapshot.diffCount current - ActivitySnapshot.diffCount base in
      let planDelta := ActivitySnapshot.planCompleted current - ActivitySnapshot.planCompleted base in
      if (msgDelta =? 0) && (toolDelta =? 0) && (diffDelta =? 0) && (planDelta =? 0) then
        if isProcessing then Some Working
        else if hasPendingApproval then Some (lit "Waiting for approval")
        else Some (lit "No new activity")
      else
        let parts := [] in
        let parts := push_if (planDelta >? 0) (clause planDelta (lit "task") (lit " done")) parts in
        let parts := push_if (diffDelta >? 0) (clause diffDelta (lit "file") (lit " changed")) parts in
        let parts := push_if ((toolDelta >? 0) && (diffDelta =? 0))
                       (clause toolDelta (lit "action") []) parts in
        let parts := push_if ((msgDelta >? 0) && is_empty parts)
                       (clause msgDelta (lit "response") []) parts in
        if is_empty parts
        then Some (if isProcessing then Working else lit "Caught up")
        else Some (join (lit ", ") parts)
  end.

(** ** Loosely typed values: event payloads and stored entries

    What [JSON.parse] and the event transport can deliver, plus
    [undefined] for what is missing.  Numbers are kept to the integers. *)

Inductive jsval :=
  | VUndefined
  | VNull
  | VBool (b : bool)
  | VNum (n : Z)
  | VStr (s : jsstring)
  | VArr (elems : list jsval)
  | VObj (props : list (jsstring * jsval)).

(** How a step of the controller ends.  [Throws] is an uncaught
    [TypeError]; what was dispatched before it is not recorded.
    [OutOfModel] marks the runs the model does not follow although the
    source goes on: a value that is not a string dispatched where the
    action type has a string, the text of a number beyond 2^53, or
    arithmetic on what is not a number. *)
Inductive outcome (A : Type) :=
  | Returns (a : A)
  | Throws
  | OutOfModel.
Arguments Returns {A} a.
Arguments Throws {A}.
Arguments OutOfModel {A}.

#[global] Instance outcome_ret : MRet outcome := λ A a, Returns a.
#[global] Instance outcome_bind : MBind outcome := λ A B f m,
  match m with
  | Returns a => f a
  | Throws => Throws
  | OutOfModel => OutOfModel
  end.

(** [obj[k]] on the own properties of a parsed object. *)
Fixpoint own_prop (props : list (jsstring * jsval)) (k : jsstring) : jsval :=
  match props with
  | [] => VUndefined
  | (k', v) :: rest => if bool_decide (k' = k) then v else own_prop rest k
  end.

(** [v.k]: a [TypeError] on [undefined] and [null]; on the other values
    the property, [undefined] when there is none.  Primitives and arrays
    answer [undefined]: of the names the controller reads, none is an
    inherited property of theirs but [entries], and that one is read only
    from a record whose own [sessionUpdate] is ["plan"]. *)
Definition get (v : jsval) (k : string) : outcome jsval :=
  match v with
  | VUndefined | VNull => Throws
  | VObj props => Returns (own_prop props (lit k))
  | _ => Returns VUndefined
  end.

(** [Object.hasOwn(obj, k)] on the own properties of a parsed object. *)
Definition has_own (props : list (jsstring * jsval)) (k : string) : bool :=
  existsb (λ p, bool_decide (p.1 = lit k)) props.

(** The integers whose decimal numeral is what [String] prints: up to
    2^53 every integer is a number and is printed digit by digit. *)
Definition prints_exactly (n : Z) : bool := Z.abs n <=? 2 ^ 53.

(** [String(v)].  A parsed object has no callable property of its own,
    so an own [toString] hides [Object.prototype.toString] and the
    conversion ends in a [TypeError]; without one the object is printed
    as ["[object Object]"].  An array is printed by [join], element by
    element, [undefined] and [null] as the empty string. *)
Fixpoint String_of (v : jsval) : outcome jsstring :=
  match v with
  | VUndefined => Returns (lit "undefined")
  | VNull => Returns (lit "null")
  | VBool b => Returns (if b then lit "true" else lit "false")
  | VNum n => if prints_exactly n then Returns (String_int n) else OutOfModel
  | VStr s => Returns s
  | VArr elems =>
      parts ←
        (fix each (l : list jsval) : outcome (list jsstring) :=
           match l with
           | [] => Returns []
           | e :: rest =>
               here ← match e with VUndefined | VNull => Returns [] | _ => String_of e end;
               later ← each rest;
               Returns (here :: later)
           end) elems;
      Returns (join (lit ",") parts)
  | VObj props =>
      if has_own props "toString" then Throws else Returns (lit "[object Object]")
  end.

(** [!!v] *)
Definition truthy (v : jsval) : bool :=
  match v with
  | VUndefined | VNull => false
  | VBool b => b
  | VNum n => negb (n =? 0)
  | VStr s => nonempty s
  | VArr _ | VObj _ => true
  end.

(** [v ?? d] *)
Definition nullish_or (v d : jsval) : jsval :=
  match v with
  | VUndefined | VNull => d
  | _ => v
  end.

(** [String(v ?? d)] with a string default. *)
Definition String_or (v : jsval) (d : string) : outcome jsstring :=
  String_of (nullish_or v (VStr (lit d))).

(** [typeof v === "object"] *)
Definition typeof_object (v : jsval) : bool :=
  match v with
  | VNull | VArr _ | VObj _ => true
  | _ => false
  end.

(** [!v || typeof v !== "object"] *)
Definition not_an_object (v : jsval) : bool :=
  negb (truthy v) || negb (typeof_object v).

(** [v === "..."] *)
Definition is_str (v : jsval) (s : string) : bool :=
  match v with
  | VStr t => bool_decide (t = lit s)
  | _ => false
  end.

(** A value used at type [string] without a conversion. *)
Definition as_string (v : jsval) : outcome jsstring :=
  match v with
  | VStr s => Returns s
  | _ => OutOfModel
  end.

(** [v || d] used at type [string]. *)
Definition as_string_or (v : jsval) (d : jsstring) : outcome jsstring :=
  if truthy v then as_string v else Returns d.

(** The host: the clock, the random suffix
    [Math.random().toString(36).slice(2, 8)], and the JSON codec. *)
Module Env.
Record t := mk {
  now : Z;
  random : jsstring;
  JSON_stringify : jsval → jsstring;
  JSON_parse : jsstring → option jsval }.
End Env.

(** The two refs of [useSessions]. *)
Module Refs.
Record t := mk {
  activeAssistantMessageId : gmap jsstring jsstring;
  activeReasoningItemId : gmap jsstring jsstring }.
Definition empty : t := mk ∅ ∅.
End Refs.

Module OpenCodeEvent.
Record t := mk { workspaceId : jsstring; method : jsstring; params : jsval }.
End OpenCodeEvent.

(** [s.length > n ? `${s.slice(0, n)}…` : s] *)
Definition truncate (n : Z) (s : jsstring) : jsstring :=
  if Z.of_nat (length s) >? n then slice_to (Z.to_nat n) s ++ ellipsis else s.

(** The body of the [tool_call] branch up to its [upsertItem]. *)
Definition tool_call_item (env : Env.t) (itemId : jsstring) (updateRecord : jsval)
    : outcome ConversationItem :=
  title_v ← get updateRecord "title";
  title ← String_or title_v "Tool";
  kind_v ← get updateRecord "kind";
  kind ← String_or kind_v "";
  status_v ← get updateRecord "status";
  status ← String_or status_v "pending";
  rawInput ← get updateRecord "rawInput";
  let rawInputText := if truthy rawInput then Env.JSON_stringify env rawInput else [] in
  let detailRaw := join nl (List.filter nonempty [kind; rawInputText]) in
  let detail := truncate 4000 detailRaw in
  mret (Item.tool_item itemId (lit "acpToolCall")
          (if nonempty kind then kind ++ lit ": " ++ title else title)
          detail status None None).

(** One turn of [for (const item of content)]: the actions it dispatches. *)
Definition tool_content_entry (targetSessionId itemId : jsstring) (item : jsval)
    : outcome (list SessionAction) :=
  if not_an_object item then mret [] else
  type_v ← get item "type";
  contentType ← String_or type_v "";
  if bool_decide (contentType = lit "content") then
    inner ← get item "content";
    if not_an_object inner then mret [] else
    inner_type ← get inner "type";
    if negb (is_str inner_type "text") then mret [] else
    text_v ← get inner "text";
    text ← String_or text_v "";
    if negb (nonempty text) then mret [] else
    mret [appendToolOutput targetSessionId itemId text]
  else if bool_decide (contentType = lit "diff") then
    path_v ← get item "path";
    path ← String_or path_v "";
    oldText_v ← get item "oldText";
    oldText ← String_or oldText_v "";
    newText_v ← get item "newText";
    newText ← String_or newText_v "";
    if negb (nonempty path) then mret [] else
    let diffBody :=
      lit "--- " ++ path ++ nl ++ lit "+++ " ++ path ++ nl ++ lit "@@" ++ nl ++
      lit "-" ++ oldText ++ nl ++ lit "+" ++ newText in
    let diff := truncate 10000 diffBody in
    mret [appendToolChanges targetSessionId itemId
            [Change.mk path (Some (lit "MOD")) (Some diff)]]
  else if bool_decide (contentType = lit "terminal") then
    terminalId_v ← get item "terminalId";
    terminalId ← String_or terminalId_v "";
    if nonempty terminalId
    then mret [appendToolOutput targetSessionId itemId
                 (nl ++ lit "[terminal:" ++ terminalId ++ lit "]" ++ nl)]
    else mret []
  else mret [].

(** The whole loop over [content]. *)
Fixpoint tool_content (targetSessionId itemId : jsstring) (content : list jsval)
    : outcome (list SessionAction) :=
  match content with
  | [] => mret []
  | item :: rest =>
      here ← tool_content_entry targetSessionId itemId item;
      later ← tool_content targetSessionId itemId rest;
      mret (here ++ later)
  end.

(** The callback of [entries.map] in the [plan] branch; [None] is its
    [null], which [filter(Boolean)] drops. *)
Definition plan_entry (entry : jsval) : outcome (option TurnPlanStep.t) :=
  if not_an_object entry then mret None else
  content_v ← get entry "content";
  stepContent ← String_or content_v "";
  status_v ← get entry "status";
  statusRaw ← String_or status_v "pending";
  let stepStatus :=
    if bool_decide (statusRaw = lit "in_progress") then StepInProgress
    else if bool_decide (statusRaw = lit "completed") then StepCompleted
    else StepPending in
  mret (if nonempty stepContent then Some (TurnPlanStep.mk stepContent stepStatus) else None).

Fixpoint plan_steps (entries : list jsval) : outcome (list TurnPlanStep.t) :=
  match entries with
  | [] => mret []
  | entry :: rest =>
      s ← plan_entry entry;
      later ← plan_steps rest;
      mret (match s with Some st => st :: later | None => later end)
  end.

(** ** The event listener of [useSessions]

    The callback passed to [listen]: from the refs and one event to the
    refs it leaves and the actions it dispatches, in order. *)

Definition on_session_update (env : Env.t) (refs : Refs.t) (params : jsval)
    : outcome (Refs.t * list SessionAction) :=
  let data := params in
  sessionId_v ← get data "sessionId";
  targetSessionId ← String_or sessionId_v "";
  if negb (nonempty targetSessionId) then mret (refs, []) else
  update ← get data "update";
  if not_an_object update then mret (refs, []) else
  let updateRecord := update in
  sessionUpdate_v ← get updateRecord "sessionUpdate";
  updateType ← String_or sessionUpdate_v "";
  if bool_decide (updateType = lit "agent_message_chunk") then
    content ← get updateRecord "content";
    if not_an_object content then mret (refs, []) else
    text_v ← get content "text";
    delta ← String_or text_v "";
    if negb (nonempty delta) then mret (refs, []) else
    let itemId :=
      default (lit "assistant-" ++ targetSessionId)
        (Refs.activeAssistantMessageId refs !! targetSessionId) in
    mret (refs, [appendAssistantDelta targetSessionId itemId delta])
  else if bool_decide (updateType = lit "tool_call")
          || bool_decide (updateType = lit "tool_call_update") then
    toolCallId_v ← get updateRecord "toolCallId";
    toolCallId ← String_or toolCallId_v "";
    if negb (nonempty toolCallId) then mret (refs, []) else
    let itemId := lit "tool-" ++ targetSessionId ++ lit "-" ++ toolCallId in
    created ←
      (if bool_decide (updateType = lit "tool_call")
       then item ← tool_call_item env itemId updateRecord;
            mret [upsertItem targetSessionId item]
       else mret []);
    status ← get updateRecord "status";
    let patched :=
      match status with
      | VStr s => if nonempty s then [setToolStatus targetSessionId itemId s] else []
      | _ => []
      end in
    content ← get updateRecord "content";
    streamed ←
      match content with
      | VArr elems => tool_content targetSessionId itemId elems
      | _ => mret []
      end;
    mret (refs, created ++ patched ++ streamed)
  else if bool_decide (updateType = lit "plan") then
    entries ← get updateRecord "entries";
    match entries with
    | VArr elems =>
        steps ← plan_steps elems;
        mret (refs, [setSessionPlan targetSessionId
                       (Some (TurnPlan.mk targetSessionId None steps))])
    | _ => mret (refs, [])
    end
  else if bool_decide (updateType = lit "agent_thought_chunk") then
    content ← get updateRecord "content";
    if not_an_object content then mret (refs, []) else
    type_v ← get content "type";
    if negb (is_str type_v "text") then mret (refs, []) else
    text_v ← get content "text";
    delta ← String_or text_v "";
    if negb (nonempty delta) then mret (refs, []) else
    let known := Refs.activeReasoningItemId refs !! targetSessionId in
    let minted :=
      lit "reasoning-" ++ String_int (Env.now env) ++ lit "-" ++ Env.random env in
    let '(itemId, refs) :=
      match known with
      | Some i =>
          if nonempty i then (i, refs)
          else (minted, Refs.mk (Refs.activeAssistantMessageId refs)
                          (<[targetSessionId := minted]> (Refs.activeReasoningItemId refs)))
      | None =>
          (minted, Refs.mk (Refs.activeAssistantMessageId refs)
                     (<[targetSessionId := minted]> (Refs.activeReasoningItemId refs)))
      end in
    mret (refs, [appendReasoningDelta targetSessionId itemId delta])
  else mret (refs, []).

Definition handleEvent (env : Env.t) (workspaceId : jsstring) (refs : Refs.t)
    (event : OpenCodeEvent.t) : outcome (Refs.t * list SessionAction) :=
  let eventWorkspaceId := OpenCodeEvent.workspaceId event in
  let method := OpenCodeEvent.method event in
  let params := OpenCodeEvent.params event in
  if negb (bool_decide (eventWorkspaceId = workspaceId)) then mret (refs, []) else
  if bool_decide (method = lit "session/created") then
    let session := params in
    id_v ← get session "id";
    title_v ← get session "title";
    sessionId ← as_string id_v;
    title ← as_string_or title_v (lit "New Session");
    mret (refs, [ensureSession workspaceId sessionId (Some title)])
  else if bool_decide (method = lit "session/updated") then
    let session := params in
    id_v ← get session "id";
    title_v ← get session "title";
    sessionId ← as_string id_v;
    title ← as_string_or title_v (lit "Untitled Session");
    mret (refs, [setSessionTitle workspaceId sessionId title])
  else if bool_decide (method = lit "session/deleted") then
    sessionId_v ← get params "sessionId";
    sessionId ← as_string sessionId_v;
    mret (refs, [removeSession workspaceId sessionId])
  else if bool_decide (method = lit "session/update") then
    on_session_update env refs params
  else if bool_decide (method = lit "content/updated") then
    let data := params in
    text_v ← get data "text";
    if truthy text_v then
      sessionId_v ← get data "sessionId";
      messageId_v ← get data "messageId";
      sessionId ← as_string sessionId_v;
      itemId ← as_string_or messageId_v (lit "assistant-" ++ String_int (Env.now env));
      delta ← as_string text_v;
      mret (refs, [appendAssistantDelta sessionId itemId delta])
    else mret (refs, [])
  else if bool_decide (method = lit "turn/completed") then
    sessionId_v ← get params "sessionId";
    sessionId ← as_string sessionId_v;
    mret (Refs.mk (delete sessionId (Refs.activeAssistantMessageId refs))
                  (delete sessionId (Refs.activeReasoningItemId refs)),
          [markProcessing sessionId false])
  else mret (refs, []).

(** ** [sendMessage] *)

(** [try { body } catch { handler }] *)
Definition try_catch {A} (body handler : outcome A) : outcome A :=
  match body with
  | Throws => handler
  | other => other
  end.

(** [a || b] on two optional ids. *)
Definition first_truthy (a b : option jsstring) : option jsstring :=
  match a with
  | Some s => if nonempty s then a else b
  | None => b
  end.

(** [sendMessage(text, options)].  [sendOpenCodeMessage] is how the
    awaited backend call ends: it returns or it throws. *)
Definition sendMessage (env : Env.t) (workspaceId activeSessionId : option jsstring)
    (refs : Refs.t) (text : jsstring) (options_sessionId : option jsstring)
    (sendOpenCodeMessage : outcome unit) : outcome (Refs.t * list SessionAction) :=
  match first_truthy workspaceId None, first_truthy options_sessionId activeSessionId with
  | Some workspaceId, Some targetSessionId =>
      let assistantItemId :=
        lit "assistant-" ++ String_int (Env.now env) ++ lit "-" ++ Env.random env in
      let refs :=
        Refs.mk (<[targetSessionId := assistantItemId]> (Refs.activeAssistantMessageId refs))
                (delete targetSessionId (Refs.activeReasoningItemId refs)) in
      let dispatched :=
        [ addUserMessage workspaceId targetSessionId text;
          markProcessing targetSessionId true;
          setSessionPlan targetSessionId None;
          upsertItem targetSessionId (Item.message_item assistantItemId RoleAssistant []) ] in
      try_catch
        (_ ← sendOpenCodeMessage; mret (refs, dispatched))
        (mret (refs, dispatched ++ [markProcessing targetSessionId false]))
  | _, _ => mret (refs, [])
  end.

(** ** The baseline of [useHandoffTldr] *)

Inductive HandoffKind := thread | session.

Definition BASELINE_VERSION : jsstring := lit "v2".

Definition baselineKey (kind : HandoffKind) (workspaceId id : jsstring) : jsstring :=
  lit "handoff:baseline:" ++ BASELINE_VERSION ++ lit ":" ++
  (match kind with thread => lit "thread" | session => lit "session" end) ++
  lit ":" ++ workspaceId ++ lit ":" ++ id.

(** A [HandoffBaseline] as the object it is at run time. *)
Definition baseline_object (b : HandoffBaseline.t) : jsval :=
  let a := HandoffBaseline.activity b in
  VObj [ (lit "openedAt", VNum (HandoffBaseline.openedAt b));
         (lit "activity",
          VObj [ (lit "messageCount", VNum (ActivitySnapshot.messageCount a));
                 (lit "toolCallCount", VNum (ActivitySnapshot.toolCallCount a));
                 (lit "diffCount", VNum (ActivitySnapshot.diffCount a));
                 (lit "planCompleted", VNum (ActivitySnapshot.planCompleted a)) ]) ].

(** The effect that runs when [kind], [workspaceId] or [id] change: the
    value it passes to [setBaseline] ([VNull] is [null]) and the store it
    leaves.  [localStorage] is a map from keys to strings that accepts
    every write; [JSON_parse] answers [None] where [JSON.parse] throws. *)
Definition load_baseline (env : Env.t) (kind : HandoffKind)
    (workspaceId id : option jsstring) (localStorage : gmap jsstring jsstring)
    (latestItems : list ConversationItem) (latestPlan : option TurnPlan.t)
    : jsval * gmap jsstring jsstring :=
  match first_truthy workspaceId None, first_truthy id None with
  | Some workspaceId, Some id =>
      let key := baselineKey kind workspaceId id in
      let stored := localStorage !! key in
      let fresh :=
        let baselineValue :=
          baseline_object
            (HandoffBaseline.mk (Env.now env) (snapshotActivity latestItems latestPlan)) in
        (baselineValue, <[key := Env.JSON_stringify env baselineValue]> localStorage) in
      match first_truthy stored None with
      | Some raw =>
          match Env.JSON_parse env raw with
          | Some parsed => (parsed, localStorage)
          | None => fresh
          end
      | None => fresh
      end
  | _, _ => (VNull, localStorage)
  end.

(** The reads [buildSummary] makes of the baseline it is given, before
    any arithmetic: [!baseline], then [baseline.activity.messageCount]
    and the three other counters. *)
Definition baseline_counters (baseline : jsval)
    : outcome (option (jsval * jsval * jsval * jsval)) :=
  if negb (truthy baseline) then mret None else
  a1 ← get baseline "activity"; messageCount ← get a1 "messageCount";
  a2 ← get baseline "activity"; toolCallCount ← get a2 "toolCallCount";
  a3 ← get baseline "activity"; diffCount ← get a3 "diffCount";
  a4 ← get baseline "activity"; planCompleted ← get a4 "planCompleted";
  mret (Some (messageCount, toolCallCount, diffCount, planCompleted)).

(** ** Vocabulary of the properties *)

(** Every session holds at most [MAX_ITEMS_PER_SESSION] items. *)
Definition capped (st : SessionState) : Prop :=
  ∀ sessionId, Z.of_nat (length (items_of st sessionId)) ≤ MAX_ITEMS_PER_SESSION.

(** The session and the id of the item an action appends or updates,
    for the actions that address one item. *)
Definition target (now : Z) (action : SessionAction) : option (jsstring * jsstring) :=
  match action with
  | addUserMessage _ sessionId _ => Some (sessionId, lit "user-" ++ String_int now)
  | appendAssistantDelta sessionId itemId _
  | appendReasoningDelta sessionId itemId _
  | appendToolOutput sessionId itemId _
  | setToolStatus sessionId itemId _
  | appendToolChanges sessionId itemId _ => Some (sessionId, itemId)
  | upsertItem sessionId item => Some (sessionId, Item.id item)
  | _ => None
  end.

(** [items.find((i) => i.id === itemId)]: the item that the reducer's
    [findIndex] addresses under an id, the first one carrying it. *)
Definition item_at (st : SessionState) (sessionId itemId : jsstring)
    : option ConversationItem :=
  List.find (has_id itemId) (items_of st sessionId).

(** The three tool-call actions, as deltas against one item. *)
Inductive ToolDelta :=
  | StatusSet (status : jsstring)
  | OutputDelta (delta : jsstring)
  | ChangesDelta (changes : list Change.t).

Definition tool_action (sessionId itemId : jsstring) (d : ToolDelta) : SessionAction :=
  match d with
  | StatusSet status => setToolStatus sessionId itemId status
  | OutputDelta delta => appendToolOutput sessionId itemId delta
  | ChangesDelta changes => appendToolChanges sessionId itemId changes
  end.

(** The last status a sequence of deltas sets, if it sets one. *)
Fixpoint last_status (ds : list ToolDelta) : option jsstring :=
  match ds with
  | [] => None
  | d :: rest =>
      match last_status rest with
      | Some s => Some s
      | None => match d with StatusSet s => Some s | _ => None end
      end
  end.

(** The output deltas of a sequence, concatenated in order. *)
Fixpoint all_output (ds : list ToolDelta) : jsstring :=
  match ds with
  | [] => []
  | OutputDelta delta :: rest => delta ++ all_output rest
  | _ :: rest => all_output rest
  end.

(** The change lists of a sequence, concatenated in order. *)
Fixpoint all_changes (ds : list ToolDelta) : list Change.t :=
  match ds with
  | [] => []
  | ChangesDelta changes :: rest => changes ++ all_changes rest
  | _ :: rest => all_changes rest
  end.

(** A history seen from one item: the tool-call actions dispatched
    against [(sessionId, itemId)], in order, interleaved with any other
    transitions that leave the item found under that id as it is (so
    none of them evicts it, replaces it or puts another item there). *)
Inductive tool_trace (sessionId itemId : jsstring)
    : SessionState → list ToolDelta → SessionState → Prop :=
  | trace_done st : tool_trace sessionId itemId st [] st
  | trace_delta st now d ds st' :
      tool_trace sessionId itemId
        (sessionReducer now st (tool_action sessionId itemId d)) ds st' →
      tool_trace sessionId itemId st (d :: ds) st'
  | trace_other st now action ds st' :
      item_at (sessionReducer now st action) sessionId itemId
        = item_at st sessionId itemId →
      tool_trace sessionId itemId (sessionReducer now st action) ds st' →
      tool_trace sessionId itemId st ds st'.

(** The summary as the specification words it.  A clause qualifies when
    its delta is positive; the one for tool actions also needs the delta
    of changed files to be zero, the one for responses needs that no
    other clause qualified.  The noun of a clause takes its plural
    exactly when the count is not 1. *)
Definition noun_for (n : Z) (singular : string) : jsstring :=
  if decide (n = 1) then lit singular else lit singular ++ lit "s".

Definition summary_clauses (msgDelta toolDelta diffDelta planDelta : Z) : list jsstring :=
  let plan_q := bool_decide (0 < planDelta) in
  let diff_q := bool_decide (0 < diffDelta) in
  let tool_q := bool_decide (0 < toolDelta ∧ diffDelta = 0) in
  let msg_q := bool_decide (0 < msgDelta) && negb (plan_q || diff_q || tool_q) in
  (if plan_q then [String_int planDelta ++ lit " " ++ noun_for planDelta "task" ++ lit " done"]
   else []) ++
  (if diff_q then [String_int diffDelta ++ lit " " ++ noun_for diffDelta "file" ++ lit " changed"]
   else []) ++
  (if tool_q then [String_int toolDelta ++ lit " " ++ noun_for toolDelta "action"] else []) ++
  (if msg_q then [String_int msgDelta ++ lit " " ++ noun_for msgDelta "response"] else []).

Definition summary_spec (baseline current : ActivitySnapshot.t)
    (isProcessing hasPendingApproval : bool) : jsstring :=
  let msgDelta := ActivitySnapshot.messageCount current - ActivitySnapshot.messageCount baseline in
  let toolDelta := ActivitySnapshot.toolCallCount current - ActivitySnapshot.toolCallCount baseline in
  let diffDelta := ActivitySnapshot.diffCount current - ActivitySnapshot.diffCount baseline in
  let planDelta := ActivitySnapshot.planCompleted current - ActivitySnapshot.planCompleted baseline in
  if decide (msgDelta = 0 ∧ toolDelta = 0 ∧ diffDelta = 0 ∧ planDelta = 0) then
    if isProcessing then lit "Working" ++ [8230%N]
    else if hasPendingApproval then lit "Waiting for approval"
    else lit "No new activity"
  else
    match summary_clauses msgDelta toolDelta diffDelta planDelta with
    | [] => if isProcessing then lit "Working" ++ [8230%N] else lit "Caught up"
    | clauses => join (lit ", ") clauses
    end.

(** Within every session the ids of the items are pairwise distinct. *)
Definition unique_ids (st : SessionState) : Prop :=
  ∀ sessionId, NoDup (Item.id <$> items_of st sessionId).

(** A well-formed stored baseline, in the specification's words: an
    object with an [openedAt] timestamp and the four activity counters. *)
Definition is_number (v : jsval) : bool :=
  match v with VNum _ => true | _ => false end.

Definition well_formed_baseline (v : jsval) : bool :=
  match v with
  | VObj props =>
      is_number (own_prop props (lit "openedAt")) &&
      match own_prop props (lit "activity") with
      | VObj activity =>
          is_number (own_prop activity (lit "messageCount")) &&
          is_number (own_prop activity (lit "toolCallCount")) &&
          is_number (own_prop activity (lit "diffCount")) &&
          is_number (own_prop activity (lit "planCompleted"))
      | _ => false
      end
  | _ => false
  end.

(** ** The rest of [useHandoffTldr]: title and status *)

(** The code units [String.prototype.trim] removes: the white space and
    line terminator characters of ECMAScript, all of them in the Basic
    Multilingual Plane. *)
Definition is_whitespace (c : N) : bool :=
  ((c =? 9) || (c =? 10) || (c =? 11) || (c =? 12) || (c =? 13) || (c =? 32) ||
   (c =? 160) || (c =? 5760) || ((8192 <=? c) && (c <=? 8202)) ||
   (c =? 8232) || (c =? 8233) || (c =? 8239) || (c =? 8287) || (c =? 12288) ||
   (c =? 65279))%N.

(** [s.trimStart()] *)
Fixpoint trimStart (s : jsstring) : jsstring :=
  match s with
  | c :: rest => if is_whitespace c then trimStart rest else s
  | [] => []
  end.

(** [s.trimEnd()] *)
Definition trimEnd (s : jsstring) : jsstring := reverse (trimStart (reverse s)).

(** [s.trim()] *)
Definition trim (s : jsstring) : jsstring := trimEnd (trimStart s).

(** [clampText(input, maxLen)] of the hook that carries [buildSummary]. *)
Definition clampText (input : jsstring) (maxLen : Z) : jsstring :=
  let trimmed := trim input in
  if Z.of_nat (length trimmed) <=? maxLen then trimmed
  else trimEnd (slice_to (Z.to_nat (Z.max 0 (maxLen - 1))) trimmed) ++ ellipsis.

Inductive TldrStatus := StatusIdle | StatusWorking | StatusWaitingApproval | StatusNew.

Module HandoffTldr.
Record t := mk {
  kind : HandoffKind;
  title : jsstring;
  summary : option jsstring;
  status : TldrStatus }.
End HandoffTldr.

(** [buildSummary] as the hook calls it.  The baseline it passes is the
    hook's state, which is whatever [setBaseline] was given: [null], a
    baseline the hook captured, or the value [JSON.parse] returned.
    After the tests of [hasItems] and [!baseline] the function reads the
    four counters of [baseline.activity], which throws when there is no
    [activity]; the arithmetic is followed on numbers, where it is that
    of [buildSummary] above. *)
Definition buildSummary_on (baseline : jsval) (current : ActivitySnapshot.t)
    (isProcessing hasPendingApproval hasItems : bool) : outcome (option jsstring) :=
  if negb hasItems then mret None else
  counters ← baseline_counters baseline;
  match counters with
  | None => mret (buildSummary None current isProcessing hasPendingApproval hasItems)
  | Some (VNum messageCount, VNum toolCallCount, VNum diffCount, VNum planCompleted) =>
      let activity := ActivitySnapshot.mk messageCount toolCallCount diffCount planCompleted in
      mret (buildSummary (Some (HandoffBaseline.mk 0 activity)) current
              isProcessing hasPendingApproval hasItems)
  | Some _ => OutOfModel
  end.

(** The [useMemo] that computes [tldr]; [None] is its [null], [Throws]
    a [TypeError] out of [buildSummary]. *)
Definition tldr (baseline : jsval)
    (workspaceId : option jsstring) (kind : HandoffKind) (id title : option jsstring)
    (items : list ConversationItem) (plan : option TurnPlan.t)
    (isProcessing hasPendingApproval : bool) : outcome (option HandoffTldr.t) :=
  match first_truthy workspaceId None, first_truthy id None with
  | Some _, Some _ =>
      let fallbackTitle := match kind with session => lit "Session" | thread => lit "Thread" end in
      let resolvedTitle := clampText (or_default title fallbackTitle) 40 in
      let hasItems := negb (is_empty items) in
      let current := snapshotActivity items plan in
      summary ← buildSummary_on baseline current isProcessing hasPendingApproval hasItems;
      let status :=
        if negb hasItems then StatusNew
        else if hasPendingApproval then StatusWaitingApproval
        else if isProcessing then StatusWorking
        else StatusIdle in
      mret (Some (HandoffTldr.mk kind resolvedTitle summary status))
  | _, _ => mret None
  end.

(** [STATUS_LABELS] of [HandoffTldrCard] ([src/components/HandoffTldr.tsx]). *)
Definition STATUS_LABELS (status : TldrStatus) : jsstring :=
  match status with
  | StatusNew => lit "NEW"
  | StatusWorking => lit "WORKING"
  | StatusWaitingApproval => lit "NEEDS APPROVAL"
  | StatusIdle => []
  end.

(** What [HandoffTldrCard] puts on screen: [None] when it returns [null],
    otherwise the flag and the summary, each shown only when it is a
    non-empty string. *)
Definition HandoffTldrCard (t : HandoffTldr.t) : option (option jsstring * option jsstring) :=
  let statusLabel := STATUS_LABELS (HandoffTldr.status t) in
  let shown (x : option jsstring) : option jsstring :=
    match x with
    | Some s => if nonempty s then Some s else None
    | None => None
    end in
  let hasContent := nonempty statusLabel || from_option nonempty false (HandoffTldr.summary t) in
  if negb hasContent then None
  else Some (shown (Some statusLabel), shown (HandoffTldr.summary t)).

(** ** The rest of [useSessions]: what the hook reads and what it offers *)

(** [workspaceId ? state.activeSessionIdByWorkspace[workspaceId] ?? null : null] *)
Definition select_activeSessionId (workspaceId : option jsstring) (state : SessionState)
    : option jsstring :=
  match first_truthy workspaceId None with
  | Some w => default None (State.activeSessionIdByWorkspace state !! w)
  | None => None
  end.

(** [workspaceId ? state.sessionsByWorkspace[workspaceId] || [] : []] *)
Definition select_sessions (workspaceId : option jsstring) (state : SessionState)
    : list SessionSummary.t :=
  match first_truthy workspaceId None with
  | Some w => sessions_of state w
  | None => []
  end.

(** [activeSessionId ? state.itemsBySession[activeSessionId] || [] : []] *)
Definition select_items (workspaceId : option jsstring) (state : SessionState)
    : list ConversationItem :=
  match first_truthy (select_activeSessionId workspaceId state) None with
  | Some sessionId => items_of state sessionId
  | None => []
  end.

(** [sessionStatus]: the entry of the active session, or
    [{ isProcessing: false, hasUnread: false }]. *)
Definition select_sessionStatus (workspaceId : option jsstring) (state : SessionState)
    : Status.t :=
  match first_truthy (select_activeSessionId workspaceId state) None with
  | Some sessionId =>
      default (Status.mk (Some false) (Some false)) (State.sessionStatusById state !! sessionId)
  | None => Status.mk (Some false) (Some false)
  end.

(** [workspaceId ? state.sessionListLoadingByWorkspace[workspaceId] || false : false] *)
Definition select_isSessionListLoading (workspaceId : option jsstring) (state : SessionState)
    : bool :=
  match first_truthy workspaceId None with
  | Some w => default false (State.sessionListLoadingByWorkspace state !! w)
  | None => false
  end.

(** [activeSessionId ? state.planBySession[activeSessionId] ?? null : null] *)
Definition select_plan (workspaceId : option jsstring) (state : SessionState)
    : option TurnPlan.t :=
  match first_truthy (select_activeSessionId workspaceId state) None with
  | Some sessionId => default None (State.planBySession state !! sessionId)
  | None => None
  end.

Module OpenCodeSessionInfo.
Record t := mk { id : jsstring; title : option jsstring }.
End OpenCodeSessionInfo.

(** [startSession()]: what it resolves to and what it dispatches.
    [createOpenCodeSession] is how the awaited backend call ends. *)
Definition startSession (workspaceId : option jsstring)
    (createOpenCodeSession : outcome OpenCodeSessionInfo.t)
    : outcome (option jsstring * list SessionAction) :=
  match first_truthy workspaceId None with
  | None => mret (None, [])
  | Some workspaceId =>
      try_catch
        (session ← createOpenCodeSession;
         mret (Some (OpenCodeSessionInfo.id session),
               [ ensureSession workspaceId (OpenCodeSessionInfo.id session)
                   (Some (or_default (OpenCodeSessionInfo.title session) (lit "New Session")));
                 setActiveSessionId workspaceId (Some (OpenCodeSessionInfo.id session)) ]))
        (mret (None, []))
  end.

(** [switchSession(sessionId)] *)
Definition switchSession (workspaceId sessionId : option jsstring) : list SessionAction :=
  match first_truthy workspaceId None with
  | None => []
  | Some workspaceId =>
      setActiveSessionId workspaceId sessionId ::
      match first_truthy sessionId None with
      | Some sessionId => [markUnread sessionId false]
      | None => []
      end
  end.

(** [cancelCurrentOperation()] *)
Definition cancelCurrentOperation (workspaceId activeSessionId : option jsstring)
    (cancelOpenCodeOperation : outcome unit) : outcome (list SessionAction) :=
  match first_truthy workspaceId None, first_truthy activeSessionId None with
  | Some _, Some activeSessionId =>
      try_catch
        (_ ← cancelOpenCodeOperation; mret [markProcessing activeSessionId false])
        (mret [])
  | _, _ => mret []
  end.

(** [refreshSessions()]; the [finally] block runs on both ways out of
    the [try]. *)
Definition refreshSessions (workspaceId : option jsstring)
    (listOpenCodeSessions : outcome (list OpenCodeSessionInfo.t))
    : outcome (list SessionAction) :=
  match first_truthy workspaceId None with
  | None => mret []
  | Some workspaceId =>
      tried ←
        try_catch
          (sessionList ← listOpenCodeSessions;
           let summaries :=
             map (λ s, SessionSummary.mk (OpenCodeSessionInfo.id s)
                         (or_default (OpenCodeSessionInfo.title s) (lit "Untitled Session")))
               sessionList in
           mret [setSessions workspaceId summaries])
          (mret []);
      mret ([setSessionListLoading workspaceId true] ++ tried ++
            [setSessionListLoading workspaceId false])
  end.

(** ** Vocabulary of the further properties *)

(** The session whose item sequence an action can rewrite. *)
Definition writes_items_of (action : SessionAction) : option jsstring :=
  match action with
  | addUserMessage _ sessionId _
  | appendAssistantDelta sessionId _ _
  | appendReasoningDelta sessionId _ _
  | appendToolOutput sessionId _ _
  | setToolStatus sessionId _ _
  | appendToolChanges sessionId _ _
  | upsertItem sessionId _
  | setSessionItems sessionId _ => Some sessionId
  | _ => None
  end.

(** The kind of item an "append to item X" action is meant for. *)
Definition expected_kind (action : SessionAction) : option ItemKind :=
  match action with
  | appendAssistantDelta _ _ _ => Some Kmessage
  | appendReasoningDelta _ _ _ => Some Kreasoning
  | appendToolOutput _ _ _ | setToolStatus _ _ _ | appendToolChanges _ _ _ => Some Ktool
  | _ => None
  end.

(** The ids listed for a workspace, in order. *)
Definition session_ids (st : SessionState) (workspaceId : jsstring) : list jsstring :=
  SessionSummary.id <$> sessions_of st workspaceId.

(** The actions that set something, as opposed to those that add a
    message or append a delta. *)
Definition sets_a_value (action : SessionAction) : bool :=
  match action with
  | addUserMessage _ _ _
  | appendAssistantDelta _ _ _
  | appendReasoningDelta _ _ _
  | appendToolOutput _ _ _
  | appendToolChanges _ _ _ => false
  | _ => true
  end.

(** Events in the shape the backend gives them. *)
Definition session_update_event (w sessionId : jsstring) (update : list (jsstring * jsval))
    : OpenCodeEvent.t :=
  OpenCodeEvent.mk w (lit "session/update")
    (VObj [ (lit "sessionId", VStr sessionId); (lit "update", VObj update) ]).

Definition message_chunk_event (w sessionId text : jsstring) : OpenCodeEvent.t :=
  session_update_event w sessionId
    [ (lit "sessionUpdate", VStr (lit "agent_message_chunk"));
      (lit "content", VObj [ (lit "type", VStr (lit "text")); (lit "text", VStr text) ]) ].

Definition thought_chunk_event (w sessionId text : jsstring) : OpenCodeEvent.t :=
  session_update_event w sessionId
    [ (lit "sessionUpdate", VStr (lit "agent_thought_chunk"));
      (lit "content", VObj [ (lit "type", VStr (lit "text")); (lit "text", VStr text) ]) ].

Definition plan_event (w sessionId : jsstring) (entries : list jsval) : OpenCodeEvent.t :=
  session_update_event w sessionId
    [ (lit "sessionUpdate", VStr (lit "plan")); (lit "entries", VArr entries) ].

Definition plan_entry_value (content status : jsstring) : jsval :=
  VObj [ (lit "content", VStr content); (lit "status", VStr status) ].

Definition turn_completed_event (w sessionId : jsstring) : OpenCodeEvent.t :=
  OpenCodeEvent.mk w (lit "turn/completed") (VObj [ (lit "sessionId", VStr sessionId) ]).

Definition session_created_event (w sessionId : jsstring) (title : jsval) : OpenCodeEvent.t :=
  OpenCodeEvent.mk w (lit "session/created")
    (VObj [ (lit "id", VStr sessionId); (lit "title", title) ]).

(** The methods the listener has a case for. *)
Definition handled_methods : list jsstring :=
  [ lit "session/created"; lit "session/updated"; lit "session/deleted";
    lit "session/update"; lit "content/updated"; lit "turn/completed" ].

(** The step status a plan entry's status string stands for. *)
Definition step_status_of (statusRaw : jsstring) : TurnPlanStepStatus :=
  if decide (statusRaw = lit "in_progress") then StepInProgress
  else if decide (statusRaw = lit "completed") then StepCompleted
  else StepPending.

(** What [snapshotActivity] counts, item by item. *)
Definition is_assistant_message (item : ConversationItem) : bool :=
  bool_decide (Item.kind item = Kmessage ∧ Item.role item = Some RoleAssistant).
Definition is_tool (item : ConversationItem) : bool := bool_decide (Item.kind item = Ktool).
Definition is_diff (item : ConversationItem) : bool := bool_decide (Item.kind item = Kdiff).

(** [l.filter(p).length] as an integer. *)
Definition count_of {A} (p : A → bool) (l : list A) : Z :=
  Z.of_nat (length (List.filter p l)).

(** The completed steps of a plan, none without a plan. *)
Definition completed_steps (plan : option TurnPlan.t) : Z :=
  from_option
    (λ p, count_of (λ s, bool_decide (TurnPlanStep.status s = StepCompleted)) (TurnPlan.steps p))
    0 plan.

(** The summary on four zero deltas. *)
Definition unchanged_summary (isProcessing hasPendingApproval : bool) : jsstring :=
  if isProcessing then lit "Working" ++ [8230%N]
  else if hasPendingApproval then lit "Waiting for approval"
  else lit "No new activity".

(** The message parts by what becomes of them in [messagePartsToItems]. *)
Definition is_text_part {Input} (part : MessagePart Input) : bool :=
  match part with part_text _ => true | _ => false end.
Definition is_tool_part {Input} (part : MessagePart Input) : bool :=
  match part with part_tool_use _ _ _ | part_tool_result _ _ => true | _ => false end.
Definition is_patch_part {Input} (part : MessagePart Input) : bool :=
  match part with part_patch _ _ => true | _ => false end.
Definition is_file_part {Input} (part : MessagePart Input) : bool :=
  match part with part_file _ _ => true | _ => false end.

(** Every character of the string is white space. *)
Definition all_whitespace (s : jsstring) : Prop := Forall (λ c, is_whitespace c = true) s.

(** The label [tldr] falls back to when the session has no title. *)
Definition fallbackTitle (kind : HandoffKind) : jsstring :=
  match kind with session => lit "Session" | thread => lit "Thread" end.

(** A payload that [String] converts within the model wherever it is
    applied: no object in it has a [toString] of its own, and its numbers
    are at most 2^53 in absolute value. *)
Fixpoint plain (v : jsval) : bool :=
  match v with
  | VNum n => prints_exactly n
  | VArr elems => forallb plain elems
  | VObj props =>
      negb (has_own props "toString") &&
      forallb (λ p, match p with (_, field) => plain field end) props
  | _ => true
  end.

(** The two items differ in their status at most. *)
Definition same_but_status (a b : ConversationItem) : Prop :=
  Item.id a = Item.id b ∧ Item.kind a = Item.kind b ∧ Item.role a = Item.role b ∧
  Item.text a = Item.text b ∧ Item.summary a = Item.summary b ∧
  Item.content a = Item.content b ∧ Item.title a = Item.title b ∧
  Item.diff a = Item.diff b ∧ Item.state a = Item.state b ∧
  Item.toolType a = Item.toolType b ∧ Item.detail a = Item.detail b ∧
  Item.output a = Item.output b ∧ Item.changes a = Item.changes b.

(** * Properties *)

(** ** Proof automation *)

(** Decides the comparisons of two string literals in the goal. *)
Ltac decide_lits :=
  repeat match goal with
  | |- context [bool_decide (lit ?a = lit ?b)] =>
      let v := eval vm_compute in (bool_decide (lit a = lit b)) in
      change (bool_decide (lit a = lit b)) with v
  end.

(** A value that passed the check [!v || typeof v !== "object"] can be
    read without a fault. *)
Lemma get_object v k :
  not_an_object v = false →
  get v k = Returns (match v with VObj props => own_prop props (lit k) | _ => VUndefined end).
Proof. by destruct v. Qed.

(** [String] on a plain value returns. *)
Lemma String_of_plain v : plain v = true → ∃ s, String_of v = Returns s.
Proof.
  revert v. fix IH 1. intros [| |b|n|s|elems|props] Hplain; cbn [String_of];
    try (by eexists).
  - cbn [plain] in Hplain. rewrite Hplain. by eexists.
  - cbn [plain] in Hplain.
    assert (∃ parts,
              (fix each (l : list jsval) : outcome (list jsstring) :=
                 match l with
                 | [] => Returns []
                 | e :: rest =>
                     here ← match e with
                            | VUndefined | VNull => Returns []
                            | _ => String_of e
                            end;
                     later ← each rest;
                     Returns (here :: later)
                 end) elems = Returns parts) as [parts ->]; [|by eexists].
    induction elems as [|e rest IHrest]; [by eexists|].
    cbn [forallb] in Hplain. apply andb_prop in Hplain as [He Hrest].
    destruct (IHrest Hrest) as [later ->].
    destruct (IH e He) as [here Hhere].
    destruct e; try rewrite Hhere; by eexists.
  - cbn [plain] in Hplain. apply andb_prop in Hplain as [Hown _].
    apply negb_true_iff in Hown. rewrite Hown. by eexists.
Qed.

Lemma String_or_plain v d : plain v = true → ∃ s, String_or v d = Returns s.
Proof.
  intros Hplain. unfold String_or. apply String_of_plain. by destruct v.
Qed.

Lemma plain_own_prop props k : plain (VObj props) = true → plain (own_prop props k) = true.
Proof.
  cbn [plain]. intros [_ Hprops]%andb_prop.
  induction props as [|[k' v] rest IH]; [done|].
  cbn [forallb] in Hprops. apply andb_prop in Hprops as [Hv Hrest].
  cbn [own_prop]. destruct (bool_decide _); [done|by apply IH].
Qed.

Lemma plain_field v k :
  plain v = true →
  plain (match v with VObj props => own_prop props k | _ => VUndefined end) = true.
Proof. destruct v; try done. apply plain_own_prop. Qed.

(** One step through a decoder: a read from a checked value, a
    conversion of a plain value, or a case split on the next test. *)
Ltac decode_step :=
  match goal with
  | |- context [String_or ?v ?d] =>
      let s := fresh "s" in
      destruct (String_or_plain v d) as [s ->]; [by eauto using plain_field, plain_own_prop|]
  | H : not_an_object ?v = false |- context [get ?v ?k] => rewrite (get_object v k H)
  | |- context [if not_an_object ?v then _ else _] => destruct (not_an_object v) eqn:?
  | |- context [if ?b then _ else _] => destruct b eqn:?
  end; cbn [mbind outcome_bind mret outcome_ret].

(** The same for a decoder whose result is given: a conversion that does
    not return is ruled out by the hypothesis. *)
Ltac decode_given :=
  match goal with
  | H : not_an_object ?v = false |- context [get ?v ?k] => rewrite (get_object v k H)
  | |- context [String_or ?v ?d] =>
      let s := fresh "s" in destruct (String_or v d) as [s| |] eqn:?
  | |- context [if not_an_object ?v then _ else _] => destruct (not_an_object v) eqn:?
  | |- context [if ?b then _ else _] => destruct b eqn:?
  end; cbn [mbind outcome_bind mret outcome_ret]; try discriminate.

(** ** Arrays *)

Example String_int_42 : String_int 42 = lit "42".
Proof. reflexivity. Qed.

Example String_int_negative : String_int (-7) = lit "-7".
Proof. reflexivity. Qed.

Example slice_from_negative : slice_from (-2) [1; 2; 3] = [2; 3].
Proof. reflexivity. Qed.

Example slice_from_short : slice_from (-5) [1; 2; 3] = [1; 2; 3].
Proof. reflexivity. Qed.

Example join_three : join (lit ", ") [lit "a"; lit "b"; lit "c"] = lit "a, b, c".
Proof. reflexivity. Qed.

Lemma slice_from_suffix {A} (start : Z) (l : list A) :
  ∃ dropped, l = dropped ++ slice_from start l.
Proof.
  unfold slice_from. eexists. symmetry. apply take_drop.
Qed.

Lemma slice_from_neg_length {A} (k : Z) (l : list A) :
  0 < k → Z.of_nat (length (slice_from (- k) l)) ≤ k.
Proof.
  intros Hk. unfold slice_from.
  replace (- k <? 0) with true by (symmetry; apply Z.ltb_lt; lia).
  rewrite length_drop. lia.
Qed.

Lemma slice_from_subseteq {A} (start : Z) (l : list A) :
  slice_from start l ⊆ l.
Proof.
  destruct (slice_from_suffix start l) as [d Hd].
  intros x Hx. rewrite Hd. apply elem_of_app. by right.
Qed.


Lemma findIndex_Some {A} (p : A → bool) (l : list A) (i : nat) :
  findIndex p l = Some i →
  ∃ x, l !! i = Some x ∧ p x = true ∧ Forall (λ y, p y = false) (take i l).
Proof.
  revert i. induction l as [|a l IH]; intros i; simpl; [done|].
  destruct (p a) eqn:Hpa.
  - intros [= <-]. exists a. by repeat split.
  - destruct (findIndex p l) as [j|] eqn:Hj; simpl; [|done].
    intros [= <-]. destruct (IH j eq_refl) as (x & Hx & Hpx & Hbefore).
    exists x. repeat split; [done..|]. simpl. by constructor.
Qed.

Lemma findIndex_None {A} (p : A → bool) (l : list A) :
  findIndex p l = None → Forall (λ y, p y = false) l.
Proof.
  induction l as [|a l IH]; simpl; [by constructor|].
  destruct (p a) eqn:Hpa; [done|].
  destruct (findIndex p l); simpl; [done|].
  intros _. constructor; [done|]. by apply IH.
Qed.

(** ** The item store *)

Lemma items_of_put_items st sid v sid' :
  items_of (put_items st sid v) sid' = if decide (sid = sid') then v else items_of st sid'.
Proof.
  unfold items_of, put_items. simpl.
  case_decide as Heq.
  - subst. by rewrite lookup_insert_eq.
  - by rewrite lookup_insert_ne.
Qed.

Lemma delete_sessions_lookup {V} (old : list SessionSummary.t) (m : gmap jsstring V) k :
  delete_sessions old m !! k =
    if decide (k ∈ SessionSummary.id <$> old) then None else m !! k.
Proof.
  unfold delete_sessions. revert m.
  induction old as [|s old IH]; intros m.
  - done.
  - cbn [foldl]. rewrite IH. rewrite fmap_cons.
    destruct (decide (k = SessionSummary.id s)) as [->|Hne].
    + rewrite lookup_delete_eq.
      rewrite (decide_True (P := _ ∈ _ :: _)) by apply list_elem_of_here.
      by destruct (decide _).
    + rewrite lookup_delete_ne by done.
      destruct (decide (k ∈ SessionSummary.id <$> old)) as [Hin|Hnin].
      * rewrite decide_True; [done|]. by apply list_elem_of_further.
      * rewrite decide_False; [done|].
        intros [?|?]%elem_of_cons; done.
Qed.

(** ** Bounded retention *)

Lemma push_capped_length items newItem :
  Z.of_nat (length (push_capped items newItem)) ≤ MAX_ITEMS_PER_SESSION.
Proof.
  unfold push_capped, MAX_ITEMS_PER_SESSION. rewrite length_app. simpl.
  change (Z.opp 400 + 1) with (Z.opp 399).
  assert (Z.of_nat (length (slice_from (Z.opp 399) items)) ≤ 399)
    by (apply slice_from_neg_length; lia).
  lia.
Qed.


Lemma capped_put_items st sid v :
  capped st → Z.of_nat (length v) ≤ MAX_ITEMS_PER_SESSION → capped (put_items st sid v).
Proof.
  intros Hst Hv sid'. rewrite items_of_put_items. case_decide; [done|apply Hst].
Qed.

Lemma capped_same_items st st' :
  State.itemsBySession st' = State.itemsBySession st → capped st → capped st'.
Proof. intros Heq Hst sid. unfold items_of. rewrite Heq. apply Hst. Qed.

Lemma upsert_by_id_capped st sid iid k newItem update :
  capped st → capped (upsert_by_id st sid iid k newItem update).
Proof.
  intros Hst. unfold upsert_by_id.
  destruct (findIndex _ _) as [idx|].
  - destruct (_ !! idx) as [existing|]; [|done].
    case_decide; [|done].
    apply capped_put_items; [done|]. rewrite length_insert. apply Hst.
  - apply capped_put_items; [done|]. apply push_capped_length.
Qed.

Lemma sessionReducer_capped now st action :
  capped st → capped (sessionReducer now st action).
Proof.
  intros Hst. destruct action; simpl;
    try (by apply upsert_by_id_capped);
    try (by apply (capped_same_items st)).
  - (* ensureSession *)
    destruct (existsb _ _); [done|]. by apply (capped_same_items st).
  - (* clearWorkspaceSessions *)
    intros sid. unfold items_of. simpl. rewrite delete_sessions_lookup.
    case_decide; [simpl; unfold MAX_ITEMS_PER_SESSION; lia|apply Hst].
  - (* addUserMessage *)
    apply capped_put_items; [done|]. apply push_capped_length.
  - (* upsertItem *)
    destruct (findIndex _ _) as [idx|].
    + destruct (_ !! idx) as [old|]; [|done].
      apply capped_put_items; [done|]. rewrite length_insert. apply Hst.
    + apply capped_put_items; [done|]. apply push_capped_length.
  - (* setSessionItems *)
    apply capped_put_items; [done|].
    apply (slice_from_neg_length 400). lia.
  - (* setSessionTitle *)
    destruct (findIndex _ _) as [idx|]; [|done].
    destruct (_ !! idx); [|done]. by apply (capped_same_items st).
Qed.

Lemma initialState_capped : capped initialState.
Proof. intros sid. unfold items_of. simpl. rewrite lookup_empty. simpl. unfold MAX_ITEMS_PER_SESSION. lia. Qed.

Lemma run_capped st steps : capped st → capped (run st steps).
Proof.
  revert st. induction steps as [|[now a] steps IH]; intros st Hst; [done|].
  apply IH. by apply sessionReducer_capped.
Qed.

Lemma upsert_by_id_target st sid iid k newItem update :
  Item.id newItem = iid →
  (∀ x, Item.id (update x) = Item.id x) →
  ∃ it, it ∈ items_of (upsert_by_id st sid iid k newItem update) sid ∧ Item.id it = iid.
Proof.
  intros Hnew Hupd. unfold upsert_by_id.
  destruct (findIndex _ _) as [idx|] eqn:Hfind.
  - apply findIndex_Some in Hfind as (x & Hx & Hid & _).
    unfold has_id in Hid. apply bool_decide_eq_true in Hid.
    rewrite Hx. case_decide.
    + exists (update x). split; [|by rewrite Hupd].
      rewrite items_of_put_items, decide_True by done.
      apply list_elem_of_lookup. exists idx.
      apply list_lookup_insert_eq. by eapply lookup_lt_Some.
    + exists x. split; [|done]. by eapply list_elem_of_lookup_2.
  - exists newItem. split; [|done].
    rewrite items_of_put_items, decide_True by done.
    unfold push_capped. apply elem_of_app. right. apply list_elem_of_here.
Qed.

Lemma sessionReducer_target now st action :
  match target now action with
  | Some (sessionId, itemId) =>
      ∃ it, it ∈ items_of (sessionReducer now st action) sessionId ∧ Item.id it = itemId
  | None => True
  end.
Proof.
  destruct action; simpl; try done; try (by apply upsert_by_id_target).
  - (* addUserMessage *)
    exists (Item.message_item (lit "user-" ++ String_int now) RoleUser text).
    split; [|done].
    rewrite items_of_put_items, decide_True by done.
    unfold push_capped. apply elem_of_app. right. apply list_elem_of_here.
  - (* upsertItem *)
    destruct (findIndex _ _) as [idx|] eqn:Hfind.
    + apply findIndex_Some in Hfind as (x & Hx & Hid & _).
      unfold has_id in Hid. apply bool_decide_eq_true in Hid.
      rewrite Hx. exists (Item.spread x item). split; [|done].
      rewrite items_of_put_items, decide_True by done.
      apply list_elem_of_lookup. exists idx.
      apply list_lookup_insert_eq. by eapply lookup_lt_Some.
    + exists item. split; [|done].
      rewrite items_of_put_items, decide_True by done.
      unfold push_capped. apply elem_of_app. right. apply list_elem_of_here.
Qed.

(** The cap at work: the 401st message evicts the first one. *)
Example cap_evicts_oldest :
  let s := lit "s1" in
  let st :=
    run initialState
      (map (λ n, (Z.of_nat n, addUserMessage (lit "w1") s (lit "m"))) (seq 0 401)) in
  length (items_of st s) = 400%nat ∧
  Item.id <$> head (items_of st s) = Some (lit "user-1") ∧
  Item.id <$> last (items_of st s) = Some (lit "user-400").
Proof. vm_compute. done. Qed.

(** C1. In every state the reducer reaches from [initialState], and for
    every further action, each session holds at most
    [MAX_ITEMS_PER_SESSION] = 400 items after the action, and the item
    the action appends or updates is in its session's sequence: the
    truncation of the same step does not evict it. *)
Theorem retention_cap_keeps_written_item
    (history : list (Z * SessionAction)) (now : Z) (action : SessionAction) :
  let after := sessionReducer now (run initialState history) action in
  (∀ sessionId, Z.of_nat (length (items_of after sessionId)) ≤ 400) ∧
  match target now action with
  | Some (sessionId, itemId) =>
      ∃ it, it ∈ items_of after sessionId ∧ Item.id it = itemId
  | None => True
  end.
Proof.
  split.
  - apply sessionReducer_capped, run_capped, initialState_capped.
  - apply sessionReducer_target.
Qed.

(** ** Upsert by id *)

Lemma find_findIndex {A} (p : A → bool) (l : list A) :
  List.find p l = findIndex p l ≫= (l !!.).
Proof.
  induction l as [|a l IH]; simpl; [done|].
  destruct (p a); [done|]. rewrite IH.
  by destruct (findIndex p l).
Qed.

Lemma find_insert_found {A} (p : A → bool) (l : list A) (i : nat) (y : A) :
  findIndex p l = Some i → p y = true → List.find p (<[i := y]> l) = Some y.
Proof.
  revert i. induction l as [|a l IH]; intros i; simpl; [done|].
  destruct (p a) eqn:Hpa.
  - intros [= <-] Hy. simpl. by rewrite Hy.
  - destruct (findIndex p l) as [j|]; simpl; [|done].
    intros [= <-] Hy. simpl. rewrite Hpa. by apply IH.
Qed.

Lemma find_none_subseteq {A} (p : A → bool) (l l' : list A) :
  l' ⊆ l → List.find p l = None → List.find p l' = None.
Proof.
  intros Hsub Hnone.
  destruct (List.find p l') as [x|] eqn:Hx; [|done].
  apply find_some in Hx as [Hin Hp].
  assert (p x = false); [|congruence].
  apply (find_none _ _ Hnone x).
  apply list_elem_of_In, Hsub, list_elem_of_In, Hin.
Qed.

Lemma find_snoc_fresh {A} (p : A → bool) (l : list A) (x : A) :
  List.find p l = None → p x = true → List.find p (l ++ [x]) = Some x.
Proof.
  induction l as [|a l IH]; simpl; intros Hnone Hx.
  - by rewrite Hx.
  - destruct (p a); [done|]. by apply IH.
Qed.

Lemma item_at_put_items st sid v iid :
  item_at (put_items st sid v) sid iid = List.find (has_id iid) v.
Proof. unfold item_at. by rewrite items_of_put_items, decide_True. Qed.

Lemma item_at_push st sid iid newItem :
  item_at st sid iid = None → Item.id newItem = iid →
  item_at (put_items st sid (push_capped (items_of st sid) newItem)) sid iid = Some newItem.
Proof.
  intros Hnone Hid. rewrite item_at_put_items. unfold push_capped.
  apply find_snoc_fresh.
  - eapply find_none_subseteq; [apply slice_from_subseteq|done].
  - unfold has_id. by apply bool_decide_eq_true.
Qed.

Lemma item_at_upsert_by_id st sid iid k newItem update :
  Item.id newItem = iid →
  (∀ x, Item.id (update x) = Item.id x) →
  item_at (upsert_by_id st sid iid k newItem update) sid iid =
    match item_at st sid iid with
    | None => Some newItem
    | Some x => if decide (Item.kind x = k) then Some (update x) else Some x
    end.
Proof.
  intros Hnew Hupd. unfold upsert_by_id.
  pose proof (find_findIndex (has_id iid) (items_of st sid)) as Hfind.
  fold (item_at st sid iid) in Hfind.
  destruct (findIndex _ _) as [idx|] eqn:Hidx; simpl in Hfind.
  - destruct (findIndex_Some _ _ _ Hidx) as (x & Hx & Hid & _).
    rewrite Hx in Hfind |- *. rewrite Hfind.
    case_decide; [|done].
    rewrite item_at_put_items. apply find_insert_found; [done|].
    unfold has_id in *. apply bool_decide_eq_true. rewrite Hupd.
    by apply bool_decide_eq_true in Hid.
  - rewrite Hfind. by apply item_at_push.
Qed.

Lemma item_at_upsertItem now st sid item :
  item_at (sessionReducer now st (upsertItem sid item)) sid (Item.id item) =
    match item_at st sid (Item.id item) with
    | None => Some item
    | Some old => Some (Item.spread old item)
    end.
Proof.
  simpl.
  pose proof (find_findIndex (has_id (Item.id item)) (items_of st sid)) as Hfind.
  fold (item_at st sid (Item.id item)) in Hfind.
  destruct (findIndex _ _) as [idx|] eqn:Hidx; simpl in Hfind.
  - destruct (findIndex_Some _ _ _ Hidx) as (x & Hx & Hid & _).
    rewrite Hx in Hfind |- *. rewrite Hfind.
    rewrite item_at_put_items. apply find_insert_found; [done|].
    unfold has_id. by apply bool_decide_eq_true.
  - rewrite Hfind. by apply item_at_push.
Qed.

(** ** Tool-call deltas *)

Lemma tool_step now st sid iid d :
  item_at (sessionReducer now st (tool_action sid iid d)) sid iid =
    match item_at st sid iid with
    | None =>
        Some match d with
             | StatusSet status =>
                 Item.tool_item iid (lit "acpToolCall") (lit "Tool") [] status None None
             | OutputDelta delta =>
                 Item.tool_item iid (lit "acpToolCall") (lit "Tool") [] (lit "in_progress")
                   (Some delta) None
             | ChangesDelta changes =>
                 Item.tool_item iid (lit "acpToolCall") (lit "Tool") [] (lit "in_progress")
                   None (Some changes)
             end
    | Some it =>
        if decide (Item.kind it = Ktool) then
          Some match d with
               | StatusSet status => Item.with_status it status
               | OutputDelta delta =>
                   Item.with_output it (default [] (Item.output it) ++ delta)
               | ChangesDelta changes =>
                   Item.with_changes it (default [] (Item.changes it) ++ changes)
               end
        else Some it
    end.
Proof.
  destruct d; simpl; rewrite item_at_upsert_by_id by done;
    destruct (item_at st sid iid); try done; by case_decide.
Qed.

Lemma tool_trace_existing sid iid st ds st' it :
  tool_trace sid iid st ds st' →
  item_at st sid iid = Some it →
  Item.kind it = Ktool →
  ∃ it', item_at st' sid iid = Some it' ∧ Item.kind it' = Ktool ∧
    Item.status it' = from_option Some (Item.status it) (last_status ds) ∧
    default [] (Item.output it') = default [] (Item.output it) ++ all_output ds ∧
    default [] (Item.changes it') = default [] (Item.changes it) ++ all_changes ds ∧
    Item.title it' = Item.title it ∧
    Item.detail it' = Item.detail it.
Proof.
  intros Htrace. revert it.
  induction Htrace as [st|st now d ds st' _ IH|st now action ds st' Hkeep _ IH];
    intros it Hit Hkind.
  - exists it. simpl. by rewrite !app_nil_r.
  - pose proof (tool_step now st sid iid d) as Hstep.
    rewrite Hit, decide_True in Hstep by done.
    destruct (IH _ Hstep) as (it' & Hit' & Hk' & Hs & Ho & Hc & Ht & Hd); [by destruct d|].
    exists it'. split; [done|]. split; [done|].
    rewrite Hs, Ho, Hc, Ht, Hd. simpl.
    destruct d; simpl; destruct (last_status ds); simpl; by rewrite <- ?app_assoc.
  - apply IH; [|done]. by rewrite Hkeep.
Qed.

(** C2. Take a session and an item id under which the reducer finds no
    item or a tool item, and a history made of tool-call actions
    ([setToolStatus], [appendToolOutput], [appendToolChanges]) against
    that id, in any number and order, interleaved with transitions that
    leave the item under that id alone.  Afterwards the item found under
    the id is a tool item; its status is the last one a [setToolStatus]
    set (without any, the status it had, or ["in_progress"] for an item
    the deltas created); its output, read as the reducer reads it
    ([output ?? ""]), is what it was followed by all the output deltas in
    dispatch order; its changes, likewise, are what they were followed by
    all the change lists in dispatch order. *)
Theorem tool_deltas_accumulate sid iid st ds st' :
  tool_trace sid iid st ds st' →
  (∀ it, item_at st sid iid = Some it → Item.kind it = Ktool) →
  ds ≠ [] →
  let before := item_at st sid iid in
  ∃ it', item_at st' sid iid = Some it' ∧ Item.kind it' = Ktool ∧
    Item.status it' =
      from_option Some (from_option Item.status (Some (lit "in_progress")) before)
        (last_status ds) ∧
    default [] (Item.output it') =
      default [] (before ≫= Item.output) ++ all_output ds ∧
    default [] (Item.changes it') =
      default [] (before ≫= Item.changes) ++ all_changes ds.
Proof.
  intros Htrace Hkind Hne before. subst before.
  destruct (item_at st sid iid) as [it|] eqn:Hbefore.
  { destruct (tool_trace_existing _ _ _ _ _ _ Htrace Hbefore (Hkind _ eq_refl))
      as (it' & ? & ? & ? & ? & ? & _).
    exists it'. by repeat split. }
  clear Hkind. simpl.
  induction Htrace as [st|st now d ds st' Htrace _|st now action ds st' Hkeep _ IH].
  - done.
  - pose proof (tool_step now st sid iid d) as Hstep. rewrite Hbefore in Hstep.
    destruct (tool_trace_existing _ _ _ _ _ _ Htrace Hstep)
      as (it' & Hit' & Hk' & Hs & Ho & Hc & _); [by destruct d|].
    exists it'. split; [done|]. split; [done|].
    rewrite Hs, Ho, Hc.
    destruct d; simpl; by destruct (last_status ds).
  - apply IH; [by rewrite Hkeep|done].
Qed.

Lemma tool_deltas_accumulate_witness :
  let sid := lit "s1" in
  let iid := lit "tool-s1-7" in
  let ch := Change.mk (lit "a.txt") (Some (lit "MOD")) None in
  ∃ it', item_at
           (run initialState
              [ (1, appendToolOutput sid iid (lit "ab"));
                (2, addUserMessage (lit "w") sid (lit "hello"));
                (3, setToolStatus sid iid (lit "completed"));
                (4, appendToolChanges sid iid [ch]);
                (5, appendToolOutput sid iid (lit "cd")) ]) sid iid = Some it' ∧
    Item.kind it' = Ktool ∧
    Item.status it' = Some (lit "completed") ∧
    default [] (Item.output it') = lit "abcd" ∧
    default [] (Item.changes it') = [ch].
Proof.
  intros sid iid ch.
  apply (tool_deltas_accumulate sid iid initialState
           [OutputDelta (lit "ab"); StatusSet (lit "completed");
            ChangesDelta [ch]; OutputDelta (lit "cd")]).
  - apply (trace_delta _ _ _ 1).
    apply (trace_other _ _ _ 2 (addUserMessage (lit "w") sid (lit "hello"))); [reflexivity|].
    apply (trace_delta _ _ _ 3).
    apply (trace_delta _ _ _ 4).
    apply (trace_delta _ _ _ 5).
    apply trace_done.
  - intros it. vm_compute. discriminate.
  - discriminate.
Defined.

(** ** The summary *)

Lemma clause_noun_for n noun rest :
  clause n (lit noun) rest = String_int n ++ lit " " ++ noun_for n noun ++ rest.
Proof.
  unfold clause, noun_for.
  destruct (Z.eqb_spec n 1) as [->|Hne].
  - by rewrite decide_True.
  - rewrite decide_False by done. by rewrite <- !app_assoc.
Qed.

Lemma gtb_bool_decide (n : Z) : (n >? 0) = bool_decide (0 < n).
Proof.
  rewrite Z.gtb_ltb. destruct (Z.ltb_spec 0 n).
  - by rewrite bool_decide_eq_true_2.
  - rewrite bool_decide_eq_false_2; [done|lia].
Qed.

(** C3. With at least one item and a baseline, [buildSummary] returns
    the summary the specification words: on four zero deltas
    "Working…" when processing, else "Waiting for approval" when an
    approval is pending, else "No new activity"; otherwise the qualifying
    clauses joined by ", " in the order completed plan steps, changed
    files, tool actions (only with a zero delta of changed files),
    responses (only when no other clause qualified), each noun plural
    exactly when its count is not 1; and "Working…" when processing, else
    "Caught up", when no clause qualified.  Plan delta 2 with the other
    deltas zero, not processing, gives "2 tasks done"; four zero deltas
    while processing give "Working…", the word followed by the character
    U+2026, and so does a lone negative delta while processing, which
    gives "Caught up" when not. *)
Theorem buildSummary_matches_spec :
  (∀ baseline current isProcessing hasPendingApproval,
     buildSummary (Some baseline) current isProcessing hasPendingApproval true =
       Some (summary_spec (HandoffBaseline.activity baseline) current
               isProcessing hasPendingApproval)) ∧
  (∀ openedAt hasPendingApproval,
     buildSummary (Some (HandoffBaseline.mk openedAt (ActivitySnapshot.mk 0 0 0 0)))
       (ActivitySnapshot.mk 0 0 0 2) false hasPendingApproval true =
       Some (lit "2 tasks done")) ∧
  (∀ openedAt hasPendingApproval,
     buildSummary (Some (HandoffBaseline.mk openedAt (ActivitySnapshot.mk 3 1 0 2)))
       (ActivitySnapshot.mk 3 1 0 2) true hasPendingApproval true =
       Some (lit "Working" ++ [8230%N]) ∧
     buildSummary (Some (HandoffBaseline.mk openedAt (ActivitySnapshot.mk 3 1 0 2)))
       (ActivitySnapshot.mk 2 1 0 2) true hasPendingApproval true =
       Some (lit "Working" ++ [8230%N]) ∧
     buildSummary (Some (HandoffBaseline.mk openedAt (ActivitySnapshot.mk 3 1 0 2)))
       (ActivitySnapshot.mk 2 1 0 2) false hasPendingApproval true =
       Some (lit "Caught up")).
Proof.
  split; [|split; [by intros ? []|by intros ? []]].
  intros [openedAt [bm bt bd bp]] [cm ct cd cp] isProcessing hasPendingApproval.
  unfold buildSummary, summary_spec, summary_clauses. simpl.
  set (msgDelta := cm - bm). set (toolDelta := ct - bt).
  set (diffDelta := cd - bd). set (planDelta := cp - bp).
  destruct (decide (msgDelta = 0 ∧ toolDelta = 0 ∧ diffDelta = 0 ∧ planDelta = 0))
    as [(-> & -> & -> & ->)|Hnz].
  { simpl. by destruct isProcessing, hasPendingApproval. }
  replace ((msgDelta =? 0) && (toolDelta =? 0) && (diffDelta =? 0) && (planDelta =? 0))
    with false.
  2:{ symmetry. apply not_true_is_false. intros H.
      repeat (apply andb_prop in H as [H ?]). apply Hnz.
      repeat split; by apply Z.eqb_eq. }
  rewrite !gtb_bool_decide.
  replace (bool_decide (0 < toolDelta ∧ diffDelta = 0))
    with (bool_decide (0 < toolDelta) && (diffDelta =? 0)).
  2:{ destruct (Z.eqb_spec diffDelta 0), (decide (0 < toolDelta));
        rewrite ?bool_decide_eq_true_2, ?bool_decide_eq_false_2 by tauto; try done.
      all: symmetry; apply bool_decide_eq_false_2; tauto. }
  unfold push_if. rewrite !clause_noun_for, !app_nil_r.
  destruct (bool_decide (0 < planDelta)), (bool_decide (0 < diffDelta)),
    (bool_decide (0 < toolDelta)), (diffDelta =? 0), (bool_decide (0 < msgDelta));
    simpl; by destruct isProcessing.
Qed.

(** C10. Without a baseline the summary of a session with items is the
    absolute one, and it never speaks of tool actions: it does not
    depend on [toolCallCount], and a snapshot with no completed plan
    step, no diff and no assistant message (a session of tool items
    only, say) is summarized as "Session active". *)
Theorem fallback_summary_ignores_tools :
  (∀ messageCount toolCallCount toolCallCount' diffCount planCompleted,
     buildCurrentSummary
       (ActivitySnapshot.mk messageCount toolCallCount diffCount planCompleted) =
     buildCurrentSummary
       (ActivitySnapshot.mk messageCount toolCallCount' diffCount planCompleted)) ∧
  (∀ current isProcessing hasPendingApproval,
     ActivitySnapshot.toolCallCount current > 0 →
     ActivitySnapshot.planCompleted current = 0 →
     ActivitySnapshot.diffCount current = 0 →
     ActivitySnapshot.messageCount current = 0 →
     buildSummary None current isProcessing hasPendingApproval true =
       Some (lit "Session active")).
Proof.
  split; [done|].
  intros [m t d p] isProcessing hasPendingApproval _. simpl.
  intros -> -> ->. reflexivity.
Qed.

Lemma fallback_summary_ignores_tools_witness :
  buildSummary None (snapshotActivity
      [ Item.tool_item (lit "t1") (lit "acpToolCall") (lit "Tool") [] (lit "running") None None;
        Item.tool_item (lit "t2") (lit "acpToolCall") (lit "Tool") [] (lit "completed") None None ]
      None) false false true
  = Some (lit "Session active").
Proof.
  apply (proj2 fallback_summary_ignores_tools); reflexivity.
Defined.

(** ** Workspace teardown *)

(** The claim as it is written fails for a session of the workspace
    that is no longer listed: [removeSession] takes a session off the
    list and keeps what is stored under its id, and the clear that
    follows goes by the list. *)
Lemma clearWorkspaceSessions_keeps_unlisted_state :
  let w := lit "w1" in
  let st :=
    run initialState
      [ (1, ensureSession w (lit "s1") (Some (lit "First")));
        (2, addUserMessage w (lit "s1") (lit "hi"));
        (3, markProcessing (lit "s1") true);
        (4, setSessionPlan (lit "s1") (Some (TurnPlan.mk (lit "s1") None [])));
        (5, removeSession w (lit "s1")) ] in
  let after := sessionReducer 6 st (clearWorkspaceSessions w) in
  State.itemsBySession after !! lit "s1"
    = Some [Item.message_item (lit "user-2") RoleUser (lit "hi")] ∧
  State.sessionStatusById after !! lit "s1" ≠ None ∧
  State.planBySession after !! lit "s1" = Some (Some (TurnPlan.mk (lit "s1") None [])).
Proof.
  intros w st after. split; [vm_compute; reflexivity|].
  split; [vm_compute; discriminate|vm_compute; reflexivity].
Qed.

(** C5. After [clearWorkspaceSessions] for a workspace, no item
    sequence, no status entry and no plan entry is left under the id of
    any session that was listed for that workspace when the action
    arrived, the workspace's session list is empty and its
    active-session pointer is [null]. *)
Theorem clearWorkspaceSessions_clears_listed_sessions now st workspaceId :
  let after := sessionReducer now st (clearWorkspaceSessions workspaceId) in
  (∀ s, s ∈ sessions_of st workspaceId →
     State.itemsBySession after !! SessionSummary.id s = None ∧
     State.sessionStatusById after !! SessionSummary.id s = None ∧
     State.planBySession after !! SessionSummary.id s = None) ∧
  State.sessionsByWorkspace after !! workspaceId = Some [] ∧
  State.activeSessionIdByWorkspace after !! workspaceId = Some None.
Proof.
  simpl. split; [|by rewrite !lookup_insert_eq].
  intros s Hs.
  assert (SessionSummary.id s ∈ SessionSummary.id <$> sessions_of st workspaceId)
    by (by apply list_elem_of_fmap_2).
  rewrite !delete_sessions_lookup. by rewrite !decide_True.
Qed.

Lemma clearWorkspaceSessions_clears_listed_sessions_witness :
  let w := lit "w1" in
  let s := SessionSummary.mk (lit "s1") (lit "First") in
  let st :=
    run initialState
      [ (1, ensureSession w (lit "s1") (Some (lit "First")));
        (2, addUserMessage w (lit "s1") (lit "hi"));
        (3, markProcessing (lit "s1") true);
        (4, setSessionPlan (lit "s1") None) ] in
  let after := sessionReducer 5 st (clearWorkspaceSessions w) in
  s ∈ sessions_of st w ∧
  State.itemsBySession after !! lit "s1" = None ∧
  State.sessionStatusById after !! lit "s1" = None ∧
  State.planBySession after !! lit "s1" = None.
Proof.
  intros w s st after.
  assert (Hin : s ∈ sessions_of st w) by (vm_compute; apply list_elem_of_here).
  split; [exact Hin|].
  exact (proj1 (clearWorkspaceSessions_clears_listed_sessions 5 st w) s Hin).
Defined.

(** ** [sendMessage] when the backend call fails *)






(** ** The tool-call decoder *)

Lemma handleEvent_session_update env w refs params :
  handleEvent env w refs (OpenCodeEvent.mk w (lit "session/update") params) =
    on_session_update env refs params.
Proof.
  unfold handleEvent. cbn [OpenCodeEvent.workspaceId OpenCodeEvent.method OpenCodeEvent.params].
  rewrite bool_decide_eq_true_2 by done.
  decide_lits. reflexivity.
Qed.

Lemma tool_content_entry_deltas sid iid item :
  plain item = true →
  ∃ ds, tool_content_entry sid iid item = Returns (tool_action sid iid <$> ds) ∧
        last_status ds = None.
Proof.
  intros Hplain. unfold tool_content_entry.
  repeat decode_step;
    first [by exists [] | by eexists [OutputDelta _] | by eexists [ChangesDelta _]].
Qed.

Lemma last_status_app_None d ds :
  last_status ds = None → last_status (d ++ ds) = last_status d.
Proof.
  intros Hnone. induction d as [|x d IH]; [done|].
  simpl. by rewrite IH.
Qed.

Lemma tool_content_deltas sid iid content :
  forallb plain content = true →
  ∃ ds, tool_content sid iid content = Returns (tool_action sid iid <$> ds) ∧
        last_status ds = None.
Proof.
  induction content as [|item rest IH]; [by exists []|].
  cbn [forallb]. intros [Hitem Hrest]%andb_prop.
  destruct (IH Hrest) as (ds & Hds & Hnone).
  destruct (tool_content_entry_deltas sid iid item Hitem) as (d & Hd & Hdnone).
  rename Hds into Hrest'.
  exists (d ++ ds). simpl. rewrite Hd, Hrest'. simpl. rewrite fmap_app. split; [done|].
  by rewrite last_status_app_None.
Qed.

Lemma tool_trace_run sid iid ds st steps :
  steps.*2 = tool_action sid iid <$> ds → tool_trace sid iid st ds (run st steps).
Proof.
  revert st steps. induction ds as [|d ds IH]; intros st [|[now a] steps] Hsteps;
    try discriminate Hsteps.
  - apply trace_done.
  - injection Hsteps as -> Hsteps. apply (trace_delta _ _ _ now).
    change (run st ((now, tool_action sid iid d) :: steps))
      with (run (sessionReducer now st (tool_action sid iid d)) steps).
    by apply IH.
Qed.

Lemma plain_elements elems : plain (VArr elems) = true → forallb plain elems = true.
Proof. done. Qed.

Lemma tool_call_decoded env w refs pprops uprops sid tcid kind title status :
  String_or (own_prop pprops (lit "sessionId")) "" = Returns sid →
  nonempty sid = true →
  own_prop pprops (lit "update") = VObj uprops →
  String_or (own_prop uprops (lit "sessionUpdate")) "" = Returns (lit "tool_call") →
  String_or (own_prop uprops (lit "toolCallId")) "" = Returns tcid →
  nonempty tcid = true →
  String_or (own_prop uprops (lit "title")) "Tool" = Returns title →
  String_or (own_prop uprops (lit "kind")) "" = Returns kind →
  String_or (own_prop uprops (lit "status")) "pending" = Returns status →
  plain (own_prop uprops (lit "content")) = true →
  let itemId := lit "tool-" ++ sid ++ lit "-" ++ tcid in
  let rawInput := own_prop uprops (lit "rawInput") in
  let rawInputText := if truthy rawInput then Env.JSON_stringify env rawInput else [] in
  let item :=
    Item.tool_item itemId (lit "acpToolCall")
      (if nonempty kind then kind ++ lit ": " ++ title else title)
      (truncate 4000 (join nl (List.filter nonempty [kind; rawInputText])))
      status None None in
  ∃ ds,
    handleEvent env w refs (OpenCodeEvent.mk w (lit "session/update") (VObj pprops))
      = Returns (refs, upsertItem sid item :: (tool_action sid itemId <$> ds)) ∧
    from_option Some (Some status) (last_status ds) = Some status.
Proof.
  intros Hsid Hsid_ne Hupd Htype Htc Htc_ne Htitle Hkind Hstatus Hcontent
    itemId rawInput rawInputText item.
  rewrite handleEvent_session_update. unfold on_session_update.
  cbn [get mbind outcome_bind]. rewrite Hsid. cbn [mbind outcome_bind].
  rewrite Hsid_ne, Hupd.
  cbn [negb not_an_object truthy typeof_object orb get mbind outcome_bind].
  rewrite Htype. cbn [mbind outcome_bind]. decide_lits. cbn [orb].
  rewrite Htc. cbn [mbind outcome_bind]. rewrite Htc_ne. cbn [negb].
  unfold tool_call_item. cbn [get mbind outcome_bind mret outcome_ret].
  rewrite Htitle. cbn [mbind outcome_bind]. rewrite Hkind. cbn [mbind outcome_bind].
  rewrite Hstatus. cbn [mbind outcome_bind mret outcome_ret].
  subst itemId.
  assert (∀ dc streamed,
            streamed = Returns (tool_action sid (lit "tool-" ++ sid ++ lit "-" ++ tcid) <$> dc) →
            last_status dc = None →
            ∃ ds,
              streamed ≫= (λ streamed : list SessionAction,
                 mret (refs,
                   [upsertItem sid item] ++
                   match own_prop uprops (lit "status") with
                   | VStr s =>
                       if nonempty s
                       then [setToolStatus sid (lit "tool-" ++ sid ++ lit "-" ++ tcid) s]
                       else []
                   | _ => []
                   end ++ streamed))
              = Returns (refs, upsertItem sid item ::
                           (tool_action sid (lit "tool-" ++ sid ++ lit "-" ++ tcid) <$> ds)) ∧
              from_option Some (Some status) (last_status ds) = Some status) as Hfinish.
  { intros dc streamed -> Hdc. cbn [mbind outcome_bind].
    destruct (own_prop uprops (lit "status")) as [| | | |s| |] eqn:Hstatus_v;
      try (exists dc; rewrite Hdc; by split).
    assert (status = s) as -> by (cbn in Hstatus; congruence).
    destruct (nonempty s) eqn:Hs.
    - exists (StatusSet s :: dc). split; [done|]. simpl. by rewrite Hdc.
    - exists dc. rewrite Hdc. by split. }
  destruct (own_prop uprops (lit "content")) as [| | | | |elems|];
    try (by apply (Hfinish [])).
  destruct (tool_content_deltas sid (lit "tool-" ++ sid ++ lit "-" ++ tcid) elems
              (plain_elements _ Hcontent)) as (dc & Hdc_eq & Hdc).
  by apply (Hfinish dc).
Qed.

Lemma tool_call_update_decoded env w refs pprops uprops sid tcid s :
  String_or (own_prop pprops (lit "sessionId")) "" = Returns sid →
  nonempty sid = true →
  own_prop pprops (lit "update") = VObj uprops →
  String_or (own_prop uprops (lit "sessionUpdate")) "" = Returns (lit "tool_call_update") →
  String_or (own_prop uprops (lit "toolCallId")) "" = Returns tcid →
  nonempty tcid = true →
  own_prop uprops (lit "status") = VStr s →
  nonempty s = true →
  own_prop uprops (lit "content") = VUndefined →
  handleEvent env w refs (OpenCodeEvent.mk w (lit "session/update") (VObj pprops))
    = Returns (refs, [setToolStatus sid (lit "tool-" ++ sid ++ lit "-" ++ tcid) s]).
Proof.
  intros Hsid Hsid_ne Hupd Htype Htc Htc_ne Hstatus Hs Hcontent.
  rewrite handleEvent_session_update. unfold on_session_update.
  cbn [get mbind outcome_bind]. rewrite Hsid. cbn [mbind outcome_bind].
  rewrite Hsid_ne, Hupd.
  cbn [negb not_an_object truthy typeof_object orb get mbind outcome_bind].
  rewrite Htype. cbn [mbind outcome_bind]. decide_lits. cbn [orb].
  rewrite Htc. cbn [mbind outcome_bind]. rewrite Htc_ne, Hstatus, Hs, Hcontent. reflexivity.
Qed.

Lemma truncate_cut n (s : jsstring) :
  (Z.of_nat (length s) ≤ n → truncate n s = s) ∧
  (n < Z.of_nat (length s) → truncate n s = take (Z.to_nat n) s ++ [8230%N]).
Proof.
  unfold truncate, slice_to, ellipsis. rewrite Z.gtb_ltb.
  destruct (Z.ltb_spec n (Z.of_nat (length s))); split; intros; try done; lia.
Qed.

Lemma detail_of_kind_and_input (kind text : jsstring) (present : bool) :
  join nl (List.filter nonempty [kind; if present then text else []]) =
    match nonempty kind, present && nonempty text with
    | true, true => kind ++ [10%N] ++ text
    | true, false => kind
    | false, true => text
    | false, false => []
    end.
Proof. destruct kind, present, text; reflexivity. Qed.

Lemma setToolStatus_patches_status now st sid iid s it :
  item_at st sid iid = Some it → Item.kind it = Ktool →
  ∃ it', item_at (sessionReducer now st (setToolStatus sid iid s)) sid iid = Some it' ∧
    Item.status it' = Some s ∧ same_but_status it it'.
Proof.
  intros Hit Hkind.
  pose proof (tool_step now st sid iid (StatusSet s)) as Hstep.
  rewrite Hit, decide_True in Hstep by done.
  eexists. split; [exact Hstep|]. split; [done|]. by repeat split.
Qed.

(** The claim as it is written fails on a raw input that is falsy: the
    tool call below carries the raw input [0], whose JSON text is ["0"],
    and the detail of the item it upserts is the kind alone. *)
Lemma tool_call_omits_falsy_raw_input :
  let env := Env.mk 0 [] (λ _, lit "0") (λ _, None) in
  let w := lit "w1" in
  let rawInput := VNum 0 in
  let event :=
    OpenCodeEvent.mk w (lit "session/update")
      (VObj [ (lit "sessionId", VStr (lit "s1"));
              (lit "update",
               VObj [ (lit "sessionUpdate", VStr (lit "tool_call"));
                      (lit "toolCallId", VStr (lit "7"));
                      (lit "kind", VStr (lit "execute"));
                      (lit "title", VStr (lit "run tests"));
                      (lit "rawInput", rawInput) ]) ]) in
  ∃ item,
    handleEvent env w Refs.empty event = Returns (Refs.empty, [upsertItem (lit "s1") item]) ∧
    Item.detail item = Some (lit "execute") ∧
    Item.detail item ≠ Some (lit "execute" ++ [10%N] ++ Env.JSON_stringify env rawInput).
Proof.
  eexists. split; [vm_compute; reflexivity|]. by split.
Qed.

(** C6. A [session/update] event of the subscribed workspace whose update
    is a [tool_call] with a tool-call id, the fields it converts being
    convertible, makes the listener dispatch, first, the upsert of a tool
    item with id [tool-<sessionId>-<toolCallId>], title
    ["<kind>: <title>"] when the kind is not empty and [<title>]
    otherwise, the event's status, and as detail the kind and, when the
    raw input is truthy, its JSON text, the two joined by a newline when
    neither is empty, the whole kept as it is up to 4000 characters and
    otherwise cut to its first 4000 followed by an ellipsis; whatever
    else the event dispatches, once the reducer has applied it all the
    item found under that id is a tool item with that title, status and
    detail.  A [tool_call_update] that carries a status and no content
    dispatches one [setToolStatus], after which an existing tool item has
    the new status and every other property as before. *)
Theorem tool_call_upserts_tool_item :
  (∀ env w refs pprops uprops sid tcid kind title status,
     String_or (own_prop pprops (lit "sessionId")) "" = Returns sid →
     nonempty sid = true →
     own_prop pprops (lit "update") = VObj uprops →
     String_or (own_prop uprops (lit "sessionUpdate")) "" = Returns (lit "tool_call") →
     String_or (own_prop uprops (lit "toolCallId")) "" = Returns tcid →
     nonempty tcid = true →
     String_or (own_prop uprops (lit "title")) "Tool" = Returns title →
     String_or (own_prop uprops (lit "kind")) "" = Returns kind →
     String_or (own_prop uprops (lit "status")) "pending" = Returns status →
     plain (own_prop uprops (lit "content")) = true →
     let itemId := lit "tool-" ++ sid ++ lit "-" ++ tcid in
     let rawInput := own_prop uprops (lit "rawInput") in
     let text := Env.JSON_stringify env rawInput in
     let shown_title := if nonempty kind then kind ++ lit ": " ++ title else title in
     let detailRaw :=
       match nonempty kind, truthy rawInput && nonempty text with
       | true, true => kind ++ [10%N] ++ text
       | true, false => kind
       | false, true => text
       | false, false => []
       end in
     ∃ dispatched detail,
       handleEvent env w refs (OpenCodeEvent.mk w (lit "session/update") (VObj pprops))
         = Returns (refs, dispatched) ∧
       head dispatched =
         Some (upsertItem sid
                 (Item.tool_item itemId (lit "acpToolCall") shown_title detail status
                    None None)) ∧
       (Z.of_nat (length detailRaw) ≤ 4000 → detail = detailRaw) ∧
       (4000 < Z.of_nat (length detailRaw) → detail = take 4000 detailRaw ++ [8230%N]) ∧
       ∀ st steps, steps.*2 = dispatched →
         ∃ it, item_at (run st steps) sid itemId = Some it ∧
           Item.kind it = Ktool ∧
           Item.title it = Some shown_title ∧
           Item.status it = Some status ∧
           Item.detail it = Some detail) ∧
  (∀ env w refs pprops uprops sid tcid s,
     String_or (own_prop pprops (lit "sessionId")) "" = Returns sid →
     nonempty sid = true →
     own_prop pprops (lit "update") = VObj uprops →
     String_or (own_prop uprops (lit "sessionUpdate")) "" = Returns (lit "tool_call_update") →
     String_or (own_prop uprops (lit "toolCallId")) "" = Returns tcid →
     nonempty tcid = true →
     own_prop uprops (lit "status") = VStr s →
     nonempty s = true →
     own_prop uprops (lit "content") = VUndefined →
     let itemId := lit "tool-" ++ sid ++ lit "-" ++ tcid in
     handleEvent env w refs (OpenCodeEvent.mk w (lit "session/update") (VObj pprops))
       = Returns (refs, [setToolStatus sid itemId s]) ∧
     ∀ now st it,
       item_at st sid itemId = Some it → Item.kind it = Ktool →
       ∃ it',
         item_at (sessionReducer now st (setToolStatus sid itemId s)) sid itemId = Some it' ∧
         Item.status it' = Some s ∧
         Item.id it' = Item.id it ∧ Item.kind it' = Item.kind it ∧
         Item.role it' = Item.role it ∧ Item.text it' = Item.text it ∧
         Item.summary it' = Item.summary it ∧ Item.content it' = Item.content it ∧
         Item.title it' = Item.title it ∧ Item.diff it' = Item.diff it ∧
         Item.state it' = Item.state it ∧ Item.toolType it' = Item.toolType it ∧
         Item.detail it' = Item.detail it ∧ Item.output it' = Item.output it ∧
         Item.changes it' = Item.changes it).
Proof.
  split.
  - intros env w refs pprops uprops sid tcid kind title status
      Hsid Hsid_ne Hupd Htype Htc Htc_ne Htitle Hkind Hstatus Hcontent
      itemId rawInput text shown_title detailRaw.
    destruct (tool_call_decoded env w refs pprops uprops sid tcid kind title status
                Hsid Hsid_ne Hupd Htype Htc Htc_ne Htitle Hkind Hstatus Hcontent)
      as (ds & Hdecoded & Hlast).
    fold rawInput text in Hdecoded.
    rewrite (detail_of_kind_and_input kind text (truthy rawInput)) in Hdecoded.
    fold detailRaw in Hdecoded.
    set (detail := truncate 4000 detailRaw) in *.
    exists (upsertItem sid
              (Item.tool_item (lit "tool-" ++ sid ++ lit "-" ++ tcid) (lit "acpToolCall")
                 shown_title detail status None None)
            :: (tool_action sid (lit "tool-" ++ sid ++ lit "-" ++ tcid) <$> ds)), detail.
    split; [exact Hdecoded|]. split; [done|].
    split; [apply truncate_cut|]. split; [apply (truncate_cut 4000)|].
    intros st [|[now a] steps] Hsteps; [discriminate Hsteps|].
    injection Hsteps as -> Hsteps.
    set (item := Item.tool_item _ _ _ _ _ _ _) in *.
    change (run st ((now, upsertItem sid item) :: steps))
      with (run (sessionReducer now st (upsertItem sid item)) steps).
    pose proof (item_at_upsertItem now st sid item) as Hup.
    change (Item.id item) with itemId in Hup.
    assert (∃ it0, item_at (sessionReducer now st (upsertItem sid item)) sid itemId = Some it0
              ∧ Item.kind it0 = Ktool ∧ Item.title it0 = Some shown_title
              ∧ Item.status it0 = Some status ∧ Item.detail it0 = Some detail)
      as (it0 & Hit0 & Hk0 & Ht0 & Hs0 & Hd0).
    { destruct (item_at st sid itemId) as [old|]; eexists; (split; [exact Hup|done]). }
    destruct (tool_trace_existing sid itemId _ ds _ it0
                (tool_trace_run sid itemId ds _ steps Hsteps) Hit0 Hk0)
      as (it & Hit & Hk & Hs & _ & _ & Ht & Hd).
    exists it. split; [done|]. split; [done|].
    rewrite Ht, Hd, Hs, Hs0. by split.
  - intros env w refs pprops uprops sid tcid s Hsid Hsid_ne Hupd Htype Htc Htc_ne
      Hstatus Hs Hcontent itemId. split.
    + by apply (tool_call_update_decoded env w refs pprops uprops sid tcid s).
    + intros now st it Hit Hkind.
      destruct (setToolStatus_patches_status now st sid itemId s it Hit Hkind)
        as (it' & Hit' & Hstatus' & Hsame).
      exists it'. split; [done|]. split; [done|].
      unfold same_but_status in Hsame. intuition congruence.
Qed.

Lemma tool_call_upserts_tool_item_witness :
  let env := Env.mk 0 [] (λ _, lit "{}") (λ _, None) in
  let w := lit "w1" in
  let event update :=
    OpenCodeEvent.mk w (lit "session/update")
      (VObj [ (lit "sessionId", VStr (lit "s1")); (lit "update", VObj update) ]) in
  let created :=
    [ (lit "sessionUpdate", VStr (lit "tool_call"));
      (lit "toolCallId", VStr (lit "7"));
      (lit "kind", VStr (lit "execute"));
      (lit "title", VStr (lit "run tests"));
      (lit "rawInput", VObj []) ] in
  let patched :=
    [ (lit "sessionUpdate", VStr (lit "tool_call_update"));
      (lit "toolCallId", VStr (lit "7"));
      (lit "status", VStr (lit "completed")) ] in
  (∃ dispatched,
     handleEvent env w Refs.empty (event created) = Returns (Refs.empty, dispatched) ∧
     ∀ st steps, steps.*2 = dispatched →
       ∃ it, item_at (run st steps) (lit "s1") (lit "tool-s1-7") = Some it ∧
         Item.kind it = Ktool ∧
         Item.title it = Some (lit "execute: run tests") ∧
         Item.status it = Some (lit "pending") ∧
         Item.detail it = Some (lit "execute" ++ [10%N] ++ lit "{}")) ∧
  handleEvent env w Refs.empty (event patched)
    = Returns (Refs.empty, [setToolStatus (lit "s1") (lit "tool-s1-7") (lit "completed")]).
Proof.
  intros env w event created patched. split.
  - destruct (proj1 tool_call_upserts_tool_item env w Refs.empty
                [ (lit "sessionId", VStr (lit "s1")); (lit "update", VObj created) ]
                created (lit "s1") (lit "7") (lit "execute") (lit "run tests") (lit "pending")
                eq_refl eq_refl eq_refl eq_refl eq_refl eq_refl eq_refl eq_refl eq_refl
                eq_refl)
      as (dispatched & detail & Hdecoded & _ & Hshort & _ & Hitem).
    assert (detail = lit "execute" ++ [10%N] ++ lit "{}") as ->
      by (apply Hshort; vm_compute; discriminate).
    exists dispatched. split; [exact Hdecoded|exact Hitem].
  - exact (proj1 (proj2 tool_call_upserts_tool_item env w Refs.empty
                    [ (lit "sessionId", VStr (lit "s1")); (lit "update", VObj patched) ]
                    patched (lit "s1") (lit "7") (lit "completed")
                    eq_refl eq_refl eq_refl eq_refl eq_refl eq_refl eq_refl eq_refl eq_refl)).
Defined.

(** ** Envelopes without a payload *)

Lemma get_present v k :
  v ≠ VUndefined → v ≠ VNull → ∃ r, get v k = Returns r.
Proof. destruct v; intros; try done; by eexists. Qed.

Lemma plan_entry_returns entry :
  plain entry = true → ∃ r, plan_entry entry = Returns r.
Proof. intros Hplain. unfold plan_entry. repeat decode_step; by eexists. Qed.

Lemma plan_steps_returns entries :
  forallb plain entries = true → ∃ r, plan_steps entries = Returns r.
Proof.
  induction entries as [|entry rest IH]; [by eexists|].
  cbn [forallb]. intros [Hentry Hrest]%andb_prop.
  destruct (IH Hrest) as [r Hr], (plan_entry_returns entry Hentry) as [s Hs].
  simpl. rewrite Hs, Hr. by eexists.
Qed.

Lemma tool_call_item_returns env itemId updateRecord :
  not_an_object updateRecord = false → plain updateRecord = true →
  ∃ item, tool_call_item env itemId updateRecord = Returns item.
Proof. intros H Hplain. unfold tool_call_item. repeat decode_step; by eexists. Qed.

(** Past the read of [params] itself, and on a plain payload, nothing
    in the [session/update] handler can throw: every nested fragment is
    checked before it is read. *)
Lemma on_session_update_returns env refs params :
  params ≠ VUndefined → params ≠ VNull → plain params = true →
  ∃ r, on_session_update env refs params = Returns r.
Proof.
  intros Hu Hn Hplain. unfold on_session_update.
  destruct params as [| |b|n|str|elems|props]; try done;
    try (by cbn [get mbind outcome_bind String_or nullish_or String_of]; eexists).
  cbn [get mbind outcome_bind].
  destruct (String_or_plain (own_prop props (lit "sessionId")) "") as [s ->];
    [by apply plain_own_prop|].
  cbn [mbind outcome_bind].
  destruct (negb _); [by eexists|].
  set (update := own_prop props (lit "update")).
  assert (plain update = true) as Hupdate_plain by (by apply plain_own_prop).
  destruct (not_an_object update) eqn:Hupdate; [by eexists|].
  rewrite (get_object _ "sessionUpdate" Hupdate). cbn [mbind outcome_bind].
  decode_step.
  destruct (bool_decide _).
  { repeat decode_step; by eexists. }
  destruct (_ || _).
  { rewrite (get_object _ "toolCallId" Hupdate). cbn [mbind outcome_bind].
    decode_step.
    destruct (negb _); [by eexists|].
    rewrite (get_object _ "status" Hupdate), (get_object _ "content" Hupdate).
    set (itemId := lit "tool-" ++ _).
    destruct (tool_call_item_returns env itemId update Hupdate Hupdate_plain) as [item ->].
    set (content := match update with VObj _ => _ | _ => VUndefined end).
    assert (plain content = true) as Hcontent by (by apply plain_field).
    assert (∃ streamed,
              match content with
              | VArr elems => tool_content s itemId elems
              | _ => mret []
              end = Returns streamed) as [streamed Hstreamed].
    { destruct content; try (by eexists).
      destruct (tool_content_deltas s itemId elems Hcontent) as (ds & -> & _).
      by eexists. }
    destruct (bool_decide _); cbn [mbind outcome_bind mret outcome_ret];
      rewrite Hstreamed; by eexists. }
  destruct (bool_decide _).
  { rewrite (get_object _ "entries" Hupdate). cbn [mbind outcome_bind].
    set (entries := match update with VObj _ => _ | _ => VUndefined end).
    assert (plain entries = true) as Hentries by (by apply plain_field).
    destruct entries; try (by eexists).
    destruct (plan_steps_returns elems Hentries) as [steps ->]. by eexists. }
  destruct (bool_decide _); [|by eexists].
  repeat decode_step; try (by eexists).
  all: destruct (Refs.activeReasoningItemId refs !! _) as [known|];
    [destruct (nonempty known)|]; by eexists.
Qed.

(** With a plain payload that is there, whatever its shape, the
    listener does not throw.  (On a payload that is not plain [String]
    can throw, in the [session/update] handler: an object with a
    [toString] of its own under one of the converted fields.) *)
Lemma handleEvent_throws_only_without_params env w refs event :
  OpenCodeEvent.params event ≠ VUndefined →
  OpenCodeEvent.params event ≠ VNull →
  plain (OpenCodeEvent.params event) = true →
  handleEvent env w refs event ≠ Throws.
Proof.
  destruct event as [ew method params]. simpl. intros Hu Hn Hplain.
  pose proof (λ k, get_present params k Hu Hn) as Hget.
  unfold handleEvent.
  cbn [OpenCodeEvent.workspaceId OpenCodeEvent.method OpenCodeEvent.params].
  destruct (negb _); [discriminate|].
  destruct (bool_decide (method = lit "session/created")).
  { destruct (Hget "id"%string) as [id_v ->], (Hget "title"%string) as [title_v ->].
    cbn [mbind outcome_bind]. unfold as_string_or.
    destruct id_v; cbn [as_string mbind outcome_bind]; try discriminate.
    destruct (truthy title_v); [destruct title_v|]; discriminate. }
  destruct (bool_decide (method = lit "session/updated")).
  { destruct (Hget "id"%string) as [id_v ->], (Hget "title"%string) as [title_v ->].
    cbn [mbind outcome_bind]. unfold as_string_or.
    destruct id_v; cbn [as_string mbind outcome_bind]; try discriminate.
    destruct (truthy title_v); [destruct title_v|]; discriminate. }
  destruct (bool_decide (method = lit "session/deleted")).
  { destruct (Hget "sessionId"%string) as [id_v ->]. destruct id_v; discriminate. }
  destruct (bool_decide (method = lit "session/update")).
  { destruct (on_session_update_returns env refs params Hu Hn Hplain) as [r ->].
    discriminate. }
  destruct (bool_decide (method = lit "content/updated")).
  { destruct (Hget "text"%string) as [text_v ->], (Hget "sessionId"%string) as [id_v Hid],
      (Hget "messageId"%string) as [mid_v Hmid].
    cbn [mbind outcome_bind]. destruct (truthy text_v); [|discriminate].
    rewrite Hid, Hmid. cbn [mbind outcome_bind]. unfold as_string_or.
    destruct id_v; cbn [as_string mbind outcome_bind]; try discriminate.
    destruct (truthy mid_v); [destruct mid_v|]; cbn [as_string mbind outcome_bind];
      try discriminate; destruct text_v; discriminate. }
  destruct (bool_decide (method = lit "turn/completed")); [|discriminate].
  destruct (Hget "sessionId"%string) as [id_v ->]. destruct id_v; discriminate.
Qed.

(** C4. The listener does not survive every payload: with [params]
    missing or [null] the first property read of the handler throws a
    [TypeError], in the [session/created] and [content/updated] handlers
    and in the four others alike, before anything is dispatched. *)
Theorem nullish_params_throw env w refs :
  Forall (λ method,
      handleEvent env w refs (OpenCodeEvent.mk w method VUndefined) = Throws ∧
      handleEvent env w refs (OpenCodeEvent.mk w method VNull) = Throws)
    [ lit "session/created"; lit "session/updated"; lit "session/deleted";
      lit "session/update"; lit "content/updated"; lit "turn/completed" ].
Proof.
  repeat constructor;
    unfold handleEvent;
    cbn [OpenCodeEvent.workspaceId OpenCodeEvent.method OpenCodeEvent.params];
    rewrite bool_decide_eq_true_2 by done; decide_lits; reflexivity.
Qed.

(** ** Item ids *)

Lemma find_has_id_None iid (l : list ConversationItem) :
  List.find (has_id iid) l = None → iid ∉ Item.id <$> l.
Proof.
  intros Hnone [x [-> Hin]]%list_elem_of_fmap.
  assert (has_id (Item.id x) x = false) as Hx
    by (apply (find_none _ _ Hnone); by apply list_elem_of_In).
  unfold has_id in Hx. by apply bool_decide_eq_false in Hx.
Qed.

Lemma NoDup_push_capped (l : list ConversationItem) newItem :
  NoDup (Item.id <$> l) → Item.id newItem ∉ Item.id <$> l →
  NoDup (Item.id <$> push_capped l newItem).
Proof.
  intros Hnd Hfresh. unfold push_capped.
  destruct (slice_from_suffix (- MAX_ITEMS_PER_SESSION + 1) l) as [dropped Hl].
  set (kept := slice_from _ l) in *.
  rewrite Hl, fmap_app in Hnd, Hfresh.
  apply NoDup_app in Hnd as (_ & _ & Hkept).
  rewrite fmap_app. apply NoDup_app. split; [done|]. split.
  - intros i Hi [->|[]%elem_of_nil]%elem_of_cons.
    apply Hfresh, elem_of_app. by right.
  - apply NoDup_singleton.
Qed.

Lemma ids_insert_same (l : list ConversationItem) idx x y :
  l !! idx = Some x → Item.id y = Item.id x →
  Item.id <$> <[idx := y]> l = Item.id <$> l.
Proof.
  intros Hx Hid. rewrite list_fmap_insert, Hid.
  apply list_insert_id. by rewrite list_lookup_fmap, Hx.
Qed.

Lemma unique_ids_put_items st sid v :
  unique_ids st → NoDup (Item.id <$> v) → unique_ids (put_items st sid v).
Proof.
  intros Hst Hv sid'. rewrite items_of_put_items. case_decide; [done|apply Hst].
Qed.

Lemma upsert_by_id_unique_ids st sid iid k newItem update :
  Item.id newItem = iid →
  (∀ x, Item.id (update x) = Item.id x) →
  unique_ids st → unique_ids (upsert_by_id st sid iid k newItem update).
Proof.
  intros Hnew Hupd Hst. unfold upsert_by_id.
  pose proof (find_findIndex (has_id iid) (items_of st sid)) as Hfind.
  destruct (findIndex _ _) as [idx|] eqn:Hidx; simpl in Hfind.
  - destruct (_ !! idx) as [x|] eqn:Hx; [|done].
    case_decide; [|done].
    apply unique_ids_put_items; [done|].
    erewrite ids_insert_same; [apply Hst|done|apply Hupd].
  - apply unique_ids_put_items; [done|].
    apply NoDup_push_capped; [apply Hst|].
    rewrite Hnew. by apply find_has_id_None.
Qed.

(** What does hold: every transition keeps the ids of each session
    distinct as long as [addUserMessage] mints an id the session does not
    hold yet and [setSessionItems] is given a list without repeated ids. *)
Lemma sessionReducer_unique_ids now st action :
  unique_ids st →
  match action with
  | addUserMessage _ sessionId _ =>
      item_at st sessionId (lit "user-" ++ String_int now) = None
  | setSessionItems _ items => NoDup (Item.id <$> items)
  | _ => True
  end →
  unique_ids (sessionReducer now st action).
Proof.
  intros Hst Hside.
  assert (∀ st', State.itemsBySession st' = State.itemsBySession st → unique_ids st')
    as Hsame by (intros st' Heq sid; unfold items_of; rewrite Heq; apply Hst).
  destruct action; simpl;
    try (by apply upsert_by_id_unique_ids);
    try (by apply Hsame).
  - (* ensureSession *)
    destruct (existsb _ _); [done|]. by apply Hsame.
  - (* clearWorkspaceSessions *)
    intros sid. unfold items_of. simpl. rewrite delete_sessions_lookup.
    case_decide; [apply NoDup_nil_2|apply Hst].
  - (* addUserMessage *)
    apply unique_ids_put_items; [done|].
    apply NoDup_push_capped; [apply Hst|]. by apply find_has_id_None.
  - (* upsertItem *)
    pose proof (find_findIndex (has_id (Item.id item)) (items_of st sessionId)) as Hfind.
    destruct (findIndex _ _) as [idx|] eqn:Hidx; simpl in Hfind.
    + destruct (findIndex_Some _ _ _ Hidx) as (x & Hx & Hid & _).
      rewrite Hx. apply unique_ids_put_items; [done|].
      erewrite ids_insert_same; [apply Hst|done|].
      unfold has_id in Hid. by apply bool_decide_eq_true in Hid.
    + apply unique_ids_put_items; [done|].
      apply NoDup_push_capped; [apply Hst|]. by apply find_has_id_None.
  - (* setSessionItems *)
    apply unique_ids_put_items; [done|].
    destruct (slice_from_suffix (- MAX_ITEMS_PER_SESSION) items) as [dropped Hl].
    rewrite Hl, fmap_app in Hside. by apply NoDup_app in Hside as (_ & _ & ?).
  - (* setSessionTitle *)
    destruct (findIndex _ _) as [idx|]; [|done].
    destruct (_ !! idx); [|done]. by apply Hsame.
Qed.

(** C7. The reducer does not keep item ids distinct.  Two
    [addUserMessage] transitions that read the same clock value leave two
    items with the same id; and [messagePartsToItems] gives every text
    part of a message the id [<messageId>-text], so a message with two
    text parts yields a list with a repeated id, which [setSessionItems]
    stores as it is. *)
Theorem item_ids_can_repeat :
  let w := lit "w1" in
  let s := lit "s1" in
  let twice :=
    run initialState
      [ (5, addUserMessage w s (lit "a")); (5, addUserMessage w s (lit "b")) ] in
  let parts : list (MessagePart unit) := [ part_text (lit "a"); part_text (lit "b") ] in
  let loaded :=
    run initialState
      [ (5, setSessionItems s (messagePartsToItems (λ _, []) (lit "m1") RoleAssistant parts)) ] in
  Item.id <$> items_of twice s = [ lit "user-5"; lit "user-5" ] ∧
  ¬ unique_ids twice ∧
  Item.id <$> items_of loaded s = [ lit "m1-text"; lit "m1-text" ] ∧
  ¬ unique_ids loaded.
Proof.
  intros w s twice parts loaded.
  assert (H1 : Item.id <$> items_of twice s = [ lit "user-5"; lit "user-5" ])
    by (vm_compute; reflexivity).
  assert (H2 : Item.id <$> items_of loaded s = [ lit "m1-text"; lit "m1-text" ])
    by (vm_compute; reflexivity).
  split; [exact H1|]. split; [|split; [exact H2|]].
  - intros Hu. specialize (Hu s). rewrite H1 in Hu.
    apply NoDup_cons in Hu as [Hu _]. apply Hu, list_elem_of_here.
  - intros Hu. specialize (Hu s). rewrite H2 in Hu.
    apply NoDup_cons in Hu as [Hu _]. apply Hu, list_elem_of_here.
Qed.

(** ** Stored baselines *)

Lemma baseline_object_well_formed b : well_formed_baseline (baseline_object b) = true.
Proof. reflexivity. Qed.

(** A missing entry, an empty one and one that does not parse all end
    in a fresh baseline, taken from the current snapshot and written to
    the store. *)
Lemma load_baseline_captures_fresh
    env kind workspaceId id localStorage latestItems latestPlan :
  nonempty workspaceId = true →
  nonempty id = true →
  match localStorage !! baselineKey kind workspaceId id with
  | None => True
  | Some raw => nonempty raw = false ∨ Env.JSON_parse env raw = None
  end →
  let baselineValue :=
    baseline_object
      (HandoffBaseline.mk (Env.now env) (snapshotActivity latestItems latestPlan)) in
  load_baseline env kind (Some workspaceId) (Some id) localStorage latestItems latestPlan
    = (baselineValue,
       <[baselineKey kind workspaceId id := Env.JSON_stringify env baselineValue]>
         localStorage).
Proof.
  intros Hw Hid Hstored. unfold load_baseline, first_truthy. rewrite Hw, Hid.
  destruct (localStorage !! _) as [raw|]; [|done].
  destruct (nonempty raw); [|done].
  destruct Hstored as [Hempty|Hparse]; [done|]. by rewrite Hparse.
Qed.

(** C8. The load effect adopts whatever [JSON.parse] accepts.  A stored
    entry that parses to the empty object is passed to [setBaseline] as
    it is, nothing is captured or written, although the entry is not a
    well-formed baseline; and the first read [buildSummary] makes of it,
    [baseline.activity.messageCount], throws. *)
Theorem parsed_entry_is_adopted_unchecked
    env kind workspaceId id localStorage latestItems latestPlan raw :
  nonempty workspaceId = true →
  nonempty id = true →
  localStorage !! baselineKey kind workspaceId id = Some raw →
  nonempty raw = true →
  Env.JSON_parse env raw = Some (VObj []) →
  load_baseline env kind (Some workspaceId) (Some id) localStorage latestItems latestPlan
    = (VObj [], localStorage) ∧
  well_formed_baseline (VObj []) = false ∧
  baseline_counters (VObj []) = Throws.
Proof.
  intros Hw Hid Hstored Hraw Hparse. split; [|done].
  unfold load_baseline, first_truthy. rewrite Hw, Hid, Hstored, Hraw, Hparse. done.
Qed.

Lemma parsed_entry_is_adopted_unchecked_witness :
  let env :=
    Env.mk 1700 [] (λ _, [])
      (λ raw, if bool_decide (raw = lit "{}") then Some (VObj []) else None) in
  let key := baselineKey session (lit "w1") (lit "s1") in
  let localStorage : gmap jsstring jsstring := {[ key := lit "{}" ]} in
  load_baseline env session (Some (lit "w1")) (Some (lit "s1")) localStorage [] None
    = (VObj [], localStorage) ∧
  well_formed_baseline (VObj []) = false ∧
  baseline_counters (VObj []) = Throws.
Proof.
  intros env key localStorage.
  apply (parsed_entry_is_adopted_unchecked env session (lit "w1") (lit "s1")
           localStorage [] None (lit "{}")); reflexivity.
Defined.

(** * Further properties of the reducer *)

Lemma item_at_findIndex st sid iid it :
  item_at st sid iid = Some it →
  ∃ idx, findIndex (has_id iid) (items_of st sid) = Some idx ∧
         items_of st sid !! idx = Some it.
Proof.
  unfold item_at. rewrite find_findIndex.
  destruct (findIndex _ _) as [idx|]; [|done]. simpl. by exists idx.
Qed.

Lemma item_at_None_findIndex st sid iid :
  item_at st sid iid = None → findIndex (has_id iid) (items_of st sid) = None.
Proof.
  unfold item_at. rewrite find_findIndex.
  destruct (findIndex _ _) as [idx|] eqn:Hidx; [|done]. simpl.
  destruct (findIndex_Some _ _ _ Hidx) as (x & -> & _). done.
Qed.

Lemma upsert_by_id_other_session st sid iid k newItem update sid' :
  sid ≠ sid' →
  State.itemsBySession (upsert_by_id st sid iid k newItem update) !! sid'
    = State.itemsBySession st !! sid'.
Proof.
  intros Hne. unfold upsert_by_id.
  destruct (findIndex _ _) as [idx|].
  - destruct (_ !! idx); [|done]. case_decide; [|done].
    simpl. by rewrite lookup_insert_ne.
  - simpl. by rewrite lookup_insert_ne.
Qed.

(** X1. An action rewrites the items of one session at most: the one it
    names.  [clearWorkspaceSessions] removes the sequences of the
    sessions listed for its workspace and no other. *)
Theorem other_sessions_items_untouched now st action sid' :
  match action with
  | clearWorkspaceSessions w => sid' ∉ session_ids st w
  | _ => writes_items_of action ≠ Some sid'
  end →
  State.itemsBySession (sessionReducer now st action) !! sid'
    = State.itemsBySession st !! sid'.
Proof.
  assert (∀ s : jsstring, Some s ≠ Some sid' → s ≠ sid') as Hne by (intros s H ->; done).
  destruct action; simpl; intros Hside; try done;
    try (by apply upsert_by_id_other_session, Hne);
    try (by rewrite lookup_insert_ne by (by apply Hne)).
  - destruct (existsb _ _); done.
  - rewrite delete_sessions_lookup. by rewrite decide_False.
  - destruct (findIndex _ _) as [idx|].
    + destruct (_ !! idx); [|done]. simpl. rewrite lookup_insert_ne; [done|by apply Hne].
    + simpl. rewrite lookup_insert_ne; [done|by apply Hne].
  - destruct (findIndex _ _) as [idx|]; [|done]. by destruct (_ !! idx).
Qed.

Lemma other_sessions_items_untouched_witness :
  let st := run initialState [ (1, addUserMessage (lit "w") (lit "s1") (lit "hi")) ] in
  State.itemsBySession
    (sessionReducer 2 st (appendAssistantDelta (lit "s2") (lit "a1") (lit "x"))) !! lit "s1"
  = State.itemsBySession st !! lit "s1".
Proof.
  intros st.
  apply (other_sessions_items_untouched 2 st
           (appendAssistantDelta (lit "s2") (lit "a1") (lit "x")) (lit "s1")).
  vm_compute. discriminate.
Defined.

Lemma upsert_by_id_wrong_kind st sid iid k newItem update it :
  item_at st sid iid = Some it → Item.kind it ≠ k →
  upsert_by_id st sid iid k newItem update = st.
Proof.
  intros Hit Hkind. destruct (item_at_findIndex _ _ _ _ Hit) as (idx & Hidx & Hlookup).
  unfold upsert_by_id. rewrite Hidx, Hlookup. by rewrite decide_False.
Qed.

(** X2. A delta addressed to an id that an item of another kind holds
    changes nothing: the reducer returns the state it was given. *)
Theorem delta_for_another_kind_is_dropped now st action sid iid k it :
  target now action = Some (sid, iid) →
  expected_kind action = Some k →
  item_at st sid iid = Some it →
  Item.kind it ≠ k →
  sessionReducer now st action = st.
Proof.
  destruct action; simpl; try done; intros [= -> ->] [= <-] Hit Hkind;
    by eapply upsert_by_id_wrong_kind.
Qed.

Lemma delta_for_another_kind_is_dropped_witness :
  let st := run initialState [ (1, addUserMessage (lit "w") (lit "s1") (lit "hi")) ] in
  sessionReducer 2 st (appendToolOutput (lit "s1") (lit "user-1") (lit "out")) = st.
Proof.
  intros st.
  apply (delta_for_another_kind_is_dropped 2 st
           (appendToolOutput (lit "s1") (lit "user-1") (lit "out"))
           (lit "s1") (lit "user-1") Ktool
           (Item.message_item (lit "user-1") RoleUser (lit "hi")));
    [reflexivity|reflexivity|reflexivity|discriminate].
Defined.

(** ** Streaming text *)

Lemma assistant_step now st sid iid delta :
  item_at (sessionReducer now st (appendAssistantDelta sid iid delta)) sid iid =
    match item_at st sid iid with
    | None => Some (Item.message_item iid RoleAssistant delta)
    | Some it =>
        if decide (Item.kind it = Kmessage)
        then Some (Item.with_text it (plus_str (Item.text it) delta))
        else Some it
    end.
Proof. simpl. by rewrite item_at_upsert_by_id. Qed.

Lemma reasoning_step now st sid iid delta :
  item_at (sessionReducer now st (appendReasoningDelta sid iid delta)) sid iid =
    match item_at st sid iid with
    | None => Some (Item.reasoning_item iid (lit "Thinking") delta)
    | Some it =>
        if decide (Item.kind it = Kreasoning)
        then Some (Item.with_content it (default [] (Item.content it) ++ delta))
        else Some it
    end.
Proof. simpl. by rewrite item_at_upsert_by_id. Qed.

Lemma assistant_deltas_existing sid iid deltas st steps it t :
  steps.*2 = appendAssistantDelta sid iid <$> deltas →
  item_at st sid iid = Some it → Item.kind it = Kmessage → Item.text it = Some t →
  ∃ it', item_at (run st steps) sid iid = Some it' ∧ Item.kind it' = Kmessage ∧
    Item.role it' = Item.role it ∧ Item.text it' = Some (t ++ concat deltas).
Proof.
  revert st steps it t.
  induction deltas as [|d deltas IH]; intros st [|[now a] steps] it t Hsteps Hit Hk Ht;
    try discriminate Hsteps.
  - exists it. simpl. by rewrite app_nil_r.
  - injection Hsteps as -> Hsteps.
    change (run st ((now, appendAssistantDelta sid iid d) :: steps))
      with (run (sessionReducer now st (appendAssistantDelta sid iid d)) steps).
    pose proof (assistant_step now st sid iid d) as Hstep.
    rewrite Hit, decide_True, Ht in Hstep by done.
    destruct (IH _ _ _ (t ++ d) Hsteps Hstep) as (it' & Hit' & Hk' & Hr' & Ht'); [done..|].
    exists it'. simpl. rewrite Ht', <- app_assoc. done.
Qed.

(** X3. The text of a message only grows: after any number of
    [appendAssistantDelta] against one id, the item under the id is a
    message whose text is the text it had followed by the deltas in
    dispatch order; a missing item starts as an assistant message with
    empty text. *)
Theorem assistant_deltas_accumulate sid iid st deltas steps :
  (∀ it, item_at st sid iid = Some it →
     Item.kind it = Kmessage ∧ is_Some (Item.text it)) →
  deltas ≠ [] →
  steps.*2 = appendAssistantDelta sid iid <$> deltas →
  let before := item_at st sid iid in
  ∃ it', item_at (run st steps) sid iid = Some it' ∧
    Item.kind it' = Kmessage ∧
    Item.role it' = from_option Item.role (Some RoleAssistant) before ∧
    Item.text it' = Some (default [] (before ≫= Item.text) ++ concat deltas).
Proof.
  intros Hbefore Hne Hsteps before. subst before.
  destruct (item_at st sid iid) as [it|] eqn:Hit.
  - destruct (Hbefore it eq_refl) as [Hk [t Ht]].
    destruct (assistant_deltas_existing sid iid deltas st steps it t Hsteps Hit Hk Ht)
      as (it' & ? & ? & ? & ?).
    exists it'. simpl. by rewrite Ht.
  - destruct deltas as [|d deltas]; [done|].
    destruct steps as [|[now a] steps]; [discriminate Hsteps|].
    injection Hsteps as -> Hsteps.
    change (run st ((now, appendAssistantDelta sid iid d) :: steps))
      with (run (sessionReducer now st (appendAssistantDelta sid iid d)) steps).
    pose proof (assistant_step now st sid iid d) as Hstep. rewrite Hit in Hstep.
    destruct (assistant_deltas_existing sid iid deltas _ steps _ d Hsteps Hstep)
      as (it' & ? & ? & ? & ?); [done..|].
    by exists it'.
Qed.

Lemma assistant_deltas_accumulate_witness :
  let sid := lit "s1" in
  let iid := lit "assistant-s1" in
  ∃ it', item_at
           (run initialState
              [ (1, appendAssistantDelta sid iid (lit "Hel"));
                (2, appendAssistantDelta sid iid (lit "lo")) ]) sid iid = Some it' ∧
    Item.kind it' = Kmessage ∧
    Item.role it' = Some RoleAssistant ∧
    Item.text it' = Some (lit "Hello").
Proof.
  intros sid iid.
  apply (assistant_deltas_accumulate sid iid initialState [lit "Hel"; lit "lo"]
           [ (1, appendAssistantDelta sid iid (lit "Hel"));
             (2, appendAssistantDelta sid iid (lit "lo")) ]).
  - intros it. vm_compute. discriminate.
  - discriminate.
  - reflexivity.
Defined.

Lemma reasoning_deltas_existing sid iid deltas st steps it :
  steps.*2 = appendReasoningDelta sid iid <$> deltas →
  item_at st sid iid = Some it → Item.kind it = Kreasoning →
  ∃ it', item_at (run st steps) sid iid = Some it' ∧ Item.kind it' = Kreasoning ∧
    Item.summary it' = Item.summary it ∧
    default [] (Item.content it') = default [] (Item.content it) ++ concat deltas.
Proof.
  revert st steps it.
  induction deltas as [|d deltas IH]; intros st [|[now a] steps] it Hsteps Hit Hk;
    try discriminate Hsteps.
  - exists it. simpl. by rewrite app_nil_r.
  - injection Hsteps as -> Hsteps.
    change (run st ((now, appendReasoningDelta sid iid d) :: steps))
      with (run (sessionReducer now st (appendReasoningDelta sid iid d)) steps).
    pose proof (reasoning_step now st sid iid d) as Hstep.
    rewrite Hit, decide_True in Hstep by done.
    destruct (IH _ _ _ Hsteps Hstep) as (it' & Hit' & Hk' & Hs' & Hc'); [done|].
    exists it'. simpl. rewrite Hc', Hs'. simpl. by rewrite <- app_assoc.
Qed.

(** X4. Reasoning content only grows: [appendReasoningDelta] against
    one id leaves a reasoning item whose content is what it was followed
    by the deltas in dispatch order; a missing item is created with the
    summary "Thinking", and an existing one keeps its summary. *)
Theorem reasoning_deltas_accumulate sid iid st deltas steps :
  (∀ it, item_at st sid iid = Some it → Item.kind it = Kreasoning) →
  deltas ≠ [] →
  steps.*2 = appendReasoningDelta sid iid <$> deltas →
  let before := item_at st sid iid in
  ∃ it', item_at (run st steps) sid iid = Some it' ∧
    Item.kind it' = Kreasoning ∧
    Item.summary it' = from_option Item.summary (Some (lit "Thinking")) before ∧
    default [] (Item.content it') =
      default [] (before ≫= Item.content) ++ concat deltas.
Proof.
  intros Hbefore Hne Hsteps before. subst before.
  destruct (item_at st sid iid) as [it|] eqn:Hit.
  - destruct (reasoning_deltas_existing sid iid deltas st steps it Hsteps Hit
                (Hbefore it eq_refl)) as (it' & ? & ? & ? & ?).
    by exists it'.
  - destruct deltas as [|d deltas]; [done|].
    destruct steps as [|[now a] steps]; [discriminate Hsteps|].
    injection Hsteps as -> Hsteps.
    change (run st ((now, appendReasoningDelta sid iid d) :: steps))
      with (run (sessionReducer now st (appendReasoningDelta sid iid d)) steps).
    pose proof (reasoning_step now st sid iid d) as Hstep. rewrite Hit in Hstep.
    destruct (reasoning_deltas_existing sid iid deltas _ steps _ Hsteps Hstep)
      as (it' & ? & ? & ? & ?); [done|].
    by exists it'.
Qed.

Lemma reasoning_deltas_accumulate_witness :
  let sid := lit "s1" in
  let iid := lit "reasoning-1-abc" in
  ∃ it', item_at
           (run initialState
              [ (1, appendReasoningDelta sid iid (lit "a"));
                (2, appendReasoningDelta sid iid (lit "b")) ]) sid iid = Some it' ∧
    Item.kind it' = Kreasoning ∧
    Item.summary it' = Some (lit "Thinking") ∧
    default [] (Item.content it') = lit "ab".
Proof.
  intros sid iid.
  apply (reasoning_deltas_accumulate sid iid initialState [lit "a"; lit "b"]
           [ (1, appendReasoningDelta sid iid (lit "a"));
             (2, appendReasoningDelta sid iid (lit "b")) ]).
  - intros it. vm_compute. discriminate.
  - discriminate.
  - reflexivity.
Defined.

(** ** Repeated actions *)

Lemma findIndex_insert_same {A} (p : A → bool) (l : list A) (i : nat) (y : A) :
  findIndex p l = Some i → p y = true → findIndex p (<[i := y]> l) = Some i.
Proof.
  revert i. induction l as [|a l IH]; intros i; simpl; [done|].
  destruct (p a) eqn:Hpa.
  - intros [= <-] Hy. simpl. by rewrite Hy.
  - destruct (findIndex p l) as [j|]; simpl; [|done].
    intros [= <-] Hy. simpl. rewrite Hpa. by rewrite (IH j).
Qed.

Lemma findIndex_snoc_fresh {A} (p : A → bool) (l : list A) (x : A) :
  findIndex p l = None → p x = true → findIndex p (l ++ [x]) = Some (length l).
Proof.
  induction l as [|a l IH]; simpl; intros Hnone Hx.
  - by rewrite Hx.
  - destruct (p a); [done|].
    destruct (findIndex p l); [done|]. by rewrite IH.
Qed.

Lemma findIndex_None_slice {A} (p : A → bool) (start : Z) (l : list A) :
  findIndex p l = None → findIndex p (slice_from start l) = None.
Proof.
  intros Hnone. apply findIndex_None in Hnone.
  destruct (findIndex p (slice_from start l)) as [i|] eqn:Hi; [|done].
  destruct (findIndex_Some _ _ _ Hi) as (x & Hx & Hpx & _).
  rewrite Forall_forall in Hnone.
  assert (p x = false); [|congruence].
  apply Hnone, (slice_from_subseteq start). by eapply list_elem_of_lookup_2.
Qed.

Lemma put_items_twice st sid a b :
  put_items (put_items st sid a) sid b = put_items st sid b.
Proof. unfold put_items, State.with_items. simpl. by rewrite insert_insert_eq. Qed.

Lemma spread_absorbs a b : Item.spread (Item.spread a b) b = Item.spread a b.
Proof.
  destruct a, b. unfold Item.spread. simpl.
  f_equal; by match goal with |- context [match ?y with _ => _ end] => destruct y end.
Qed.

Lemma spread_self b : Item.spread b b = b.
Proof.
  destruct b. unfold Item.spread. simpl.
  f_equal; by match goal with |- context [match ?y with _ => _ end] => destruct y end.
Qed.

Lemma slice_from_within_cap {A} (k : Z) (l : list A) :
  Z.of_nat (length l) ≤ k → slice_from (- k) l = l.
Proof.
  intros Hlen. unfold slice_from.
  destruct (- k <? 0) eqn:Hneg.
  - replace (Z.to_nat (Z.max (Z.of_nat (length l) + - k) 0)) with 0%nat by lia. done.
  - apply Z.ltb_ge in Hneg.
    replace (Z.to_nat (Z.min (- k) (Z.of_nat (length l)))) with 0%nat by lia. done.
Qed.

Lemma upsert_by_id_twice st sid iid k newItem update :
  Item.id newItem = iid → Item.kind newItem = k →
  (∀ x, Item.id (update x) = Item.id x) →
  (∀ x, Item.kind (update x) = Item.kind x) →
  (∀ x, update (update x) = update x) →
  update newItem = newItem →
  upsert_by_id (upsert_by_id st sid iid k newItem update) sid iid k newItem update
    = upsert_by_id st sid iid k newItem update.
Proof.
  intros Hid Hkind Hupd_id Hupd_kind Hupd_twice Hupd_new.
  assert (has_id iid newItem = true) as Hnew by (by apply bool_decide_eq_true).
  unfold upsert_by_id at 2 3.
  destruct (findIndex _ _) as [idx|] eqn:Hidx.
  - destruct (findIndex_Some _ _ _ Hidx) as (x & Hx & Hpx & _). rewrite Hx.
    case_decide as Hk.
    + unfold upsert_by_id. rewrite items_of_put_items, decide_True by done.
      rewrite (findIndex_insert_same _ _ idx) by
        (done || (unfold has_id in *; apply bool_decide_eq_true; rewrite Hupd_id;
                  by apply bool_decide_eq_true in Hpx)).
      rewrite list_lookup_insert_eq by (by eapply lookup_lt_Some).
      rewrite decide_True by (by rewrite Hupd_kind).
      by rewrite Hupd_twice, list_insert_insert_eq, put_items_twice.
    + unfold upsert_by_id. by rewrite Hidx, Hx, decide_False.
  - unfold upsert_by_id. rewrite items_of_put_items, decide_True by done.
    unfold push_capped.
    rewrite (findIndex_snoc_fresh _ _ _ (findIndex_None_slice _ _ _ Hidx) Hnew).
    rewrite list_lookup_middle by done.
    rewrite decide_True by done.
    rewrite Hupd_new, put_items_twice. f_equal.
    apply list_insert_id. by apply list_lookup_middle.
Qed.

Lemma sessions_of_with_sessions st w v :
  sessions_of (State.with_sessions st (<[w := v]> (State.sessionsByWorkspace st))) w = v.
Proof. unfold sessions_of. simpl. by rewrite lookup_insert_eq. Qed.

Lemma sessions_of_cleared a b c d e f w :
  sessions_of (State.mk a b (<[w := []]> c) d e f) w = [].
Proof. unfold sessions_of. simpl. by rewrite lookup_insert_eq. Qed.

Lemma filter_twice {A} (p : A → bool) (l : list A) :
  List.filter p (List.filter p l) = List.filter p l.
Proof.
  induction l as [|a l IH]; [done|]. simpl.
  destruct (p a) eqn:Hpa; [|done]. simpl. by rewrite Hpa, IH.
Qed.

(** X5. Every action that sets a value, as opposed to those that add a
    message or append a delta, can be delivered twice without harm: applied
    a second time it leaves the state as the first application left it. *)
Theorem repeated_action_is_absorbed now st action :
  sets_a_value action = true →
  sessionReducer now (sessionReducer now st action) action = sessionReducer now st action.
Proof.
  destruct action; simpl; try discriminate; intros _.
  - (* setActiveSessionId *)
    unfold State.with_active. simpl. by rewrite insert_insert_eq.
  - (* ensureSession *)
    destruct (existsb _ (sessions_of st workspaceId)) eqn:Hlisted.
    + by rewrite Hlisted.
    + rewrite sessions_of_with_sessions, existsb_app. simpl.
      by rewrite bool_decide_eq_true_2, orb_true_r.
  - (* removeSession *)
    rewrite sessions_of_with_sessions, filter_twice.
    unfold State.with_sessions. simpl. by rewrite insert_insert_eq.
  - (* clearWorkspaceSessions *)
    rewrite !sessions_of_cleared. simpl. by rewrite !insert_insert_eq.
  - (* markProcessing *)
    unfold State.with_status. simpl.
    by rewrite lookup_insert_eq, insert_insert_eq.
  - (* markUnread *)
    unfold State.with_status. simpl.
    by rewrite lookup_insert_eq, insert_insert_eq.
  - (* setToolStatus *)
    apply upsert_by_id_twice; done.
  - (* upsertItem *)
    destruct (findIndex _ (items_of st sessionId)) as [idx|] eqn:Hidx.
    + destruct (findIndex_Some _ _ _ Hidx) as (x & Hx & Hpx & _). rewrite Hx.
      rewrite items_of_put_items, decide_True by done.
      rewrite (findIndex_insert_same _ _ idx) by
        (done || (unfold has_id; by apply bool_decide_eq_true)).
      rewrite list_lookup_insert_eq by (by eapply lookup_lt_Some).
      by rewrite spread_absorbs, list_insert_insert_eq, put_items_twice.
    + rewrite items_of_put_items, decide_True by done.
      unfold push_capped.
      rewrite (findIndex_snoc_fresh _ _ _ (findIndex_None_slice _ _ _ Hidx))
        by (unfold has_id; by apply bool_decide_eq_true).
      rewrite list_lookup_middle by done.
      rewrite spread_self, put_items_twice. f_equal.
      apply list_insert_id. by apply list_lookup_middle.
  - (* setSessionItems *)
    by rewrite put_items_twice.
  - (* setSessions *)
    unfold State.with_sessions. simpl. by rewrite insert_insert_eq.
  - (* setSessionListLoading *)
    unfold State.with_loading. simpl. by rewrite insert_insert_eq.
  - (* setSessionPlan *)
    unfold State.with_plan. simpl. by rewrite insert_insert_eq.
  - (* setSessionTitle *)
    destruct (findIndex _ (sessions_of st workspaceId)) as [idx|] eqn:Hidx.
    + destruct (findIndex_Some _ _ _ Hidx) as (x & Hx & Hpx & _). rewrite Hx.
      rewrite sessions_of_with_sessions.
      rewrite (findIndex_insert_same _ _ idx) by
        (done || (simpl; by apply bool_decide_eq_true in Hpx)).
      rewrite list_lookup_insert_eq by (by eapply lookup_lt_Some).
      simpl. unfold State.with_sessions. simpl.
      by rewrite list_insert_insert_eq, insert_insert_eq.
    + by rewrite Hidx.
Qed.

Lemma repeated_action_is_absorbed_witness :
  let st := run initialState [ (1, addUserMessage (lit "w") (lit "s1") (lit "hi")) ] in
  let action :=
    upsertItem (lit "s1")
      (Item.tool_item (lit "tool-s1-7") (lit "acpToolCall") (lit "run") [] (lit "pending")
         None None) in
  sessionReducer 2 (sessionReducer 2 st action) action = sessionReducer 2 st action.
Proof.
  intros st action. by apply (repeated_action_is_absorbed 2 st action).
Defined.

(** ** Status flags *)

(** X6. The two flags of a session are set independently: setting
    [isProcessing] keeps [hasUnread] and the other way round, so the two
    actions, on the same or on different sessions, give the same state in
    either order; on one session both flags end as they were set. *)
Theorem status_flags_are_independent now now' st sid sid' p u :
  sessionReducer now' (sessionReducer now st (markProcessing sid p)) (markUnread sid' u)
    = sessionReducer now (sessionReducer now' st (markUnread sid' u)) (markProcessing sid p) ∧
  State.sessionStatusById
    (sessionReducer now' (sessionReducer now st (markProcessing sid p)) (markUnread sid u))
    !! sid = Some (Status.mk (Some p) (Some u)).
Proof.
  split.
  - simpl. unfold State.with_status. simpl. f_equal.
    destruct (decide (sid = sid')) as [<-|Hne].
    + by rewrite !lookup_insert_eq, !insert_insert_eq.
    + rewrite !lookup_insert_ne by done. by apply insert_insert_ne.
  - simpl. by rewrite !lookup_insert_eq.
Qed.

(** ** The session list *)

Lemma existsb_listed (l : list SessionSummary.t) sid :
  existsb (λ s, bool_decide (SessionSummary.id s = sid)) l = true ↔
  sid ∈ SessionSummary.id <$> l.
Proof.
  rewrite existsb_exists. split.
  - intros (s & Hin & Hid). apply bool_decide_eq_true in Hid as <-.
    apply list_elem_of_fmap_2. by apply list_elem_of_In.
  - intros (s & -> & Hin)%list_elem_of_fmap. exists s. split.
    + by apply list_elem_of_In.
    + by apply bool_decide_eq_true.
Qed.

Lemma ensureSession_again_is_noop now st w sid title :
  sid ∈ session_ids st w → sessionReducer now st (ensureSession w sid title) = st.
Proof.
  intros Hin. simpl. unfold session_ids in Hin.
  apply existsb_listed in Hin. by rewrite Hin.
Qed.

Lemma ensureSession_lists now st w sid title :
  sid ∈ session_ids (sessionReducer now st (ensureSession w sid title)) w.
Proof.
  simpl. unfold session_ids.
  destruct (existsb _ _) eqn:Hlisted.
  - by apply existsb_listed in Hlisted.
  - rewrite sessions_of_with_sessions, fmap_app.
    apply elem_of_app. right. apply list_elem_of_here.
Qed.

(** X7. [ensureSession] lists a session once.  Afterwards the id is in
    the workspace's list; when it was there already the state is
    returned as it is, the stored title included; and a list without
    repeated ids stays without. *)
Theorem ensureSession_lists_once now st w sid title :
  let after := sessionReducer now st (ensureSession w sid title) in
  sid ∈ session_ids after w ∧
  (sid ∈ session_ids st w → after = st) ∧
  (sid ∉ session_ids st w →
     sessions_of after w =
       sessions_of st w ++ [SessionSummary.mk sid (or_default title (lit "New Session"))]) ∧
  (NoDup (session_ids st w) → NoDup (session_ids after w)).
Proof.
  simpl. unfold session_ids.
  destruct (existsb _ _) eqn:Hlisted.
  - apply existsb_listed in Hlisted. by repeat split.
  - assert (sid ∉ SessionSummary.id <$> sessions_of st w) as Hnot.
    { intros Hin. apply existsb_listed in Hin. congruence. }
    rewrite sessions_of_with_sessions, fmap_app. simpl.
    split; [|split; [done|split; [done|]]].
    + apply elem_of_app. right. apply list_elem_of_here.
    + intros Hnd. apply NoDup_app. split; [done|]. split; [|apply NoDup_singleton].
      by intros x Hx ->%list_elem_of_singleton.
Qed.

Lemma ensureSession_lists_once_witness :
  let st := run initialState [ (1, ensureSession (lit "w") (lit "s1") (Some (lit "First"))) ] in
  sessionReducer 2 st (ensureSession (lit "w") (lit "s1") (Some (lit "Second"))) = st.
Proof.
  intros st.
  apply (ensureSession_lists_once 2 st (lit "w") (lit "s1") (Some (lit "Second"))).
  vm_compute. apply list_elem_of_here.
Defined.

Lemma filter_ids (l : list SessionSummary.t) sid :
  SessionSummary.id <$> List.filter (λ s, negb (bool_decide (SessionSummary.id s = sid))) l
    = List.filter (λ i, negb (bool_decide (i = sid))) (SessionSummary.id <$> l).
Proof.
  induction l as [|s l IH]; [done|].
  rewrite fmap_cons. cbn [List.filter].
  destruct (bool_decide (SessionSummary.id s = sid)); cbn [negb];
    rewrite ?fmap_cons; by rewrite IH.
Qed.

(** X8. [removeSession] takes the session off its workspace's list and
    does nothing else: the other sessions stay, in order, while the
    items, the status and the plan stored under the removed id, and the
    workspace's active-session pointer, are all left as they were. *)
Theorem removeSession_only_unlists now st w sid :
  let after := sessionReducer now st (removeSession w sid) in
  (sid ∉ session_ids after w) ∧
  session_ids after w = List.filter (λ i, negb (bool_decide (i = sid))) (session_ids st w) ∧
  State.itemsBySession after = State.itemsBySession st ∧
  State.sessionStatusById after = State.sessionStatusById st ∧
  State.planBySession after = State.planBySession st ∧
  State.activeSessionIdByWorkspace after = State.activeSessionIdByWorkspace st.
Proof.
  simpl. unfold session_ids. rewrite sessions_of_with_sessions, filter_ids.
  split; [|done].
  intros [_ Hp]%list_elem_of_In%filter_In.
  by rewrite bool_decide_eq_true_2 in Hp.
Qed.

(** X9. [setSessionTitle] renames and nothing more: the ids listed for
    the workspace are the same before and after; for an id that is not
    listed the state is returned as it is; for a listed id a session with
    that id and the new title is in the list. *)
Theorem setSessionTitle_only_renames now st w sid title :
  let after := sessionReducer now st (setSessionTitle w sid title) in
  session_ids after w = session_ids st w ∧
  (sid ∉ session_ids st w → after = st) ∧
  (sid ∈ session_ids st w → SessionSummary.mk sid title ∈ sessions_of after w).
Proof.
  simpl. unfold session_ids.
  destruct (findIndex _ _) as [idx|] eqn:Hidx.
  - destruct (findIndex_Some _ _ _ Hidx) as (x & Hx & Hpx & _). rewrite Hx.
    apply bool_decide_eq_true in Hpx.
    rewrite sessions_of_with_sessions. split; [|split].
    + rewrite list_fmap_insert. simpl.
      apply list_insert_id. by rewrite list_lookup_fmap, Hx.
    + intros Hnot. exfalso. apply Hnot, list_elem_of_fmap.
      exists x. split; [done|]. by eapply list_elem_of_lookup_2.
    + intros _. rewrite Hpx. apply list_elem_of_lookup. exists idx.
      apply list_lookup_insert_eq. by eapply lookup_lt_Some.
  - split; [done|]. split; [done|].
    intros (s & -> & Hin)%list_elem_of_fmap. exfalso.
    apply findIndex_None in Hidx. rewrite Forall_forall in Hidx.
    specialize (Hidx s Hin). by rewrite bool_decide_eq_true_2 in Hidx.
Qed.

Lemma setSessionTitle_only_renames_witness :
  let st := run initialState [ (1, ensureSession (lit "w") (lit "s1") (Some (lit "First"))) ] in
  SessionSummary.mk (lit "s1") (lit "Renamed")
    ∈ sessions_of (sessionReducer 2 st (setSessionTitle (lit "w") (lit "s1") (lit "Renamed")))
        (lit "w").
Proof.
  intros st.
  apply (setSessionTitle_only_renames 2 st (lit "w") (lit "s1") (lit "Renamed")).
  vm_compute. apply list_elem_of_here.
Defined.

(** ** Appending and merging *)

Lemma slice_from_drop {A} (k : Z) (l : list A) :
  0 < k → slice_from (- k) l = drop (length l - Z.to_nat k) l.
Proof.
  intros Hk. unfold slice_from.
  replace (- k <? 0) with true by (symmetry; apply Z.ltb_lt; lia).
  f_equal. lia.
Qed.

Lemma push_capped_drop items newItem :
  push_capped items newItem = drop (length items - 399) items ++ [newItem].
Proof.
  unfold push_capped, MAX_ITEMS_PER_SESSION.
  change (Z.opp 400 + 1) with (Z.opp 399).
  by rewrite slice_from_drop.
Qed.

(** X10. An action that appends an item (an [addUserMessage], or an
    item-addressing action whose id the session does not hold) never
    reorders the session: the items are those there were, less the oldest
    ones in excess of 399, followed by the new item. *)
Theorem append_drops_only_the_oldest now st action sid iid :
  target now action = Some (sid, iid) →
  item_at st sid iid = None ∨ (∃ w text, action = addUserMessage w sid text) →
  let items := items_of st sid in
  ∃ it, Item.id it = iid ∧
    items_of (sessionReducer now st action) sid
      = drop (length items - 399) items ++ [it].
Proof.
  intros Htarget Hfresh items. subst items.
  assert (∀ k newItem update,
            item_at st sid iid = None → Item.id newItem = iid →
            ∃ it, Item.id it = iid ∧
              items_of (upsert_by_id st sid iid k newItem update) sid
                = drop (length (items_of st sid) - 399) (items_of st sid) ++ [it]) as Hupsert.
  { intros k newItem update Hnone Hid. exists newItem. split; [done|].
    unfold upsert_by_id. rewrite (item_at_None_findIndex _ _ _ Hnone).
    by rewrite items_of_put_items, decide_True, push_capped_drop. }
  destruct action; cbn [target] in Htarget; try done;
    (assert (sessionId = sid) as -> by congruence).
  - assert (lit "user-" ++ String_int now = iid) as <- by congruence.
    exists (Item.message_item (lit "user-" ++ String_int now) RoleUser text).
    split; [done|]. simpl.
    by rewrite items_of_put_items, decide_True, push_capped_drop.
  - assert (itemId = iid) as -> by congruence. destruct Hfresh as [Hnone|(? & ? & [=])]. by apply Hupsert.
  - assert (itemId = iid) as -> by congruence.
    destruct Hfresh as [Hnone|(? & ? & [=])]. by apply Hupsert.
  - assert (itemId = iid) as -> by congruence.
    destruct Hfresh as [Hnone|(? & ? & [=])]. by apply Hupsert.
  - assert (itemId = iid) as -> by congruence.
    destruct Hfresh as [Hnone|(? & ? & [=])]. by apply Hupsert.
  - assert (itemId = iid) as -> by congruence.
    destruct Hfresh as [Hnone|(? & ? & [=])]. by apply Hupsert.
  - assert (Item.id item = iid) as <- by congruence.
    destruct Hfresh as [Hnone|(? & ? & [=])]. exists item. split; [done|].
    simpl. rewrite (item_at_None_findIndex _ _ _ Hnone).
    by rewrite items_of_put_items, decide_True, push_capped_drop.
Qed.

Lemma append_drops_only_the_oldest_witness :
  let st := run initialState [ (1, addUserMessage (lit "w") (lit "s1") (lit "hi")) ] in
  ∃ it, Item.id it = lit "a1" ∧
    items_of (sessionReducer 2 st (appendAssistantDelta (lit "s1") (lit "a1") (lit "x")))
      (lit "s1")
    = drop (length (items_of st (lit "s1")) - 399) (items_of st (lit "s1")) ++ [it].
Proof.
  intros st.
  apply (append_drops_only_the_oldest 2 st
           (appendAssistantDelta (lit "s1") (lit "a1") (lit "x")) (lit "s1") (lit "a1")).
  - reflexivity.
  - left. reflexivity.
Defined.

(** X11. [upsertItem] on an id the session holds rewrites the item where
    it stands: the sequence of ids is unchanged, the item takes the kind
    and every property the new item carries, and keeps the properties the
    new item does not carry; so a tool item upserted again without
    [output] and [changes] keeps the output and the changes it had
    gathered. *)
Theorem upsertItem_merges_in_place now st sid item old :
  item_at st sid (Item.id item) = Some old →
  let after := sessionReducer now st (upsertItem sid item) in
  Item.id <$> items_of after sid = Item.id <$> items_of st sid ∧
  ∃ it, item_at after sid (Item.id item) = Some it ∧
    Item.kind it = Item.kind item ∧
    (Item.output item = None → Item.output it = Item.output old) ∧
    (Item.changes item = None → Item.changes it = Item.changes old) ∧
    (∀ v, Item.output item = Some v → Item.output it = Some v) ∧
    (∀ v, Item.status item = Some v → Item.status it = Some v) ∧
    (∀ v, Item.title item = Some v → Item.title it = Some v) ∧
    (∀ v, Item.detail item = Some v → Item.detail it = Some v).
Proof.
  intros Hold after. subst after. split.
  - destruct (item_at_findIndex _ _ _ _ Hold) as (idx & Hidx & Hlookup).
    simpl. rewrite Hidx, Hlookup, items_of_put_items, decide_True by done.
    apply (ids_insert_same _ idx old); [done|].
    destruct (findIndex_Some _ _ _ Hidx) as (x & Hx & Hpx & _).
    rewrite Hlookup in Hx. injection Hx as <-.
    unfold has_id in Hpx. by apply bool_decide_eq_true in Hpx.
  - exists (Item.spread old item). rewrite item_at_upsertItem, Hold.
    split; [done|]. split; [done|]. simpl.
    repeat split; by intros; match goal with H : _ = _ |- _ => rewrite H end.
Qed.

Lemma upsertItem_merges_in_place_witness :
  let sid := lit "s1" in
  let item :=
    Item.tool_item (lit "t1") (lit "acpToolCall") (lit "run") [] (lit "pending") None None in
  let st :=
    run initialState
      [ (1, upsertItem sid item); (2, appendToolOutput sid (lit "t1") (lit "out")) ] in
  ∃ it, item_at (sessionReducer 3 st (upsertItem sid item)) sid (lit "t1") = Some it ∧
    Item.output it = Some (lit "out") ∧ Item.status it = Some (lit "pending").
Proof.
  intros sid item st.
  destruct (upsertItem_merges_in_place 3 st sid item
              (Item.with_output item (lit "out")) eq_refl)
    as (_ & it & Hit & _ & Hout & _ & _ & Hstatus & _).
  exists it. split; [exact Hit|]. split; [exact (Hout eq_refl)|exact (Hstatus _ eq_refl)].
Defined.

(** * Further properties of the listener *)

(** Evaluates the listener on an event whose shape is known. *)
Ltac eval_event :=
  repeat first
    [ progress decide_lits
    | progress cbn [own_prop get mbind outcome_bind mret outcome_ret String_or nullish_or
                    String_of truthy typeof_object not_an_object negb orb andb is_str
                    as_string as_string_or OpenCodeEvent.workspaceId OpenCodeEvent.method
                    OpenCodeEvent.params] ].

(** X12. The listener acts on the events of the subscribed workspace
    and on the six methods it knows; for an event of another workspace,
    or with another method, it dispatches nothing, leaves the refs as
    they are and does not read the payload, so it returns whatever the
    payload is. *)
Theorem foreign_events_are_ignored env w refs event :
  OpenCodeEvent.workspaceId event ≠ w ∨ OpenCodeEvent.method event ∉ handled_methods →
  handleEvent env w refs event = Returns (refs, []).
Proof.
  destruct event as [ew method params]. simpl. intros [Hw|Hm].
  - unfold handleEvent. simpl. by rewrite bool_decide_eq_false_2.
  - unfold handleEvent. simpl. destruct (negb _); [done|].
    unfold handled_methods in Hm.
    repeat (rewrite bool_decide_eq_false_2;
            [|intros ->; apply Hm; repeat first [apply list_elem_of_here | apply list_elem_of_further]]).
    done.
Qed.

Lemma foreign_events_are_ignored_witness :
  let env := Env.mk 0 [] (λ _, []) (λ _, None) in
  handleEvent env (lit "w1") Refs.empty (OpenCodeEvent.mk (lit "w2") (lit "session/created") VNull)
    = Returns (Refs.empty, []).
Proof.
  intros env.
  apply (foreign_events_are_ignored env (lit "w1") Refs.empty
           (OpenCodeEvent.mk (lit "w2") (lit "session/created") VNull)).
  left. vm_compute. discriminate.
Defined.

Lemma message_chunk_decoded env w refs sid text :
  nonempty sid = true → nonempty text = true →
  handleEvent env w refs (message_chunk_event w sid text) =
    Returns (refs, [appendAssistantDelta sid
                      (default (lit "assistant-" ++ sid)
                         (Refs.activeAssistantMessageId refs !! sid)) text]).
Proof.
  intros Hsid Htext. unfold message_chunk_event, session_update_event.
  rewrite handleEvent_session_update. unfold on_session_update.
  eval_event. rewrite Hsid. eval_event. rewrite Htext. eval_event. reflexivity.
Qed.

Lemma empty_chunk_decoded env w refs sid :
  handleEvent env w refs (message_chunk_event w sid []) = Returns (refs, []).
Proof.
  unfold message_chunk_event, session_update_event.
  rewrite handleEvent_session_update. unfold on_session_update.
  eval_event. destruct (nonempty sid); eval_event; reflexivity.
Qed.

Lemma turn_completed_decoded env w refs sid :
  handleEvent env w refs (turn_completed_event w sid) =
    Returns (Refs.mk (delete sid (Refs.activeAssistantMessageId refs))
                     (delete sid (Refs.activeReasoningItemId refs)),
             [markProcessing sid false]).
Proof.
  unfold turn_completed_event, handleEvent. eval_event.
  rewrite bool_decide_eq_true_2 by done. eval_event. reflexivity.
Qed.

Lemma thought_chunk_decoded env w refs sid text :
  nonempty sid = true → nonempty text = true →
  handleEvent env w refs (thought_chunk_event w sid text) =
    let minted := lit "reasoning-" ++ String_int (Env.now env) ++ lit "-" ++ Env.random env in
    match first_truthy (Refs.activeReasoningItemId refs !! sid) None with
    | Some known => Returns (refs, [appendReasoningDelta sid known text])
    | None =>
        Returns (Refs.mk (Refs.activeAssistantMessageId refs)
                   (<[sid := minted]> (Refs.activeReasoningItemId refs)),
                 [appendReasoningDelta sid minted text])
    end.
Proof.
  intros Hsid Htext. unfold thought_chunk_event, session_update_event.
  rewrite handleEvent_session_update. unfold on_session_update.
  eval_event. rewrite Hsid. eval_event. rewrite Htext. eval_event.
  unfold first_truthy.
  destruct (Refs.activeReasoningItemId refs !! sid) as [known|]; [|done].
  by destruct (nonempty known).
Qed.

Lemma upsert_by_id_keeps_the_rest st sid iid k newItem update :
  State.with_items (upsert_by_id st sid iid k newItem update) (State.itemsBySession st) = st.
Proof.
  unfold upsert_by_id. destruct (findIndex _ _) as [idx|].
  - destruct (_ !! idx); [|by destruct st]. case_decide; by destruct st.
  - by destruct st.
Qed.

(** The actions on items leave the session lists, the status flags, the
    plans and the pointers alone. *)
Lemma item_actions_keep_the_rest now st action :
  is_Some (writes_items_of action) →
  State.with_items (sessionReducer now st action) (State.itemsBySession st) = st.
Proof.
  destruct action; simpl; intros [? [=]];
    try apply upsert_by_id_keeps_the_rest; try (by destruct st).
  destruct (findIndex _ _) as [idx|]; [|by destruct st].
  destruct (_ !! idx); by destruct st.
Qed.

Lemma run_item_actions_keep_the_rest steps st :
  Forall (λ step : Z * SessionAction, is_Some (writes_items_of step.2)) steps →
  State.with_items (run st steps) (State.itemsBySession st) = st.
Proof.
  revert st. induction steps as [|[now a] steps IH]; intros st Hall.
  - by destruct st.
  - apply Forall_cons in Hall as [Ha Hall].
    change (run st ((now, a) :: steps)) with (run (sessionReducer now st a) steps).
    pose proof (IH (sessionReducer now st a) Hall) as Hrest.
    pose proof (item_actions_keep_the_rest now st a Ha) as Hone.
    transitivity
      (State.with_items
         (State.with_items (run (sessionReducer now st a) steps)
            (State.itemsBySession (sessionReducer now st a)))
         (State.itemsBySession st)); [done|].
    by rewrite Hrest.
Qed.

Lemma steps_of_item_actions {A} (f : A → SessionAction) (xs : list A)
    (steps : list (Z * SessionAction)) :
  (∀ x, is_Some (writes_items_of (f x))) →
  steps.*2 = f <$> xs →
  Forall (λ step : Z * SessionAction, is_Some (writes_items_of step.2)) steps.
Proof.
  intros Hf. revert steps. induction xs as [|x xs IH]; intros [|[now a] steps] Hsteps;
    try discriminate Hsteps; [constructor|].
  injection Hsteps as -> Hsteps. constructor; [apply Hf|by apply IH].
Qed.

(** X13. A reply streams into the item made for it.  After a
    [sendMessage] whose backend call returns, every non-empty
    [agent_message_chunk] event of the session is decoded to a delta for
    the assistant item that [sendMessage] created, and once the reducer
    has applied the send and the chunks that item holds the chunks'
    texts in order, the session is still marked as processing and its
    plan is cleared. *)
Theorem streamed_reply_fills_the_precreated_item env w sid refs text st chunks :
  nonempty w = true → nonempty sid = true →
  Forall (λ c, nonempty c = true) chunks →
  let aid := lit "assistant-" ++ String_int (Env.now env) ++ lit "-" ++ Env.random env in
  ∃ refs1 dispatched,
    sendMessage env (Some w) (Some sid) refs text None (Returns ())
      = Returns (refs1, dispatched) ∧
    Forall (λ c, ∀ env',
              handleEvent env' w refs1 (message_chunk_event w sid c)
                = Returns (refs1, [appendAssistantDelta sid aid c])) chunks ∧
    ∀ steps0 steps1,
      steps0.*2 = dispatched →
      steps1.*2 = appendAssistantDelta sid aid <$> chunks →
      let after := run (run st steps0) steps1 in
      State.sessionStatusById after !! sid ≫= Status.isProcessing = Some true ∧
      State.planBySession after !! sid = Some None ∧
      ∃ it, item_at after sid aid = Some it ∧
        Item.kind it = Kmessage ∧ Item.role it = Some RoleAssistant ∧
        Item.text it = Some (concat chunks).
Proof.
  intros Hw Hsid Hchunks aid.
  unfold sendMessage, first_truthy. rewrite Hw. simpl.
  eexists _, _. split; [reflexivity|]. split.
  - eapply Forall_impl; [exact Hchunks|]. intros c Hc env'. simpl in Hc.
    rewrite message_chunk_decoded by done. simpl. by rewrite lookup_insert_eq.
  - intros steps0 steps1 Hsteps0 Hsteps1.
    do 4 (destruct steps0 as [|[? ?] steps0]; [discriminate Hsteps0|]).
    destruct steps0; [|discriminate Hsteps0].
    injection Hsteps0 as -> -> -> ->.
    cbv zeta.
    set (item := Item.message_item aid RoleAssistant []).
    set (st3 := sessionReducer z1
                  (sessionReducer z0
                     (sessionReducer z st (addUserMessage w sid text))
                     (markProcessing sid true))
                  (setSessionPlan sid None)).
    set (st4 := sessionReducer z2 st3 (upsertItem sid item)).
    change (run st _) with st4.
    set (after := run st4 steps1).
    assert (Forall (λ step : Z * SessionAction, is_Some (writes_items_of step.2)) steps1)
      as Hitems
      by (apply (steps_of_item_actions (appendAssistantDelta sid aid) chunks);
          [by eexists|done]).
    pose proof (run_item_actions_keep_the_rest steps1 st4 Hitems) as Hrest.
    fold after in Hrest.
    assert (State.sessionStatusById after = State.sessionStatusById st4) as ->
      by (by rewrite <- Hrest).
    assert (State.planBySession after = State.planBySession st4) as ->
      by (by rewrite <- Hrest).
    pose proof (item_actions_keep_the_rest z2 st3 (upsertItem sid item)
                  ltac:(by eexists)) as Hup.
    fold st4 in Hup.
    assert (State.sessionStatusById st4 = State.sessionStatusById st3) as ->
      by (by rewrite <- Hup).
    assert (State.planBySession st4 = State.planBySession st3) as ->
      by (by rewrite <- Hup).
    split; [|split].
    + subst st3. simpl. by rewrite lookup_insert_eq.
    + subst st3. simpl. by rewrite lookup_insert_eq.
    + pose proof (item_at_upsertItem z2 st3 sid item) as Hat.
      change (Item.id item) with aid in Hat. fold st4 in Hat.
      assert (∃ it0, item_at st4 sid aid = Some it0 ∧ Item.kind it0 = Kmessage ∧
                     Item.role it0 = Some RoleAssistant ∧ Item.text it0 = Some [])
        as (it0 & Hit0 & Hk0 & Hr0 & Ht0).
      { destruct (item_at st3 sid aid); eexists; (split; [exact Hat|done]). }
      destruct (assistant_deltas_existing sid aid chunks st4 steps1 it0 [] Hsteps1 Hit0 Hk0 Ht0)
        as (it & Hit & Hk & Hr & Ht).
      exists it. rewrite Hr. by repeat split.
Qed.

Lemma streamed_reply_fills_the_precreated_item_witness :
  let env := Env.mk 1700 (lit "k3x9ab") (λ _, []) (λ _, None) in
  let aid := lit "assistant-1700-k3x9ab" in
  ∃ refs1 dispatched,
    sendMessage env (Some (lit "w1")) (Some (lit "s1")) Refs.empty (lit "hi") None (Returns ())
      = Returns (refs1, dispatched) ∧
    ∀ steps0 steps1,
      steps0.*2 = dispatched →
      steps1.*2 = appendAssistantDelta (lit "s1") aid <$> [lit "Hel"; lit "lo"] →
      ∃ it, item_at (run (run initialState steps0) steps1) (lit "s1") aid = Some it ∧
        Item.text it = Some (lit "Hello").
Proof.
  intros env aid.
  destruct (streamed_reply_fills_the_precreated_item env (lit "w1") (lit "s1") Refs.empty
              (lit "hi") initialState [lit "Hel"; lit "lo"] eq_refl eq_refl)
    as (refs1 & dispatched & Hsend & _ & Hafter).
  { repeat constructor. }
  exists refs1, dispatched. split; [exact Hsend|].
  intros steps0 steps1 H0 H1.
  destruct (Hafter steps0 steps1 H0 H1) as (_ & _ & it & Hit & _ & _ & Htext).
  exists it. split; [exact Hit|exact Htext].
Defined.

(** X14. [turn/completed] ends the routing of a turn: it forgets the
    session's assistant and reasoning item ids and marks the session as
    not processing; a message chunk that arrives afterwards, as one for a
    session this client never sent to, goes to the item
    [assistant-<sessionId>], not to the item of the finished turn. *)
Theorem late_chunk_goes_to_the_fallback_item env env' w refs sid chunk :
  nonempty sid = true → nonempty chunk = true →
  ∃ refs',
    handleEvent env w refs (turn_completed_event w sid)
      = Returns (refs', [markProcessing sid false]) ∧
    Refs.activeAssistantMessageId refs' !! sid = None ∧
    Refs.activeReasoningItemId refs' !! sid = None ∧
    handleEvent env' w refs' (message_chunk_event w sid chunk)
      = Returns (refs', [appendAssistantDelta sid (lit "assistant-" ++ sid) chunk]).
Proof.
  intros Hsid Hchunk. eexists. split; [apply turn_completed_decoded|].
  simpl. rewrite !lookup_delete_eq. split; [done|]. split; [done|].
  rewrite message_chunk_decoded by done. simpl. by rewrite lookup_delete_eq.
Qed.

Lemma late_chunk_goes_to_the_fallback_item_witness :
  let env := Env.mk 0 [] (λ _, []) (λ _, None) in
  let refs := Refs.mk {[ lit "s1" := lit "assistant-1700-k3x9ab" ]} ∅ in
  ∃ refs',
    handleEvent env (lit "w1") refs (turn_completed_event (lit "w1") (lit "s1"))
      = Returns (refs', [markProcessing (lit "s1") false]) ∧
    handleEvent env (lit "w1") refs' (message_chunk_event (lit "w1") (lit "s1") (lit "late"))
      = Returns (refs', [appendAssistantDelta (lit "s1") (lit "assistant-s1") (lit "late")]).
Proof.
  intros env refs.
  destruct (late_chunk_goes_to_the_fallback_item env env (lit "w1") refs (lit "s1") (lit "late")
              eq_refl eq_refl) as (refs' & Hdone & _ & _ & Hlate).
  exists refs'. split; [exact Hdone|exact Hlate].
Defined.

Lemma minted_reasoning_id_nonempty now random :
  nonempty (lit "reasoning-" ++ String_int now ++ lit "-" ++ random) = true.
Proof. reflexivity. Qed.

(** X15. A turn has one reasoning item.  The first thought chunk of a
    session without a reasoning id mints [reasoning-<now>-<random>] and
    remembers it; the next chunk of the session, whatever the clock and
    the random source then say, is addressed to the same id; after
    [turn/completed] the id is forgotten, so the next turn mints anew. *)
Theorem reasoning_id_is_minted_once_per_turn env1 env2 env3 w refs sid a b c :
  nonempty sid = true → nonempty a = true → nonempty b = true → nonempty c = true →
  first_truthy (Refs.activeReasoningItemId refs !! sid) None = None →
  let id1 := lit "reasoning-" ++ String_int (Env.now env1) ++ lit "-" ++ Env.random env1 in
  let id3 := lit "reasoning-" ++ String_int (Env.now env3) ++ lit "-" ++ Env.random env3 in
  ∃ refs1 refs2 refs3,
    handleEvent env1 w refs (thought_chunk_event w sid a)
      = Returns (refs1, [appendReasoningDelta sid id1 a]) ∧
    handleEvent env2 w refs1 (thought_chunk_event w sid b)
      = Returns (refs1, [appendReasoningDelta sid id1 b]) ∧
    handleEvent env2 w refs1 (turn_completed_event w sid)
      = Returns (refs2, [markProcessing sid false]) ∧
    handleEvent env3 w refs2 (thought_chunk_event w sid c)
      = Returns (refs3, [appendReasoningDelta sid id3 c]).
Proof.
  intros Hsid Ha Hb Hc Hnone id1 id3. subst id1 id3.
  eexists _, _, _. split; [|split; [|split]].
  - rewrite thought_chunk_decoded by done. cbv zeta. rewrite Hnone. reflexivity.
  - rewrite thought_chunk_decoded by done. cbv zeta.
    cbn [Refs.activeReasoningItemId Refs.activeAssistantMessageId].
    rewrite lookup_insert_eq. unfold first_truthy.
    by rewrite minted_reasoning_id_nonempty.
  - apply turn_completed_decoded.
  - rewrite thought_chunk_decoded by done. cbv zeta.
    cbn [Refs.activeReasoningItemId Refs.activeAssistantMessageId].
    rewrite lookup_delete_eq. reflexivity.
Qed.

Lemma reasoning_id_is_minted_once_per_turn_witness :
  let env1 := Env.mk 1700 (lit "aaaaaa") (λ _, []) (λ _, None) in
  let env2 := Env.mk 1800 (lit "bbbbbb") (λ _, []) (λ _, None) in
  let w := lit "w1" in
  let sid := lit "s1" in
  ∃ refs1,
    handleEvent env1 w Refs.empty (thought_chunk_event w sid (lit "think"))
      = Returns (refs1, [appendReasoningDelta sid (lit "reasoning-1700-aaaaaa") (lit "think")]) ∧
    handleEvent env2 w refs1 (thought_chunk_event w sid (lit "more"))
      = Returns (refs1, [appendReasoningDelta sid (lit "reasoning-1700-aaaaaa") (lit "more")]).
Proof.
  intros env1 env2 w sid.
  destruct (reasoning_id_is_minted_once_per_turn env1 env2 env2 w Refs.empty sid
              (lit "think") (lit "more") (lit "x") eq_refl eq_refl eq_refl eq_refl eq_refl)
    as (refs1 & _ & _ & H1 & H2 & _).
  exists refs1. split; [exact H1|exact H2].
Defined.

(** ** Plans *)

Lemma plan_entry_nonempty entry s :
  plan_entry entry = Returns (Some s) → nonempty (TurnPlanStep.step s) = true.
Proof.
  unfold plan_entry. repeat decode_given.
  all: by intros [= <-].
Qed.

Lemma plan_steps_sound entries :
  forallb plain entries = true →
  ∃ steps, plan_steps entries = Returns steps ∧
    Forall (λ s, nonempty (TurnPlanStep.step s) = true) steps ∧
    (length steps ≤ length entries)%nat.
Proof.
  induction entries as [|entry rest IH].
  - exists []. by repeat split.
  - cbn [forallb]. intros [Hentry Hplain]%andb_prop.
    destruct (IH Hplain) as (steps & Hrest & Hne & Hlen).
    destruct (plan_entry_returns entry Hentry) as [[s|] Hs].
    + exists (s :: steps). simpl. rewrite Hs, Hrest. simpl. split; [done|]. split.
      * constructor; [by eapply plan_entry_nonempty|done].
      * lia.
    + exists steps. simpl. rewrite Hs, Hrest. simpl. split; [done|]. split; [done|lia].
Qed.

Lemma plan_entry_value_decoded content status :
  nonempty content = true →
  plan_entry (plan_entry_value content status)
    = Returns (Some (TurnPlanStep.mk content (step_status_of status))).
Proof.
  intros Hc. unfold plan_entry, plan_entry_value. eval_event. rewrite Hc.
  unfold step_status_of. do 2 f_equal. f_equal.
  destruct (decide (status = lit "in_progress")) as [->|?].
  { by rewrite bool_decide_eq_true_2. }
  rewrite bool_decide_eq_false_2 by done.
  destruct (decide (status = lit "completed")) as [->|?].
  { by rewrite bool_decide_eq_true_2. }
  by rewrite bool_decide_eq_false_2.
Qed.

(** X16. A [plan] update rebuilds the plan from its entries.  For
    entries that [String] converts (no object with a [toString] of its
    own in them, numbers up to 2^53) the listener dispatches one
    [setSessionPlan] whose plan has the session id as turn id, no
    explanation, and steps that all have a non-empty text and are no more
    than the entries; entries that are objects with a non-empty [content]
    string and a status string are all kept, in order, with
    ["in_progress"] and ["completed"] mapped to the step statuses of the
    same name and every other status to pending.  An entry whose
    [content] is an object with a [toString] of its own makes the
    listener throw instead. *)
Theorem plan_event_rebuilds_the_plan :
  (∀ env w refs sid entries,
     nonempty sid = true →
     forallb plain entries = true →
     ∃ steps,
       handleEvent env w refs (plan_event w sid entries)
         = Returns (refs, [setSessionPlan sid (Some (TurnPlan.mk sid None steps))]) ∧
       Forall (λ s, nonempty (TurnPlanStep.step s) = true) steps ∧
       (length steps ≤ length entries)%nat) ∧
  (∀ env w refs sid (pairs : list (jsstring * jsstring)),
     nonempty sid = true →
     Forall (λ p, nonempty p.1 = true) pairs →
     handleEvent env w refs
       (plan_event w sid (map (λ p, plan_entry_value p.1 p.2) pairs))
       = Returns (refs,
           [setSessionPlan sid
              (Some (TurnPlan.mk sid None
                       (map (λ p, TurnPlanStep.mk p.1 (step_status_of p.2)) pairs)))])) ∧
  (∀ env w refs sid own rest,
     nonempty sid = true →
     handleEvent env w refs
       (plan_event w sid
          (VObj [ (lit "content", VObj ((lit "toString", own) :: rest)) ] :: []))
       = Throws).
Proof.
  assert (∀ env w refs sid entries,
            nonempty sid = true →
            handleEvent env w refs (plan_event w sid entries) =
              steps ← plan_steps entries;
              mret (refs, [setSessionPlan sid (Some (TurnPlan.mk sid None steps))]))
    as Hdecoded.
  { intros env w refs sid entries Hsid. unfold plan_event, session_update_event.
    rewrite handleEvent_session_update. unfold on_session_update.
    eval_event. rewrite Hsid. eval_event. reflexivity. }
  split; [|split].
  - intros env w refs sid entries Hsid Hplain.
    destruct (plan_steps_sound entries Hplain) as (steps & Hsteps & Hne & Hlen).
    exists steps. rewrite Hdecoded, Hsteps by done. by repeat split.
  - intros env w refs sid pairs Hsid Hpairs. rewrite Hdecoded by done.
    assert (plan_steps (map (λ p, plan_entry_value p.1 p.2) pairs)
              = Returns (map (λ p, TurnPlanStep.mk p.1 (step_status_of p.2)) pairs)) as ->;
      [|done].
    induction Hpairs as [|[c s] pairs Hc _ IH]; [done|].
    cbn [map plan_steps fst snd]. rewrite plan_entry_value_decoded by done.
    cbn [mbind outcome_bind]. by rewrite IH.
  - intros env w refs sid own rest Hsid. rewrite Hdecoded by done.
    cbn [plan_steps plan_entry not_an_object truthy typeof_object negb orb get own_prop
         mbind outcome_bind].
    decide_lits. cbn [String_or nullish_or String_of has_own existsb fst]. decide_lits.
    reflexivity.
Qed.

Lemma plan_event_rebuilds_the_plan_witness :
  let env := Env.mk 0 [] (λ _, []) (λ _, None) in
  handleEvent env (lit "w1") Refs.empty
    (plan_event (lit "w1") (lit "s1")
       [ plan_entry_value (lit "read") (lit "completed");
         plan_entry_value (lit "write") (lit "in_progress");
         plan_entry_value (lit "test") (lit "queued") ])
  = Returns (Refs.empty,
      [setSessionPlan (lit "s1")
         (Some (TurnPlan.mk (lit "s1") None
                  [ TurnPlanStep.mk (lit "read") StepCompleted;
                    TurnPlanStep.mk (lit "write") StepInProgress;
                    TurnPlanStep.mk (lit "test") StepPending ]))]).
Proof.
  intros env.
  apply (proj1 (proj2 plan_event_rebuilds_the_plan) env (lit "w1") Refs.empty (lit "s1")
           [ (lit "read", lit "completed"); (lit "write", lit "in_progress");
             (lit "test", lit "queued") ]).
  - reflexivity.
  - repeat constructor.
Defined.

(** ** Session events *)

Lemma session_created_decoded env w refs sid title :
  handleEvent env w refs (session_created_event w sid title) =
    title' ← as_string_or title (lit "New Session");
    mret (refs, [ensureSession w sid (Some title')]).
Proof.
  unfold session_created_event, handleEvent. eval_event.
  rewrite bool_decide_eq_true_2 by done. eval_event. reflexivity.
Qed.

(** X17. A [session/created] event that is delivered again does not
    list the session again: both deliveries decode to [ensureSession],
    and after the two the state is the one the first left, first title
    included; a missing or empty title is listed as "New Session". *)
Theorem session_created_twice_lists_once env env' w refs sid title title' now now' st :
  handleEvent env w refs (session_created_event w sid (VStr title))
    = Returns (refs, [ensureSession w sid (Some (or_default (Some title) (lit "New Session")))]) ∧
  handleEvent env w refs (session_created_event w sid VUndefined)
    = Returns (refs, [ensureSession w sid (Some (lit "New Session"))]) ∧
  ∃ first second,
    handleEvent env w refs (session_created_event w sid (VStr title)) = Returns (refs, first) ∧
    handleEvent env' w refs (session_created_event w sid (VStr title')) = Returns (refs, second) ∧
    run st (map (pair now) first ++ map (pair now') second) = run st (map (pair now) first) ∧
    sid ∈ session_ids (run st (map (pair now) first)) w.
Proof.
  assert (∀ e t, handleEvent e w refs (session_created_event w sid (VStr t))
            = Returns (refs, [ensureSession w sid (Some (or_default (Some t) (lit "New Session")))]))
    as Hdecoded.
  { intros e t. rewrite session_created_decoded. unfold as_string_or, or_default. simpl.
    by destruct (nonempty t). }
  split; [apply Hdecoded|]. split; [by rewrite session_created_decoded|].
  eexists _, _. split; [apply Hdecoded|]. split; [apply Hdecoded|].
  cbn [map app]. unfold run. cbn [foldl fst snd].
  pose proof (ensureSession_lists now st w sid
                (Some (or_default (Some title) (lit "New Session")))) as Hin.
  split; [|exact Hin].
  by apply (ensureSession_again_is_noop now' _ w sid).
Qed.

(** ** Sizes of what the decoder stores *)

Lemma truncate_length (n : Z) (s : jsstring) :
  0 ≤ n → Z.of_nat (length (truncate n s)) ≤ n + 1.
Proof.
  intros Hn. unfold truncate, slice_to.
  destruct (Z.gtb_spec (Z.of_nat (length s)) n).
  - rewrite length_app, length_take. simpl. lia.
  - lia.
Qed.

Lemma truncate_short (n : Z) (s : jsstring) :
  Z.of_nat (length s) ≤ n → truncate n s = s.
Proof.
  intros Hlen. unfold truncate.
  destruct (Z.gtb_spec (Z.of_nat (length s)) n); [lia|done].
Qed.

(** X18. What a tool call stores is bounded whatever the backend sends:
    the detail of the item a [tool_call] creates has at most 4001 code
    units, and every diff that a content entry adds has at most 10001;
    each such entry adds exactly one change, marked "MOD", with a
    non-empty path. *)
Theorem decoded_tool_text_is_bounded :
  (∀ env itemId updateRecord item,
     tool_call_item env itemId updateRecord = Returns item →
     ∃ detail, Item.detail item = Some detail ∧ Z.of_nat (length detail) ≤ 4001) ∧
  (∀ sid iid entry dispatched changes,
     tool_content_entry sid iid entry = Returns dispatched →
     appendToolChanges sid iid changes ∈ dispatched →
     ∃ path diff,
       changes = [Change.mk path (Some (lit "MOD")) (Some diff)] ∧
       nonempty path = true ∧ Z.of_nat (length diff) ≤ 10001).
Proof.
  split.
  - intros env itemId updateRecord item. unfold tool_call_item.
    destruct (get updateRecord "title") as [title_v| |]; try discriminate.
    cbn [mbind outcome_bind].
    destruct (String_or title_v "Tool") as [title| |]; try discriminate.
    destruct (get updateRecord "kind") as [kind_v| |]; try discriminate.
    cbn [mbind outcome_bind].
    destruct (String_or kind_v "") as [kind| |]; try discriminate.
    destruct (get updateRecord "status") as [status_v| |]; try discriminate.
    cbn [mbind outcome_bind].
    destruct (String_or status_v "pending") as [status| |]; try discriminate.
    destruct (get updateRecord "rawInput") as [rawInput| |]; try discriminate.
    cbn [mbind outcome_bind mret outcome_ret]. intros [= <-].
    eexists. split; [reflexivity|]. by apply (truncate_length 4000).
  - intros sid iid entry dispatched changes. unfold tool_content_entry.
    repeat decode_given; intros [= <-] Hin;
      try (by apply elem_of_nil in Hin);
      apply list_elem_of_singleton in Hin; try discriminate Hin.
    all: injection Hin as ->; eexists _, _; (split; [reflexivity|]); split;
      [ by match goal with H : negb (nonempty ?p) = false |- nonempty ?p = true =>
             apply negb_false_iff in H end
      | by apply (truncate_length 10000) ].
Qed.

Lemma decoded_tool_text_is_bounded_witness :
  let item :=
    Item.tool_item (lit "tool-s1-7") (lit "acpToolCall") (lit "execute: Tool")
      (lit "execute" ++ nl ++ lit "{}") (lit "pending") None None in
  ∃ detail, Item.detail item = Some detail ∧ Z.of_nat (length detail) ≤ 4001.
Proof.
  intros item.
  apply (proj1 decoded_tool_text_is_bounded
           (Env.mk 0 [] (λ _, lit "{}") (λ _, None)) (lit "tool-s1-7")
           (VObj [ (lit "kind", VStr (lit "execute")); (lit "rawInput", VObj []) ]) item).
  reflexivity.
Defined.

(** * Properties of the operations the hook offers *)

(** X19. [startSession] either registers and activates or does nothing.
    When the backend call returns a session, the promise resolves to its
    id, and once the reducer has applied what was dispatched the hook's
    active session is that id and the session is in the hook's list; when
    the call throws, or without a workspace, the promise resolves to
    [null] and nothing is dispatched. *)
Theorem startSession_registers_and_activates w :
  nonempty w = true →
  (∀ session st steps,
     ∃ dispatched,
       startSession (Some w) (Returns session)
         = Returns (Some (OpenCodeSessionInfo.id session), dispatched) ∧
       (steps.*2 = dispatched →
        select_activeSessionId (Some w) (run st steps) = Some (OpenCodeSessionInfo.id session) ∧
        OpenCodeSessionInfo.id session ∈ SessionSummary.id <$> select_sessions (Some w) (run st steps))) ∧
  startSession (Some w) Throws = Returns (None, []) ∧
  (∀ create, startSession None create = Returns (None, [])) ∧
  (∀ create, startSession (Some []) create = Returns (None, [])).
Proof.
  intros Hw. split; [|by unfold startSession, first_truthy; rewrite Hw].
  intros [id title] st steps. unfold startSession, first_truthy. rewrite Hw. simpl.
  eexists. split; [reflexivity|]. intros Hsteps.
  do 2 (destruct steps as [|[? ?] steps]; [discriminate Hsteps|]).
  destruct steps; [|discriminate Hsteps].
  injection Hsteps as -> ->.
  unfold run. cbn [foldl fst snd].
  unfold select_activeSessionId, select_sessions, first_truthy. rewrite Hw.
  split.
  - simpl. by rewrite lookup_insert_eq.
  - apply (ensureSession_lists z st w id).
Qed.

Lemma startSession_registers_and_activates_witness :
  startSession (Some (lit "w1")) Throws = Returns (None, []).
Proof.
  apply (startSession_registers_and_activates (lit "w1")). reflexivity.
Defined.

(** X20. [switchSession] to a session makes it the hook's active
    session, shows its items and clears its unread flag while keeping its
    processing flag; [switchSession(null)] leaves the hook without an
    active session and without items, and touches no status. *)
Theorem switchSession_selects_and_marks_read w :
  nonempty w = true →
  (∀ sid st steps,
     nonempty sid = true →
     steps.*2 = switchSession (Some w) (Some sid) →
     let after := run st steps in
     select_activeSessionId (Some w) after = Some sid ∧
     select_items (Some w) after = items_of st sid ∧
     Status.hasUnread (select_sessionStatus (Some w) after) = Some false ∧
     State.sessionStatusById after !! sid ≫= Status.isProcessing
       = State.sessionStatusById st !! sid ≫= Status.isProcessing) ∧
  (∀ st steps,
     steps.*2 = switchSession (Some w) None →
     let after := run st steps in
     select_activeSessionId (Some w) after = None ∧
     select_items (Some w) after = [] ∧
     State.sessionStatusById after = State.sessionStatusById st).
Proof.
  intros Hw. split.
  - intros sid st steps Hsid. unfold switchSession, first_truthy. rewrite Hw, Hsid.
    intros Hsteps.
    do 2 (destruct steps as [|[? ?] steps]; [discriminate Hsteps|]).
    destruct steps; [|discriminate Hsteps].
    injection Hsteps as -> ->.
    unfold run. cbn [foldl fst snd]. cbv zeta.
    assert (select_activeSessionId (Some w)
              (sessionReducer z0 (sessionReducer z st (setActiveSessionId w (Some sid)))
                 (markUnread sid false)) = Some sid) as Hactive.
    { unfold select_activeSessionId, first_truthy. rewrite Hw. simpl.
      by rewrite lookup_insert_eq. }
    unfold select_items, select_sessionStatus. rewrite Hactive.
    unfold first_truthy. rewrite Hsid. simpl. rewrite lookup_insert_eq. simpl.
    repeat split. by destruct (State.sessionStatusById st !! sid).
  - intros st steps. unfold switchSession, first_truthy. rewrite Hw.
    intros Hsteps.
    destruct steps as [|[? ?] steps]; [discriminate Hsteps|].
    destruct steps; [|discriminate Hsteps].
    injection Hsteps as ->.
    unfold run. cbn [foldl fst snd]. cbv zeta.
    unfold select_items, select_activeSessionId, first_truthy. rewrite Hw. simpl.
    by rewrite lookup_insert_eq.
Qed.

Lemma switchSession_selects_and_marks_read_witness :
  let st :=
    run initialState
      [ (1, addUserMessage (lit "w1") (lit "s1") (lit "hi")); (2, markUnread (lit "s1") true) ] in
  let after := run st (map (pair 3) (switchSession (Some (lit "w1")) (Some (lit "s1")))) in
  select_activeSessionId (Some (lit "w1")) after = Some (lit "s1") ∧
  select_items (Some (lit "w1")) after = items_of st (lit "s1") ∧
  Status.hasUnread (select_sessionStatus (Some (lit "w1")) after) = Some false.
Proof.
  intros st after.
  destruct (proj1 (switchSession_selects_and_marks_read (lit "w1") eq_refl) (lit "s1") st
              (map (pair 3) (switchSession (Some (lit "w1")) (Some (lit "s1"))))
              eq_refl eq_refl) as (H1 & H2 & H3 & _).
  split; [exact H1|]. split; [exact H2|exact H3].
Defined.

(** X21. [cancelCurrentOperation] changes the state only when the
    backend confirms: on success the active session is marked as not
    processing and keeps its unread flag; when the call throws, or when
    there is no workspace or no active session, nothing is dispatched
    and the promise still resolves. *)
Theorem cancel_resets_processing_only_on_success w sid :
  nonempty w = true → nonempty sid = true →
  (∀ st now,
     cancelCurrentOperation (Some w) (Some sid) (Returns ())
       = Returns [markProcessing sid false] ∧
     let after := sessionReducer now st (markProcessing sid false) in
     State.sessionStatusById after !! sid ≫= Status.isProcessing = Some false ∧
     State.sessionStatusById after !! sid ≫= Status.hasUnread
       = State.sessionStatusById st !! sid ≫= Status.hasUnread) ∧
  cancelCurrentOperation (Some w) (Some sid) Throws = Returns [] ∧
  (∀ cancel, cancelCurrentOperation (Some w) None cancel = Returns []) ∧
  (∀ cancel, cancelCurrentOperation None (Some sid) cancel = Returns []).
Proof.
  intros Hw Hsid. unfold cancelCurrentOperation, first_truthy. rewrite Hw, Hsid.
  split; [|done]. intros st now. split; [done|]. simpl.
  rewrite lookup_insert_eq. simpl. split; [done|].
  by destruct (State.sessionStatusById st !! sid).
Qed.

Lemma cancel_resets_processing_only_on_success_witness :
  cancelCurrentOperation (Some (lit "w1")) (Some (lit "s1")) Throws = Returns [].
Proof.
  apply (cancel_resets_processing_only_on_success (lit "w1") (lit "s1")); reflexivity.
Defined.

(** X22. [refreshSessions] always ends with the loading flag off.  When
    the backend returns a list, the workspace's sessions are replaced by
    it wholesale, an empty or missing title shown as "Untitled Session";
    when the call throws the list stays as it was; in both cases the
    items, status flags and plans are untouched. *)
Theorem refreshSessions_replaces_the_list_and_stops_loading w :
  nonempty w = true →
  ∀ result st steps,
    result = Throws ∨ (∃ sessionList, result = Returns sessionList) →
    ∃ dispatched,
      refreshSessions (Some w) result = Returns dispatched ∧
      (steps.*2 = dispatched →
       let after := run st steps in
       select_isSessionListLoading (Some w) after = false ∧
       select_sessions (Some w) after =
         match result with
         | Returns sessionList =>
             map (λ s, SessionSummary.mk (OpenCodeSessionInfo.id s)
                         (or_default (OpenCodeSessionInfo.title s) (lit "Untitled Session")))
               sessionList
         | _ => select_sessions (Some w) st
         end ∧
       State.itemsBySession after = State.itemsBySession st ∧
       State.sessionStatusById after = State.sessionStatusById st ∧
       State.planBySession after = State.planBySession st).
Proof.
  intros Hw result st steps Hresult.
  unfold refreshSessions, first_truthy. rewrite Hw.
  unfold select_isSessionListLoading, select_sessions, first_truthy. rewrite Hw.
  destruct Hresult as [->|[sessionList ->]]; simpl.
  - eexists. split; [reflexivity|]. intros Hsteps.
    do 2 (destruct steps as [|[? ?] steps]; [discriminate Hsteps|]).
    destruct steps; [|discriminate Hsteps].
    injection Hsteps as -> ->.
    unfold run. cbn [foldl fst snd]. simpl.
    by rewrite lookup_insert_eq.
  - eexists. split; [reflexivity|]. intros Hsteps.
    do 3 (destruct steps as [|[? ?] steps]; [discriminate Hsteps|]).
    destruct steps; [|discriminate Hsteps].
    injection Hsteps as -> -> ->.
    unfold run. cbn [foldl fst snd]. simpl.
    unfold sessions_of. simpl. by rewrite !lookup_insert_eq.
Qed.

Lemma refreshSessions_replaces_the_list_and_stops_loading_witness :
  let st := run initialState [ (1, setSessionListLoading (lit "w1") true) ] in
  ∃ dispatched,
    refreshSessions (Some (lit "w1")) Throws = Returns dispatched ∧
    (map (pair 2) dispatched).*2 = dispatched ∧
    select_isSessionListLoading (Some (lit "w1")) (run st (map (pair 2) dispatched)) = false.
Proof.
  intros st.
  destruct (refreshSessions_replaces_the_list_and_stops_loading (lit "w1") eq_refl Throws st
              (map (pair 2)
                 [setSessionListLoading (lit "w1") true; setSessionListLoading (lit "w1") false])
              (or_introl eq_refl))
    as (dispatched & Hd & Hafter).
  exists dispatched. split; [exact Hd|].
  injection Hd as <-. split; [reflexivity|].
  exact (proj1 (Hafter eq_refl)).
Defined.

(** * Properties of the activity summary *)

Lemma snapshot_fold (items : list ConversationItem) (acc : Z * Z * Z) :
  foldl (λ '(messageCount, toolCallCount, diffCount) item,
      if bool_decide (Item.kind item = Kmessage ∧ Item.role item = Some RoleAssistant)
      then (messageCount + 1, toolCallCount, diffCount)
      else if bool_decide (Item.kind item = Ktool)
      then (messageCount, toolCallCount + 1, diffCount)
      else if bool_decide (Item.kind item = Kdiff)
      then (messageCount, toolCallCount, diffCount + 1)
      else (messageCount, toolCallCount, diffCount)) acc items
  = (acc.1.1 + count_of is_assistant_message items, acc.1.2 + count_of is_tool items,
     acc.2 + count_of is_diff items).
Proof.
  revert acc. induction items as [|item items IH]; intros [[m t] d].
  - unfold count_of. simpl. by rewrite !Z.add_0_r.
  - cbn [foldl]. rewrite IH. clear IH.
    unfold count_of, is_assistant_message, is_tool, is_diff. cbn [List.filter].
    repeat case_bool_decide; cbn [length fst snd];
      try (exfalso; intuition congruence); rewrite !pair_equal_spec; lia.
Qed.

Lemma count_of_nonneg {A} (p : A → bool) (l : list A) : 0 ≤ count_of p l.
Proof. unfold count_of. lia. Qed.

Lemma count_of_app {A} (p : A → bool) (l1 l2 : list A) :
  count_of p (l1 ++ l2) = count_of p l1 + count_of p l2.
Proof. unfold count_of. rewrite List.filter_app, length_app. lia. Qed.

Lemma snapshot_counts items plan :
  snapshotActivity items plan =
    ActivitySnapshot.mk (count_of is_assistant_message items) (count_of is_tool items)
      (count_of is_diff items) (completed_steps plan).
Proof.
  unfold snapshotActivity. rewrite snapshot_fold. simpl. by destruct plan.
Qed.

Lemma three_counts_bounded (items : list ConversationItem) :
  count_of is_assistant_message items + count_of is_tool items + count_of is_diff items
    ≤ Z.of_nat (length items).
Proof.
  induction items as [|item items IH]; [done|].
  unfold count_of, is_assistant_message, is_tool, is_diff in *. cbn [List.filter length].
  repeat case_bool_decide; cbn [length]; try (exfalso; intuition congruence); lia.
Qed.

Lemma completed_steps_nonneg plan : 0 ≤ completed_steps plan.
Proof. destruct plan; simpl; [apply count_of_nonneg|done]. Qed.

(** X23. [snapshotActivity] is a plain count.  Its counters are the
    numbers of assistant messages, of tool items, of diff items and of
    completed plan steps (0 without a plan); user messages, reasoning and
    review items are counted nowhere; no counter is negative, the three
    item counters together never exceed the length of the sequence, and
    the snapshot of two sequences put end to end is the sum of their
    snapshots. *)
Theorem snapshotActivity_counts items more plan :
  let s := snapshotActivity items plan in
  let s' := snapshotActivity (items ++ more) plan in
  (ActivitySnapshot.messageCount s = count_of is_assistant_message items ∧
   ActivitySnapshot.toolCallCount s = count_of is_tool items ∧
   ActivitySnapshot.diffCount s = count_of is_diff items ∧
   ActivitySnapshot.planCompleted s = completed_steps plan) ∧
  (0 ≤ ActivitySnapshot.messageCount s ∧ 0 ≤ ActivitySnapshot.toolCallCount s ∧
   0 ≤ ActivitySnapshot.diffCount s ∧ 0 ≤ ActivitySnapshot.planCompleted s ∧
   ActivitySnapshot.messageCount s + ActivitySnapshot.toolCallCount s
     + ActivitySnapshot.diffCount s ≤ Z.of_nat (length items)) ∧
  (ActivitySnapshot.messageCount s' =
     ActivitySnapshot.messageCount s + count_of is_assistant_message more ∧
   ActivitySnapshot.toolCallCount s' =
     ActivitySnapshot.toolCallCount s + count_of is_tool more ∧
   ActivitySnapshot.diffCount s' = ActivitySnapshot.diffCount s + count_of is_diff more ∧
   ActivitySnapshot.planCompleted s' = ActivitySnapshot.planCompleted s).
Proof.
  cbv zeta. rewrite !snapshot_counts. simpl. rewrite !count_of_app.
  repeat split; try apply count_of_nonneg; try apply three_counts_bounded.
  apply completed_steps_nonneg.
Qed.

(** ** Clamping *)

Lemma trimStart_split s : ∃ ws, s = ws ++ trimStart s ∧ all_whitespace ws.
Proof.
  induction s as [|c s (ws & Hs & Hws)]; [exists []; split; [done|constructor]|].
  cbn [trimStart]. destruct (is_whitespace c) eqn:Hc.
  - exists (c :: ws). split; [|by constructor].
    rewrite <- app_comm_cons. by f_equal.
  - exists []. split; [done|constructor].
Qed.

Lemma trimStart_head s c rest : trimStart s = c :: rest → is_whitespace c = false.
Proof.
  induction s as [|d s IH]; [done|]. cbn [trimStart].
  destruct (is_whitespace d) eqn:Hd; [done|]. by intros [= <- _].
Qed.

Lemma trimEnd_split s : ∃ ws, s = trimEnd s ++ ws ∧ all_whitespace ws.
Proof.
  destruct (trimStart_split (reverse s)) as (ws & Hs & Hws).
  exists (reverse ws). split; [|by apply Forall_reverse].
  unfold trimEnd. rewrite <- reverse_app, <- Hs. by rewrite reverse_involutive.
Qed.

Lemma trimEnd_last s c : last (trimEnd s) = Some c → is_whitespace c = false.
Proof.
  unfold trimEnd. rewrite last_reverse.
  destruct (trimStart (reverse s)) eqn:H; [done|]. intros [= <-]. by eapply trimStart_head.
Qed.

Lemma trimEnd_prefix s : trimEnd s `prefix_of` s.
Proof. destruct (trimEnd_split s) as (ws & Hs & _). by exists ws. Qed.

Lemma trimEnd_length s : (length (trimEnd s) ≤ length s)%nat.
Proof. apply prefix_length, trimEnd_prefix. Qed.

Lemma clampText_bounded input maxLen :
  1 ≤ maxLen → Z.of_nat (length (clampText input maxLen)) ≤ maxLen.
Proof.
  intros Hmax. unfold clampText. set (trimmed := trim input).
  destruct (Z.leb_spec (Z.of_nat (length trimmed)) maxLen) as [Hfit|Hlong]; [done|].
  set (n := Z.to_nat (Z.max 0 (maxLen - 1))).
  rewrite length_app. cbn [length ellipsis].
  pose proof (trimEnd_length (slice_to n trimmed)) as Hlen.
  unfold slice_to in *. rewrite length_take in Hlen. lia.
Qed.

(** X24. For a limit of at least one character [clampText] never returns
    more than the limit.  A text that fits once trimmed comes back
    trimmed and otherwise whole; a longer one comes back as a prefix of
    the trimmed text that does not end in white space, followed by the
    ellipsis. *)
Theorem clampText_fits_the_limit input maxLen :
  1 ≤ maxLen →
  let trimmed := trim input in
  let out := clampText input maxLen in
  Z.of_nat (length out) ≤ maxLen ∧
  (Z.of_nat (length trimmed) ≤ maxLen → out = trimmed) ∧
  (maxLen < Z.of_nat (length trimmed) →
     ∃ kept, out = kept ++ ellipsis ∧ kept `prefix_of` trimmed ∧
       ∀ c, last kept = Some c → is_whitespace c = false).
Proof.
  intros Hmax. cbv zeta. unfold clampText. set (trimmed := trim input).
  destruct (Z.leb_spec (Z.of_nat (length trimmed)) maxLen) as [Hfit|Hlong].
  - split; [done|]. split; [done|lia].
  - set (n := Z.to_nat (Z.max 0 (maxLen - 1))).
    set (kept := trimEnd (slice_to n trimmed)).
    split; [|split; [lia|]].
    + rewrite length_app. cbn [length ellipsis].
      pose proof (trimEnd_length (slice_to n trimmed)) as Hlen.
      unfold slice_to in *. rewrite length_take in Hlen. fold kept in Hlen. lia.
    + intros _. exists kept. split; [done|]. split; [|apply trimEnd_last].
      transitivity (take n trimmed); [apply trimEnd_prefix|apply prefix_take].
Qed.

Lemma clampText_fits_the_limit_witness :
  let trimmed := trim (lit "  a long title that goes on  ") in
  let out := clampText (lit "  a long title that goes on  ") 8 in
  Z.of_nat (length out) ≤ 8 ∧
  (Z.of_nat (length trimmed) ≤ 8 → out = trimmed) ∧
  (8 < Z.of_nat (length trimmed) →
     ∃ kept, out = kept ++ ellipsis ∧ kept `prefix_of` trimmed ∧
       ∀ c, last kept = Some c → is_whitespace c = false).
Proof.
  apply (clampText_fits_the_limit (lit "  a long title that goes on  ") 8). lia.
Defined.

(** ** What the hook hands to the card *)

Lemma clause_nonempty n noun rest : nonempty (clause n noun rest) = true.
Proof. unfold clause. by destruct (String_int n). Qed.

Lemma join_nonempty sep x rest :
  nonempty x = true → nonempty (join sep (x :: rest)) = true.
Proof. by destruct x, rest. Qed.

Lemma buildCurrentSummary_nonempty current : nonempty (buildCurrentSummary current) = true.
Proof.
  unfold buildCurrentSummary, push_if.
  destruct (ActivitySnapshot.planCompleted current >? 0),
    (ActivitySnapshot.diffCount current >? 0),
    (ActivitySnapshot.messageCount current >? 0);
    cbn [app is_empty negb andb]; try reflexivity;
    apply join_nonempty, clause_nonempty.
Qed.

Lemma buildSummary_says_something baseline current isProcessing hasPendingApproval :
  ∃ s, buildSummary baseline current isProcessing hasPendingApproval true = Some s ∧
       nonempty s = true.
Proof.
  unfold buildSummary. cbn [negb]. destruct baseline as [baseline|].
  2:{ eexists. split; [done|]. apply buildCurrentSummary_nonempty. }
  cbv zeta.
  destruct (_ && _ && _ && _).
  { by destruct isProcessing, hasPendingApproval; eexists. }
  unfold push_if.
  destruct (_ - _ >? 0), (_ - _ >? 0), (_ - _ >? 0), (_ - _ =? 0), (_ - _ >? 0);
    cbn [app is_empty negb andb]; eexists; (split; [reflexivity|]);
    try apply join_nonempty, clause_nonempty; by destruct isProcessing.
Qed.

Lemma clampText_label kind : clampText (fallbackTitle kind) 40 = fallbackTitle kind.
Proof. by destruct kind. Qed.

Lemma baseline_counters_of_object b :
  baseline_counters (baseline_object b) =
    Returns (Some (VNum (ActivitySnapshot.messageCount (HandoffBaseline.activity b)),
                   VNum (ActivitySnapshot.toolCallCount (HandoffBaseline.activity b)),
                   VNum (ActivitySnapshot.diffCount (HandoffBaseline.activity b)),
                   VNum (ActivitySnapshot.planCompleted (HandoffBaseline.activity b)))).
Proof. reflexivity. Qed.

(** On [null] and on a baseline the hook captured itself the dynamic
    reads succeed and [buildSummary] is the typed one. *)
Lemma buildSummary_on_held baseline current isProcessing hasPendingApproval hasItems :
  baseline = VNull ∨ (∃ b, baseline = baseline_object b) →
  ∃ typed,
    buildSummary_on baseline current isProcessing hasPendingApproval hasItems
      = Returns (buildSummary typed current isProcessing hasPendingApproval hasItems).
Proof.
  unfold buildSummary_on. intros [->|[b ->]].
  - exists None. by destruct hasItems.
  - exists (Some b). destruct hasItems; [|done]. cbn [negb].
    rewrite baseline_counters_of_object. cbn [mbind outcome_bind mret outcome_ret].
    by destruct b as [openedAt [m t d p]].
Qed.

(** X25. For a workspace and an id, both non-empty, and a baseline that
    is [null] or one the hook captured, the hook always has a TL;DR: of
    the given kind, with a title of at most 40 characters (the label
    "Session" or "Thread" when the title is missing or empty).  Without
    items it has no summary and the status "new"; with items it has a
    summary that is not the empty string, and its status is
    "waiting-approval" when an approval is pending, else "working" when
    processing, else "idle", never "new".  The proviso on the baseline is
    needed: with items and an adopted baseline that is the empty object
    the computation throws. *)
Theorem tldr_of_a_selected_session baseline w kind i title items plan
    isProcessing hasPendingApproval :
  nonempty w = true → nonempty i = true →
  baseline = VNull ∨ (∃ b, baseline = baseline_object b) →
  (∃ t,
     tldr baseline (Some w) kind (Some i) title items plan isProcessing hasPendingApproval
       = Returns (Some t) ∧
     HandoffTldr.kind t = kind ∧
     Z.of_nat (length (HandoffTldr.title t)) ≤ 40 ∧
     (title = None ∨ title = Some [] → HandoffTldr.title t = fallbackTitle kind) ∧
     (items = [] → HandoffTldr.summary t = None ∧ HandoffTldr.status t = StatusNew) ∧
     (items ≠ [] →
        (∃ s, HandoffTldr.summary t = Some s ∧ nonempty s = true) ∧
        HandoffTldr.status t =
          if hasPendingApproval then StatusWaitingApproval
          else if isProcessing then StatusWorking else StatusIdle)) ∧
  (items ≠ [] →
   tldr (VObj []) (Some w) kind (Some i) title items plan isProcessing hasPendingApproval
     = Throws).
Proof.
  intros Hw Hi Hbaseline. unfold tldr. cbn [first_truthy]. rewrite Hw, Hi. cbv zeta.
  split; [|by destruct items].
  destruct (buildSummary_on_held baseline (snapshotActivity items plan) isProcessing
              hasPendingApproval (negb (is_empty items)) Hbaseline) as [typed ->].
  cbn [mbind outcome_bind mret outcome_ret].
  eexists. split; [reflexivity|]. cbn [HandoffTldr.kind HandoffTldr.title HandoffTldr.summary
    HandoffTldr.status].
  split; [done|]. split; [by apply clampText_bounded|].
  split.
  { fold (fallbackTitle kind). intros [->| ->]; apply clampText_label. }
  split.
  - by intros ->.
  - intros Hitems. destruct items as [|item items]; [done|]. cbn [is_empty negb].
    split; [apply buildSummary_says_something|done].
Qed.

Lemma tldr_of_a_selected_session_witness :
  let items := [Item.message_item (lit "a1") RoleAssistant (lit "done")] in
  let title := Some (lit "  Fix the build  ") in
  (∃ t,
     tldr VNull (Some (lit "w1")) session (Some (lit "s1")) title items None false true
       = Returns (Some t) ∧
     HandoffTldr.kind t = session ∧
     Z.of_nat (length (HandoffTldr.title t)) ≤ 40 ∧
     (title = None ∨ title = Some [] → HandoffTldr.title t = fallbackTitle session) ∧
     (items = [] → HandoffTldr.summary t = None ∧ HandoffTldr.status t = StatusNew) ∧
     (items ≠ [] →
        (∃ s, HandoffTldr.summary t = Some s ∧ nonempty s = true) ∧
        HandoffTldr.status t = StatusWaitingApproval)) ∧
  (items ≠ [] →
   tldr (VObj []) (Some (lit "w1")) session (Some (lit "s1")) title items None false true
     = Throws).
Proof.
  intros items title.
  apply (tldr_of_a_selected_session VNull (lit "w1") session (lit "s1") title items None
           false true); [reflexivity|reflexivity|by left].
Defined.

(** X26. The card of such a TL;DR is never blank, so [HandoffTldrCard]
    does not return [null] for it.  Without items it shows the flag "NEW"
    and no summary; with items it shows a summary, the one
    [buildSummary] gives for the baseline, and the flag "NEEDS APPROVAL"
    when an approval is pending, else "WORKING" when processing, else no
    flag. *)
Theorem card_of_a_selected_session_is_never_blank baseline w kind i title items plan
    isProcessing hasPendingApproval :
  nonempty w = true → nonempty i = true →
  baseline = VNull ∨ (∃ b, baseline = baseline_object b) →
  ∃ t flag summary,
    tldr baseline (Some w) kind (Some i) title items plan isProcessing hasPendingApproval
      = Returns (Some t) ∧
    HandoffTldrCard t = Some (flag, summary) ∧
    (items = [] → flag = Some (lit "NEW") ∧ summary = None) ∧
    (items ≠ [] →
       flag = (if hasPendingApproval then Some (lit "NEEDS APPROVAL")
               else if isProcessing then Some (lit "WORKING") else None) ∧
       (∃ s, summary = Some s ∧ nonempty s = true) ∧
       buildSummary_on baseline (snapshotActivity items plan)
         isProcessing hasPendingApproval true = Returns summary).
Proof.
  intros Hw Hi Hbaseline. unfold tldr. cbn [first_truthy]. rewrite Hw, Hi. cbv zeta.
  destruct (buildSummary_on_held baseline (snapshotActivity items plan) isProcessing
              hasPendingApproval (negb (is_empty items)) Hbaseline) as [typed Htyped].
  rewrite Htyped. cbn [mbind outcome_bind mret outcome_ret].
  destruct items as [|item items].
  - eexists _, _, _. split; [reflexivity|]. cbn [is_empty negb buildSummary].
    split; [reflexivity|]. by split.
  - cbn [is_empty negb] in *.
    destruct (buildSummary_says_something typed
                (snapshotActivity (item :: items) plan) isProcessing hasPendingApproval)
      as (s & Hs & Hne).
    rewrite Hs in *. eexists _, _, _. split; [reflexivity|]. unfold HandoffTldrCard.
    cbn [HandoffTldr.status HandoffTldr.summary from_option]. rewrite Hne, orb_true_r.
    cbn [negb]. split; [reflexivity|].
    split; [done|]. intros _. split; [by destruct hasPendingApproval, isProcessing|].
    split; [by eexists|done].
Qed.

Lemma card_of_a_selected_session_is_never_blank_witness :
  let items := [Item.tool_item (lit "t1") (lit "bash") (lit "bash") [] (lit "running")
                  None None] in
  let baseline := baseline_object (HandoffBaseline.mk 1700 (snapshotActivity [] None)) in
  ∃ t flag summary,
    tldr baseline (Some (lit "w1")) session (Some (lit "s1")) None items None true false
      = Returns (Some t) ∧
    HandoffTldrCard t = Some (flag, summary) ∧
    (items = [] → flag = Some (lit "NEW") ∧ summary = None) ∧
    (items ≠ [] →
       flag = Some (lit "WORKING") ∧
       (∃ s, summary = Some s ∧ nonempty s = true) ∧
       buildSummary_on baseline (snapshotActivity items None) true false true
         = Returns summary).
Proof.
  intros items baseline.
  apply (card_of_a_selected_session_is_never_blank baseline (lit "w1") session (lit "s1")
           None items None true false); [reflexivity|reflexivity|right; by eexists].
Defined.

(** ** The summary against a baseline of the same session *)

Lemma buildSummary_on_deltas baseline current isProcessing hasPendingApproval :
  let base := HandoffBaseline.activity baseline in
  let msgDelta := ActivitySnapshot.messageCount current - ActivitySnapshot.messageCount base in
  let toolDelta := ActivitySnapshot.toolCallCount current - ActivitySnapshot.toolCallCount base in
  let diffDelta := ActivitySnapshot.diffCount current - ActivitySnapshot.diffCount base in
  let planDelta := ActivitySnapshot.planCompleted current - ActivitySnapshot.planCompleted base in
  buildSummary (Some baseline) current isProcessing hasPendingApproval true =
    Some (if decide (msgDelta = 0 ∧ toolDelta = 0 ∧ diffDelta = 0 ∧ planDelta = 0)
          then unchanged_summary isProcessing hasPendingApproval
          else match summary_clauses msgDelta toolDelta diffDelta planDelta with
               | [] => if isProcessing then Working else lit "Caught up"
               | clauses => join (lit ", ") clauses
               end).
Proof.
  destruct baseline as [openedAt [bm bt bd bp]], current as [cm ct cd cp].
  unfold buildSummary, summary_clauses, unchanged_summary. simpl.
  set (msgDelta := cm - bm). set (toolDelta := ct - bt).
  set (diffDelta := cd - bd). set (planDelta := cp - bp).
  destruct (decide (msgDelta = 0 ∧ toolDelta = 0 ∧ diffDelta = 0 ∧ planDelta = 0))
    as [(-> & -> & -> & ->)|Hnz].
  { simpl. by destruct isProcessing, hasPendingApproval. }
  replace ((msgDelta =? 0) && (toolDelta =? 0) && (diffDelta =? 0) && (planDelta =? 0))
    with false.
  2:{ symmetry. apply not_true_is_false. intros H.
      repeat (apply andb_prop in H as [H ?]). apply Hnz.
      repeat split; by apply Z.eqb_eq. }
  rewrite !gtb_bool_decide.
  replace (bool_decide (0 < toolDelta ∧ diffDelta = 0))
    with (bool_decide (0 < toolDelta) && (diffDelta =? 0)).
  2:{ destruct (Z.eqb_spec diffDelta 0), (decide (0 < toolDelta));
        rewrite ?bool_decide_eq_true_2, ?bool_decide_eq_false_2 by tauto; try done.
      all: symmetry; apply bool_decide_eq_false_2; tauto. }
  unfold push_if. rewrite !clause_noun_for, !app_nil_r.
  destruct (bool_decide (0 < planDelta)), (bool_decide (0 < diffDelta)),
    (bool_decide (0 < toolDelta)), (diffDelta =? 0), (bool_decide (0 < msgDelta));
    simpl; by destruct isProcessing.
Qed.

Lemma summary_clauses_of_growth msgDelta toolDelta diffDelta planDelta :
  0 ≤ msgDelta → 0 ≤ toolDelta → 0 ≤ diffDelta → 0 ≤ planDelta →
  summary_clauses msgDelta toolDelta diffDelta planDelta = [] ↔
  msgDelta = 0 ∧ toolDelta = 0 ∧ diffDelta = 0 ∧ planDelta = 0.
Proof.
  intros Hm Ht Hd Hp. unfold summary_clauses.
  repeat case_bool_decide; cbn [negb orb andb app]; split;
    try discriminate; try (intros _; exfalso; lia); try done; intros; lia.
Qed.

(** The decimal numeral of a positive integer starts with a digit. *)
Lemma String_int_head n :
  0 < n → ∃ c rest, String_int n = c :: rest ∧ (48 ≤ c ≤ 57)%N.
Proof.
  intros Hn. destruct n as [|p|p]; try lia.
  unfold String_int. cbn [Z.to_int NilZero.string_of_int NilZero.string_of_uint].
  destruct (Pos.to_uint p); eexists _, _; (split; [reflexivity|]); vm_compute;
    split; discriminate.
Qed.

Lemma summary_clauses_head msgDelta toolDelta diffDelta planDelta :
  summary_clauses msgDelta toolDelta diffDelta planDelta ≠ [] →
  ∃ n rest, 0 < n ∧
    join (lit ", ") (summary_clauses msgDelta toolDelta diffDelta planDelta)
      = String_int n ++ rest.
Proof.
  unfold summary_clauses.
  destruct (bool_decide (0 < planDelta)) eqn:Hp; [apply bool_decide_eq_true in Hp|];
    (destruct (bool_decide (0 < diffDelta)) eqn:Hd; [apply bool_decide_eq_true in Hd|]);
    (destruct (bool_decide (0 < toolDelta ∧ diffDelta = 0)) eqn:Ht;
       [apply bool_decide_eq_true in Ht as [Ht _]|]);
    (destruct (bool_decide (0 < msgDelta)) eqn:Hm; [apply bool_decide_eq_true in Hm|]);
    cbn [negb orb andb app join]; intros Hne; try done;
    rewrite <- ?app_assoc; eauto.
Qed.

(** X27. A baseline taken from an earlier state of the same items, the
    session having only gained items and completed plan steps since, and
    holding at least one item.  The summary is then "Working…", "Waiting
    for approval" or "No new activity" (in this order of precedence)
    exactly when no assistant message, tool item, diff item or completed
    step was gained, and otherwise the qualifying clauses over the gained
    counts, of which there is at least one; it is never "Caught up". *)
Theorem summary_after_growth openedAt items more plan plan' isProcessing hasPendingApproval :
  completed_steps plan ≤ completed_steps plan' →
  items ++ more ≠ [] →
  let baseline := HandoffBaseline.mk openedAt (snapshotActivity items plan) in
  let current := snapshotActivity (items ++ more) plan' in
  let clauses :=
    summary_clauses (count_of is_assistant_message more) (count_of is_tool more)
      (count_of is_diff more) (completed_steps plan' - completed_steps plan) in
  let summary :=
    buildSummary (Some baseline) current isProcessing hasPendingApproval
      (negb (is_empty (items ++ more))) in
  (clauses = [] ↔
     count_of is_assistant_message more = 0 ∧ count_of is_tool more = 0 ∧
     count_of is_diff more = 0 ∧ completed_steps plan' = completed_steps plan) ∧
  summary = Some (match clauses with
                  | [] => unchanged_summary isProcessing hasPendingApproval
                  | _ => join (lit ", ") clauses
                  end) ∧
  summary ≠ Some (lit "Caught up").
Proof.
  intros Hplan Hitems. cbv zeta.
  set (dm := count_of is_assistant_message more). set (dt := count_of is_tool more).
  set (dd := count_of is_diff more).
  set (dp := completed_steps plan' - completed_steps plan).
  assert (summary_clauses dm dt dd dp = [] ↔ dm = 0 ∧ dt = 0 ∧ dd = 0 ∧ dp = 0) as Hnone.
  { apply summary_clauses_of_growth; try apply count_of_nonneg. lia. }
  assert (buildSummary
            (Some (HandoffBaseline.mk openedAt (snapshotActivity items plan)))
            (snapshotActivity (items ++ more) plan') isProcessing hasPendingApproval
            (negb (is_empty (items ++ more)))
          = Some (match summary_clauses dm dt dd dp with
                  | [] => unchanged_summary isProcessing hasPendingApproval
                  | _ => join (lit ", ") (summary_clauses dm dt dd dp)
                  end)) as Hsummary.
  { replace (negb (is_empty (items ++ more))) with true
      by (by destruct (items ++ more)).
    rewrite buildSummary_on_deltas, !snapshot_counts. cbv zeta.
    cbn [HandoffBaseline.activity ActivitySnapshot.messageCount
         ActivitySnapshot.toolCallCount ActivitySnapshot.diffCount
         ActivitySnapshot.planCompleted].
    rewrite !count_of_app.
    replace (count_of is_assistant_message items + count_of is_assistant_message more
             - count_of is_assistant_message items) with dm by (subst dm; lia).
    replace (count_of is_tool items + count_of is_tool more - count_of is_tool items)
      with dt by (subst dt; lia).
    replace (count_of is_diff items + count_of is_diff more - count_of is_diff items)
      with dd by (subst dd; lia).
    fold dp. f_equal.
    destruct (decide (dm = 0 ∧ dt = 0 ∧ dd = 0 ∧ dp = 0)) as [Hz|Hnz].
    - by rewrite (proj2 Hnone Hz).
    - destruct (summary_clauses dm dt dd dp); [|done]. by destruct Hnz; apply Hnone. }
  split; [|split; [done|]].
  { rewrite Hnone. subst dp. intuition lia. }
  rewrite Hsummary. intros [= Heq].
  destruct (summary_clauses dm dt dd dp) as [|clause0 rest] eqn:Hclauses.
  - revert Heq. unfold unchanged_summary.
    by destruct isProcessing, hasPendingApproval; vm_compute.
  - destruct (summary_clauses_head dm dt dd dp) as (n & tail & Hn & Hjoin);
      [by rewrite Hclauses|].
    rewrite Hclauses in Hjoin. rewrite Hjoin in Heq.
    destruct (String_int_head n Hn) as (c & cs & Hc & Hdigit). rewrite Hc in Heq.
    change (lit "Caught up") with (67%N :: lit "aught up") in Heq.
    apply (f_equal head) in Heq. cbn [head app] in Heq.
    assert (c = 67%N) by congruence. lia.
Qed.

Lemma summary_after_growth_witness :
  let items := [Item.message_item (lit "u1") RoleUser (lit "go")] in
  let more := [Item.tool_item (lit "t1") (lit "bash") (lit "bash") [] (lit "running")
                 None None] in
  let baseline := HandoffBaseline.mk 0 (snapshotActivity items None) in
  let current := snapshotActivity (items ++ more) None in
  let clauses :=
    summary_clauses (count_of is_assistant_message more) (count_of is_tool more)
      (count_of is_diff more) (completed_steps None - completed_steps None) in
  let summary := buildSummary (Some baseline) current true false
                   (negb (is_empty (items ++ more))) in
  (clauses = [] ↔
     count_of is_assistant_message more = 0 ∧ count_of is_tool more = 0 ∧
     count_of is_diff more = 0 ∧ completed_steps None = completed_steps None) ∧
  summary = Some (match clauses with
                  | [] => unchanged_summary true false
                  | _ => join (lit ", ") clauses
                  end) ∧
  summary ≠ Some (lit "Caught up").
Proof.
  apply (summary_after_growth 0
           [Item.message_item (lit "u1") RoleUser (lit "go")]
           [Item.tool_item (lit "t1") (lit "bash") (lit "bash") [] (lit "running")
              None None] None None true false).
  - reflexivity.
  - discriminate.
Defined.

(** ** Items from message parts *)

Lemma foldl_appends {A B} (f : list B → A → list B) (g : A → list B) :
  (∀ acc a, f acc a = acc ++ g a) →
  ∀ l acc, foldl f acc l = acc ++ foldl f [] l.
Proof.
  intros Hf l. induction l as [|a l IH]; intros acc; [by rewrite app_nil_r|].
  cbn [foldl]. rewrite IH, (IH (f [] a)), !Hf. by rewrite app_assoc.
Qed.

Lemma messagePartsToItems_cons {Input} (stringify : Input → jsstring) messageId role
    part parts :
  messagePartsToItems stringify messageId role (part :: parts) =
    messagePartsToItems stringify messageId role [part]
      ++ messagePartsToItems stringify messageId role parts.
Proof.
  unfold messagePartsToItems. cbn [foldl].
  rewrite (foldl_appends _ (λ p, messagePartsToItems stringify messageId role [p])).
  - done.
  - intros acc p. unfold messagePartsToItems. cbn [foldl].
    destruct p; by rewrite ?app_nil_r.
Qed.

Lemma count_of_cons {A} (p : A → bool) (x : A) (l : list A) :
  count_of p (x :: l) = (if p x then 1 else 0) + count_of p l.
Proof. unfold count_of. cbn [List.filter]. destruct (p x); cbn [length]; lia. Qed.

(** X28. [messagePartsToItems] converts part by part and in order: the
    items of two runs of parts are the items of the first followed by
    those of the second, and there is one item per part that is not a
    file part.  Seen through [snapshotActivity], the text parts count as
    messages when the role is assistant and not at all when it is user, a
    tool use and a tool result count as one tool item each, and every
    patch counts as a diff. *)
Theorem messagePartsToItems_counts {Input} (stringify : Input → jsstring)
    messageId role parts more plan :
  let items := messagePartsToItems stringify messageId role parts in
  messagePartsToItems stringify messageId role (parts ++ more)
    = items ++ messagePartsToItems stringify messageId role more ∧
  Z.of_nat (length items) = count_of (λ part, negb (is_file_part part)) parts ∧
  snapshotActivity items plan =
    ActivitySnapshot.mk
      (match role with RoleAssistant => count_of is_text_part parts | RoleUser => 0 end)
      (count_of is_tool_part parts) (count_of is_patch_part parts) (completed_steps plan).
Proof.
  cbv zeta. split; [|split].
  - induction parts as [|part parts IH]; [done|].
    rewrite <- app_comm_cons, messagePartsToItems_cons, IH.
    by rewrite (messagePartsToItems_cons _ _ _ part parts), app_assoc.
  - induction parts as [|part parts IH]; [done|].
    rewrite messagePartsToItems_cons, length_app, count_of_cons, Nat2Z.inj_add, IH.
    by destruct part.
  - rewrite snapshot_counts. induction parts as [|part parts IH]; [by destruct role|].
    injection IH as Hm Ht Hd.
    rewrite messagePartsToItems_cons, !count_of_app, !count_of_cons, Hm, Ht, Hd.
    by destruct part, role.
Qed.

(** ** The stored baseline *)

(** X29. The baseline captured when a session is first opened is the one
    later mounts get.  With no entry under the key, the load effect
    captures the snapshot of the items and plan of the moment and stores
    its JSON text under the key; if that text is not empty and parses
    back to the value, the effect run again on the store it left, at any
    later time and with any later items and plan, returns the same
    baseline and writes nothing. *)
Theorem captured_baseline_is_kept env env' kind w i localStorage items plan items' plan' :
  nonempty w = true → nonempty i = true →
  localStorage !! baselineKey kind w i = None →
  nonempty (Env.JSON_stringify env
    (baseline_object (HandoffBaseline.mk (Env.now env) (snapshotActivity items plan))))
    = true →
  Env.JSON_parse env' (Env.JSON_stringify env
    (baseline_object (HandoffBaseline.mk (Env.now env) (snapshotActivity items plan))))
    = Some (baseline_object
              (HandoffBaseline.mk (Env.now env) (snapshotActivity items plan))) →
  let first := load_baseline env kind (Some w) (Some i) localStorage items plan in
  first.1 = baseline_object (HandoffBaseline.mk (Env.now env) (snapshotActivity items plan)) ∧
  first.2 !! baselineKey kind w i = Some (Env.JSON_stringify env first.1) ∧
  (∀ key, key ≠ baselineKey kind w i → first.2 !! key = localStorage !! key) ∧
  load_baseline env' kind (Some w) (Some i) first.2 items' plan' = first.
Proof.
  intros Hw Hi Habsent Htext Hparse first. subst first.
  rewrite (load_baseline_captures_fresh env kind w i localStorage items plan Hw Hi)
    by (by rewrite Habsent).
  cbv zeta. cbn [fst snd]. split; [done|]. split; [by rewrite lookup_insert_eq|].
  split; [by intros key Hkey; rewrite lookup_insert_ne|].
  unfold load_baseline, first_truthy. rewrite Hw, Hi, lookup_insert_eq, Htext.
  by rewrite Hparse.
Qed.

Lemma captured_baseline_is_kept_witness :
  let b := baseline_object (HandoffBaseline.mk 1700 (snapshotActivity [] None)) in
  let env := Env.mk 1700 [] (λ _, lit "{...}") (λ _, Some b) in
  let env' := Env.mk 1800 [] (λ _, lit "{...}") (λ _, Some b) in
  let first := load_baseline env session (Some (lit "w1")) (Some (lit "s1")) ∅ [] None in
  first.1 = b ∧
  first.2 !! baselineKey session (lit "w1") (lit "s1")
    = Some (Env.JSON_stringify env first.1) ∧
  (∀ key, key ≠ baselineKey session (lit "w1") (lit "s1") →
     first.2 !! key = (∅ : gmap jsstring jsstring) !! key) ∧
  load_baseline env' session (Some (lit "w1")) (Some (lit "s1")) first.2
    [Item.message_item (lit "a1") RoleAssistant (lit "hi")] None = first.
Proof.
  intros b env env'.
  apply (captured_baseline_is_kept env env' session (lit "w1") (lit "s1") ∅ [] None
           [Item.message_item (lit "a1") RoleAssistant (lit "hi")] None);
    reflexivity.
Defined.

Lemma split_at_colon (w w' i i' : jsstring) :
  58%N ∉ w → 58%N ∉ w' →
  w ++ lit ":" ++ i = w' ++ lit ":" ++ i' → w = w' ∧ i = i'.
Proof.
  change (lit ":") with [58%N].
  revert w'. induction w as [|c w IH]; intros [|c' w'] Hw Hw'; cbn [app].
  - by intros [= ->].
  - intros [= <- _]. destruct Hw'. apply list_elem_of_here.
  - intros [= -> _]. destruct Hw. apply list_elem_of_here.
  - intros [= -> Heq]. destruct (IH w') as [-> ->]; try done.
    + intros Hin. apply Hw. by apply list_elem_of_further.
    + intros Hin. apply Hw'. by apply list_elem_of_further.
Qed.

(** X30. The storage key tells sessions apart as long as the workspace
    ids hold no colon: two keys are equal only for the same kind, the
    same workspace id and the same id.  The proviso is needed, for a
    colon can move between the workspace id and the id without changing
    the key. *)
Theorem baselineKey_separates kind kind' w w' i i' :
  58%N ∉ w → 58%N ∉ w' →
  (baselineKey kind w i = baselineKey kind' w' i' → kind = kind' ∧ w = w' ∧ i = i') ∧
  (∀ x, baselineKey kind (w ++ lit ":" ++ x) i = baselineKey kind w (x ++ lit ":" ++ i)).
Proof.
  intros Hw Hw'. split.
  - unfold baselineKey. intros Heq. do 3 apply app_inv_head in Heq.
    destruct kind, kind'.
    + do 2 apply app_inv_head in Heq. by destruct (split_at_colon _ _ _ _ Hw Hw' Heq).
    + apply (f_equal head) in Heq. vm_compute in Heq. discriminate.
    + apply (f_equal head) in Heq. vm_compute in Heq. discriminate.
    + do 2 apply app_inv_head in Heq. by destruct (split_at_colon _ _ _ _ Hw Hw' Heq).
  - intros x. unfold baselineKey. by rewrite <- !app_assoc.
Qed.

Lemma baselineKey_separates_witness :
  (baselineKey session (lit "w1") (lit "s1") = baselineKey thread (lit "w1") (lit "s1") →
     session = thread ∧ lit "w1" = lit "w1" ∧ lit "s1" = lit "s1") ∧
  (∀ x, baselineKey session (lit "w1" ++ lit ":" ++ x) (lit "s1")
        = baselineKey session (lit "w1") (x ++ lit ":" ++ lit "s1")).
Proof.
  apply (baselineKey_separates session thread (lit "w1") (lit "w1") (lit "s1") (lit "s1"));
    vm_compute; intros Hin; repeat (apply elem_of_cons in Hin as [Hin|Hin]; [discriminate|]);
    by apply elem_of_nil in Hin.
Defined.
